(** * sync-acme-to-nc: deployment of an ACME certificate to the netcup panels

    A shallow embedding of [src/main.py] and the properties of its
    identifier resolution, certificate naming and failure handling.

    The program drives a browser through Playwright.  Its own control flow,
    its global variables, its log and its exceptions are modelled here as a
    state-and-exception monad; every call into the browser (and into the
    clock, the file system and the one-time-password library) is a command
    answered by an environment the theorems quantify over.  Values that come
    back from the page as JSON are Python values: [None], booleans, integers,
    floats, strings, lists and dictionaries. *)

From Stdlib Require Import ZArith String Ascii List Bool SpecFloat Lia.
From stdpp Require Import gmap strings list pretty.

Open Scope string_scope.
Open Scope Z_scope.

(** ** Python strings

    A [str] is modelled by the bytes of its UTF-8 encoding.  Equality,
    [endswith] and [in] agree on code points and on their encodings, since
    UTF-8 is self-synchronising. *)

Module PyStr.

(** [s.endswith(suffix)] *)
Definition endswith (s suffix : string) : bool :=
  let n := String.length s in
  let m := String.length suffix in
  (m <=? n)%nat && String.eqb (String.substring (n - m) m s) suffix.

(** [sub in s] on two strings *)
Fixpoint contains (sub s : string) : bool :=
  String.prefix sub s ||
  match s with
  | EmptyString => false
  | String _ s' => contains sub s'
  end.

(** [s.split('.')[0]]: the characters before the first dot, the whole
    string when it has none. *)
Fixpoint first_label (s : string) : string :=
  match s with
  | EmptyString => EmptyString
  | String c s' => if Ascii.eqb c "." then EmptyString else String c (first_label s')
  end.

(** [not s] *)
Definition is_empty (s : string) : bool :=
  match s with EmptyString => true | _ => false end.

(** [str(x)] inside an f-string for a value that may be [None] *)
Definition of_option (o : option string) : string :=
  match o with Some s => s | None => "None" end.

End PyStr.

(** ** Python values decoded from JSON

    A float is an IEEE 754 value: a signed zero, a signed infinity, NaN or
    a finite number with its sign, mantissa and exponent. *)

#[warnings="-register-all"]
Inductive json : Type :=
| JNull
| JBool (b : bool)
| JInt (z : Z)
| JFloat (f : spec_float)
| JStr (s : string)
| JArr (l : list json)
| JObj (m : gmap string json).

(** ** Exceptions *)

Inductive exn_class : Type :=
| CException            (* raise Exception(...) *)
| CAttributeError
| CTypeError
| CValueError
| CKeyError
| CFileNotFoundError
| COSError
| CAssertionError       (* a failed playwright expect(...) *)
| CPlaywrightError      (* playwright.async_api.Error *)
| CTimeoutError         (* playwright.async_api.TimeoutError *)
| CCancelledError       (* asyncio.CancelledError: a BaseException *)
| CKeyboardInterrupt.   (* a BaseException *)

Record exn : Type := Exn { exn_cls : exn_class; exn_msg : string }.

(** [isinstance(e, Exception)] *)
Definition is_Exception (e : exn) : bool :=
  match exn_cls e with
  | CCancelledError | CKeyboardInterrupt => false
  | _ => true
  end.

(** [isinstance(e, FileNotFoundError)] *)
Definition is_FileNotFoundError (e : exn) : bool :=
  match exn_cls e with CFileNotFoundError => true | _ => false end.

Definition Exception (msg : string) : exn := Exn CException msg.

(** [str(e)], as interpolated by [f"...{e}"] *)
Definition exn_str (e : exn) : string := exn_msg e.

Definition result (A : Type) : Type := exn + A.

Module Py.

Definition type_name (v : json) : string :=
  match v with
  | JNull => "NoneType"
  | JBool _ => "bool"
  | JInt _ => "int"
  | JFloat _ => "float"
  | JStr _ => "str"
  | JArr _ => "list"
  | JObj _ => "dict"
  end.

Definition AttributeError (v : json) (attr : string) : exn :=
  Exn CAttributeError
      ("'" ++ type_name v ++ "' object has no attribute '" ++ attr ++ "'").

(** [bool(v)] *)
Definition truthy (v : json) : bool :=
  match v with
  | JNull => false
  | JBool b => b
  | JInt z => negb (z =? 0)
  | JFloat f => match f with S754_zero _ => false | _ => true end
  | JStr s => negb (PyStr.is_empty s)
  | JArr l => match l with [] => false | _ => true end
  | JObj m => negb (Nat.eqb (size m) 0)
  end.

(** [v.get(key, default)]: only a dict has the method. *)
Definition get (v : json) (key : string) (dflt : json) : result json :=
  match v with
  | JObj m => inr (default dflt (m !! key))
  | _ => inl (AttributeError v "get")
  end.

(** [v == s] for a [str] s *)
Definition eq_str (v : json) (s : string) : bool :=
  match v with
  | JStr t => String.eqb t s
  | _ => false
  end.

(** [v.endswith(suffix)]: only a str has the method. *)
Definition endswith (v : json) (suffix : string) : result bool :=
  match v with
  | JStr s => inr (PyStr.endswith s suffix)
  | _ => inl (AttributeError v "endswith")
  end.

(** [needle in v] for a [str] needle: key membership on a dict, element
    membership on a list, substring on a str, a TypeError otherwise. *)
Definition contains (needle : string) (v : json) : result bool :=
  match v with
  | JObj m => inr (match m !! needle with Some _ => true | None => false end)
  | JArr l => inr (existsb (fun x => eq_str x needle) l)
  | JStr s => inr (PyStr.contains needle s)
  | _ => inl (Exn CTypeError
                ("argument of type '" ++ type_name v ++ "' is not iterable"))
  end.

(** [isinstance(v, list)] *)
Definition is_list (v : json) : bool :=
  match v with JArr _ => true | _ => false end.

End Py.

(** What the interpreter and its libraries compute and the program only
    passes on: the text [str()] gives a float, a list or a dict, the text of
    a [dict_keys] view, and [urlparse(url).hostname] (which is [None] or a
    non-empty string, and raises ValueError on some malformed addresses). *)
Record platform : Type := Platform {
  py_repr : json -> string;
  dict_keys_str : gmap string json -> string;
  urlparse_hostname : string -> result (option string)
}.

(** [str(v)] *)
Definition py_str (pf : platform) (v : json) : string :=
  match v with
  | JStr s => s
  | JNull => "None"
  | JBool true => "True"
  | JBool false => "False"
  | JInt z => pretty z
  | JFloat _ | JArr _ | JObj _ => py_repr pf v
  end.

(** ** Configuration, globals, log *)

(** The module-level constants read from the environment by [get_env]. *)
Record Config : Type := {
  NC_USER : string;
  NC_PASS : string;
  NC_2FA_SECRET : string;
  NC_PRODUCT_ID : string;
  NC_DOMAIN : string;
  NC_CCP : string;
  SSL_PRIVATE_KEY : string;
  SSL_CERT_KEY : string
}.

(** The module-level variables the stages write and later stages read. *)
Record globals : Type := Globals {
  MAILHOSTING_ID : option string;
  WEBHOSTING_ID : option string;
  MAIN_WEB_ID : option string;
  ALL_WEB_IDS : list string;
  MAIL_ID : option string
}.

Definition initial_globals : globals :=
  {| MAILHOSTING_ID := None; WEBHOSTING_ID := None;
     MAIN_WEB_ID := None; ALL_WEB_IDS := []; MAIL_ID := None |}.

Inductive level : Type := INFO | WARNING | ERROR.

Definition log_record : Type := (level * string)%type.

(** ** The browser and the other collaborators *)

Definition page : Type := nat.

(** A naive [datetime], as [datetime.now()] returns it. *)
Record datetime : Type := Datetime {
  dt_year : Z; dt_month : Z; dt_day : Z; dt_second_of_day : Z
}.

Inductive locator : Type :=
| get_by_placeholder (text : string)
| get_by_role (role name : string)
| get_by_text (text : string) (exact : bool)
| get_by_label (text : string) (exact : bool)
| page_locator (selector : string) (has_text : option string)
| loc_filter (l : locator) (has_text : string)
| loc_locator (l : locator) (selector : string)
| loc_first (l : locator).

(** One constructor per awaited call (or property read) of the program; the
    index is the type of the value it gives back. *)
Inductive cmd : Type -> Type :=
| Goto (p : page) (url : string) : cmd unit
| PageUrl (p : page) : cmd string
| PageContent (p : page) : cmd string
| WaitForLoadState (p : page) (state : string) (timeout : option Z) : cmd unit
| WaitForUrl (p : page) (pattern : string) : cmd unit
| WaitForSelector (p : page) (selector state : string) : cmd unit
| Fill (p : page) (l : locator) (value : string) : cmd unit
| Click (p : page) (l : locator) : cmd unit
| CheckBox (p : page) (l : locator) : cmd unit
| IsVisible (p : page) (l : locator) : cmd bool
| Count (p : page) (l : locator) : cmd nat
| GetAttribute (p : page) (l : locator) (name : string) : cmd (option string)
| ExpectVisible (p : page) (l : locator) (timeout : Z) : cmd unit
| ExpectPageClick (p : page) (l : locator) : cmd page
| Evaluate (p : page) (script : string) : cmd json
| ClosePage (p : page) : cmd unit
| Screenshot (p : page) (path : string) : cmd unit
| LaunchBrowser : cmd page
| CloseContext : cmd unit
| CloseBrowser : cmd unit
| TotpNow (secret : string) : cmd string
| DatetimeNow : cmd datetime
| ReadFile (path : string) : cmd string.

(** A command that was issued, with the answer it got. *)
Inductive event : Type :=
| Ev {X : Type} (c : cmd X) (r : result X).

(** ** The monad of the program *)

Section Monad.

(** The state of the collaborators and how they answer a command. *)
Context {B : Type}.

Record world : Type := World {
  w_globals : globals;
  w_log : list log_record;
  w_trace : list event;
  w_browser : B
}.

Definition M (A : Type) : Type := world -> result A * world.

Definition ret {A} (a : A) : M A := fun w => (inr a, w).

Definition raise {A} (e : exn) : M A := fun w => (inl e, w).

Definition bind {A C} (m : M A) (k : A -> M C) : M C :=
  fun w =>
    match m w with
    | (inr a, w') => k a w'
    | (inl e, w') => (inl e, w')
    end.

(** [try: m  except: h] *)
Definition try_except {A} (m : M A) (h : exn -> M A) : M A :=
  fun w =>
    match m w with
    | (inr a, w') => (inr a, w')
    | (inl e, w') => h e w'
    end.

(** [try: m  except C as e: h], for the class test [is_C] *)
Definition try_except_as {A} (is_C : exn -> bool) (m : M A) (h : exn -> M A) : M A :=
  try_except m (fun e => if is_C e then h e else raise e).

(** [try: m  finally: f] *)
Definition try_finally {A} (m : M A) (f : M unit) : M A :=
  fun w =>
    match m w with
    | (r, w') =>
        match f w' with
        | (inr _, w'') => (r, w'')
        | (inl e, w'') => (inl e, w'')
        end
    end.

Definition lift_result {A} (r : result A) : M A := fun w => (r, w).

Definition read_globals : M globals := fun w => (inr (w_globals w), w).

Definition write_globals (f : globals -> globals) : M unit :=
  fun w => (inr tt, {| w_globals := f (w_globals w); w_log := w_log w;
                       w_trace := w_trace w; w_browser := w_browser w |}).

Definition logger (l : level) (msg : string) : M unit :=
  fun w => (inr tt, {| w_globals := w_globals w; w_log := w_log w ++ [(l, msg)];
                       w_trace := w_trace w; w_browser := w_browser w |}).

(** An awaited call: the environment answers, the trace records it. *)
Definition call (env : forall X, cmd X -> B -> result X * B) {X} (c : cmd X) : M X :=
  fun w =>
    match env X c (w_browser w) with
    | (r, b') => (r, {| w_globals := w_globals w; w_log := w_log w;
                        w_trace := w_trace w ++ [Ev c r]; w_browser := b' |})
    end.

(** [for x in l: s = body x s] with the loop's local variables in [s] *)
Fixpoint for_in {A S} (l : list A) (body : A -> S -> M S) (s : S) : M S :=
  match l with
  | [] => ret s
  | x :: l' => bind (body x s) (for_in l' body)
  end.

End Monad.

Arguments world : clear implicits.
Arguments M : clear implicits.

Declare Scope prog_scope.
Delimit Scope prog_scope with prog.
Notation "x <- c1 ;; c2" := (bind c1 (fun x => c2))
  (at level 100, c1 at next level, right associativity) : prog_scope.
Notation "c1 ;; c2" := (bind c1 (fun _ => c2))
  (at level 100, right associativity) : prog_scope.

Definition set_MAILHOSTING_ID (v : option string) (g : globals) : globals :=
  {| MAILHOSTING_ID := v; WEBHOSTING_ID := WEBHOSTING_ID g;
     MAIN_WEB_ID := MAIN_WEB_ID g; ALL_WEB_IDS := ALL_WEB_IDS g; MAIL_ID := MAIL_ID g |}.

Definition set_WEBHOSTING_ID (v : option string) (g : globals) : globals :=
  {| MAILHOSTING_ID := MAILHOSTING_ID g; WEBHOSTING_ID := v;
     MAIN_WEB_ID := MAIN_WEB_ID g; ALL_WEB_IDS := ALL_WEB_IDS g; MAIL_ID := MAIL_ID g |}.

Definition set_MAIN_WEB_ID (v : option string) (g : globals) : globals :=
  {| MAILHOSTING_ID := MAILHOSTING_ID g; WEBHOSTING_ID := WEBHOSTING_ID g;
     MAIN_WEB_ID := v; ALL_WEB_IDS := ALL_WEB_IDS g; MAIL_ID := MAIL_ID g |}.

Definition set_ALL_WEB_IDS (v : list string) (g : globals) : globals :=
  {| MAILHOSTING_ID := MAILHOSTING_ID g; WEBHOSTING_ID := WEBHOSTING_ID g;
     MAIN_WEB_ID := MAIN_WEB_ID g; ALL_WEB_IDS := v; MAIL_ID := MAIL_ID g |}.

(** [ALL_WEB_IDS.append(x)] *)
Definition append_ALL_WEB_IDS (x : string) (g : globals) : globals :=
  set_ALL_WEB_IDS (ALL_WEB_IDS g ++ [x]) g.

Definition set_MAIL_ID (v : option string) (g : globals) : globals :=
  {| MAILHOSTING_ID := MAILHOSTING_ID g; WEBHOSTING_ID := WEBHOSTING_ID g;
     MAIN_WEB_ID := MAIN_WEB_ID g; ALL_WEB_IDS := ALL_WEB_IDS g; MAIL_ID := v |}.

(** The script [get_web_internal_ids] evaluates in the page: it finds the
    inline script that calls [Plesk.run] and parses that call's argument. *)
Definition PLESK_SCRIPT : string :=
"
        () => {
            try {
                const scripts = Array.from(document.querySelectorAll('body script'));
                const targetScript = scripts.find(s => s.innerText.includes('Plesk.run') && s.innerText.includes('siteJetBannerProps'));

                if (targetScript) {
                    const raw = targetScript.innerText;
                    const startMarker = 'Plesk.run(';
                    const startIndex = raw.indexOf(startMarker);

                    if (startIndex !== -1) {
                        let jsonStr = raw.substring(startIndex + startMarker.length);
                        const lastIndex = jsonStr.lastIndexOf('});');
                        if (lastIndex !== -1) {
                            jsonStr = jsonStr.substring(0, lastIndex + 1);
                            return JSON.parse(jsonStr);
                        }
                    }
                }
                return null;
            } catch (e) {
                return {error: e.toString()};
            }
        }
        ".

(** The double quote character, for selectors that contain it. *)
Definition dquote : string := String "034"%char EmptyString.

(** ** Dates *)

Definition digit (n : Z) : ascii := ascii_of_nat (48 + Z.to_nat (n mod 10)).

Definition digits2 (n : Z) : string :=
  String (digit (n / 10)) (String (digit n) EmptyString).

Definition digits4 (n : Z) : string :=
  String (digit (n / 1000)) (String (digit (n / 100)) (digits2 n)).

(** [now.strftime("%Y%m%d")], for a year of four digits *)
Definition strftime_Ymd (now : datetime) : string :=
  digits4 (dt_year now) ++ digits2 (dt_month now) ++ digits2 (dt_day now).

(** ** The program *)

Section Program.

Context (pf : platform) (cfg : Config).
Context {B : Type} (env : forall X, cmd X -> B -> result X * B).

Local Open Scope prog_scope.

Local Abbreviation M := (M B).
Local Abbreviation await c := (call env c).

(** *** Web identifiers: the domain list inside the page's data object *)

(** Lines 216-228: [level1], [level2] and the two places where the list
    is looked for. *)
Definition locate_domains_list (data_obj : json) : M (list json) :=
  level1 <- lift_result (Py.get data_obj "data" (JObj ∅)) ;;
  let level1 := if Py.truthy level1 then level1 else data_obj in
  level2 <- lift_result (Py.get level1 "data" (JObj ∅)) ;;
  domains_list <- lift_result (Py.get level2 "data" (JArr [])) ;;
  domains_list <- (if Py.is_list domains_list then ret domains_list
                   else lift_result (Py.get level1 "data" (JArr []))) ;;
  match domains_list with
  | JArr l => ret l
  | _ =>
      keys <- (match data_obj with
               | JObj m => ret (dict_keys_str pf m)
               | _ => raise (Py.AttributeError data_obj "keys")
               end) ;;
      logger ERROR ("Could not locate domain list in JSON object. Keys: " ++ keys) ;;
      raise (Exception "JSON structure mismatch")
  end.

(** Lines 236-247: the body of the loop over the domain list; the local
    [found_main] goes in and comes out. *)
Definition scan_item (item : json) (found_main : bool) : M bool :=
  d_name <- lift_result (Py.get item "displayName" JNull) ;;
  d_id_raw <- lift_result (Py.get item "domainId" JNull) ;;
  let d_id := py_str pf d_id_raw in
  if Py.eq_str d_name (NC_DOMAIN cfg) then
    write_globals (set_MAIN_WEB_ID (Some d_id)) ;;
    write_globals (append_ALL_WEB_IDS d_id) ;;
    g <- read_globals ;;
    logger INFO ("-> Global MAIN_WEB_ID set: " ++ PyStr.of_option (MAIN_WEB_ID g)
                 ++ " (" ++ py_str pf d_name ++ ")") ;;
    ret true
  else
    is_sub <- lift_result (Py.endswith d_name ("." ++ NC_DOMAIN cfg)) ;;
    if is_sub : bool then
      write_globals (append_ALL_WEB_IDS d_id) ;;
      logger INFO ("-> Subdomain ID found: " ++ d_id ++ " (" ++ py_str pf d_name ++ ")") ;;
      ret found_main
    else ret found_main.

(** Lines 230-254: the scan and the choice of the main identifier. *)
Definition resolve_domains (domains_list : list json) : M unit :=
  write_globals (set_ALL_WEB_IDS []) ;;
  logger INFO ("Processing " ++ pretty (length domains_list)
               ++ " domains from Browser JSON...") ;;
  found_main <- for_in domains_list scan_item false ;;
  if negb found_main then
    g <- read_globals ;;
    match ALL_WEB_IDS g with
    | first :: _ =>
        logger WARNING ("Main domain " ++ NC_DOMAIN cfg
                        ++ " not found, utilizing first subdomain as fallback.") ;;
        write_globals (set_MAIN_WEB_ID (Some first))
    | [] =>
        raise (Exception ("Target domain " ++ NC_DOMAIN cfg
                          ++ " not found in Plesk data."))
    end
  else ret tt.

(** [data_obj['error']] inside the f-string of line 213 *)
Definition error_item (data_obj : json) : result json :=
  match data_obj with
  | JObj m =>
      match m !! "error" with
      | Some v => inr v
      | None => inl (Exn CKeyError "'error'")
      end
  | JArr _ => inl (Exn CTypeError "list indices must be integers or slices, not str")
  | _ => inl (Exn CTypeError "string indices must be integers, not 'str'")
  end.

(** Lines 215-258: the [try] block and its handler. *)
Definition parse_data_obj (data_obj : json) : M unit :=
  try_except_as is_Exception
    (domains_list <- locate_domains_list data_obj ;;
     resolve_domains domains_list)
    (fun e =>
       logger ERROR ("Error parsing returned JSON data: " ++ exn_str e) ;;
       raise e).

Definition get_web_internal_ids (p : page) : M unit :=
  logger INFO ("Navigating to Web View to find IDs for " ++ NC_DOMAIN cfg) ;;
  data_obj <- await (Evaluate p PLESK_SCRIPT) ;;
  if negb (Py.truthy data_obj) then
    logger ERROR "JS execution returned null. Could not find Plesk data object." ;;
    raise (Exception "Failed to retrieve Plesk data via JS")
  else
    has_error <- lift_result (Py.contains "error" data_obj) ;;
    if has_error : bool then
      err <- lift_result (error_item data_obj) ;;
      logger ERROR ("JS execution error: " ++ py_str pf err) ;;
      raise (Exception "JS execution failed inside browser")
    else parse_data_obj data_obj.

(** *** Mail identifier *)

Definition get_mail_internal_id (p : page) : M unit :=
  g <- read_globals ;;
  let target_url := "https://" ++ PyStr.of_option (MAILHOSTING_ID g)
                    ++ ".webhosting.systems/smb/mail-settings/list" in
  logger INFO ("Navigating to Mail List to find ID for " ++ NC_DOMAIN cfg
               ++ ": " ++ target_url) ;;
  await (Goto p target_url) ;;
  await (WaitForLoadState p "networkidle" None) ;;
  let row := loc_filter (page_locator "tr" None) (NC_DOMAIN cfg) in
  n <- await (Count p row) ;;
  if Nat.eqb n 0 then
    logger ERROR ("Mail domain '" ++ NC_DOMAIN cfg ++ "' not found in the list.") ;;
    raise (Exception "Mail ID not found")
  else
    let checkbox := loc_locator row "input[type='checkbox']" in
    v <- await (GetAttribute p checkbox "value") ;;
    write_globals (set_MAIL_ID v) ;;
    match v with
    | Some (String c s) => logger INFO ("Detected NC_MAIL_ID: " ++ String c s)
    | _ => raise (Exception "Found mail row but could not extract ID from checkbox value")
    end.

(** *** Login *)

(** Lines 63-70: the credentials are submitted. *)
Definition submit_credentials (p : page) : M unit :=
  logger INFO "Starting login to Netcup CCP..." ;;
  await (Goto p (NC_CCP cfg ++ "?login_language=en-US")) ;;
  await (Fill p (get_by_placeholder "Customer number") (NC_USER cfg)) ;;
  await (Fill p (get_by_placeholder "Password") (NC_PASS cfg)) ;;
  await (Click p (get_by_role "button" "Log in")) ;;
  await (WaitForLoadState p "networkidle" None).

(** Line 72: ["start.php" in page.url or "verification" in await page.content()] *)
Definition challenge_present (p : page) : M bool :=
  url <- await (PageUrl p) ;;
  if PyStr.contains "start.php" url then ret true
  else
    content <- await (PageContent p) ;;
    ret (PyStr.contains "verification" content).

(** Lines 73-80: the time-based code is computed and submitted. *)
Definition answer_challenge (p : page) : M unit :=
  logger INFO "2FA challenge detected, generating verification code..." ;;
  token <- await (TotpNow (NC_2FA_SECRET cfg)) ;;
  await (Fill p (get_by_placeholder "TAN") token) ;;
  await (Click p (get_by_role "button" "Confirm token")) ;;
  await (WaitForUrl p "**/start.php") ;;
  logger INFO "2FA verification successful".

Definition handle_login (p : page) : M unit :=
  submit_credentials p ;;
  challenged <- challenge_present p ;;
  if challenged : bool then answer_challenge p else ret tt.

(** *** Single-sign-on into a hosting subsystem *)

(** Lines 84-101: the button is clicked, the new tab awaited and loaded.
    The [async with context.expect_page()] block around the click is the
    one command [ExpectPageClick], which gives the page that opened. *)
Definition open_sso_page (p : page) (button_name : string) : M page :=
  logger INFO ("Clicking " ++ button_name ++ "...") ;;
  new_page <- try_except_as is_Exception
    (let btn := get_by_text button_name true in
     visible <- await (IsVisible p btn) ;;
     if negb visible then raise (Exception ("Button " ++ button_name ++ " not found."))
     else await (ExpectPageClick p btn))
    (fun e => raise (Exception ("Failed to " ++ button_name ++ ": " ++ exn_str e))) ;;
  url <- await (PageUrl new_page) ;;
  logger INFO ("New tab opened, waiting for page load: " ++ url) ;;
  try_except_as is_Exception
    (await (WaitForLoadState new_page "networkidle" (Some 60000)))
    (fun e => raise (Exception ("Page load timed out: " ++ exn_str e))) ;;
  ret new_page.

(** Lines 106-118: the host identifier, the first label of the hostname. *)
Definition extract_host_id (current_url : string) : M (option string) :=
  try_except_as is_Exception
    (hostname <- lift_result (urlparse_hostname pf current_url) ;;
     match hostname with
     | Some (String c h) =>
         let extracted_id := PyStr.first_label (String c h) in
         logger INFO ("Extracted Host ID from URL: " ++ extracted_id) ;;
         ret (Some extracted_id)
     | _ =>
         logger ERROR "Could not parse hostname from URL" ;;
         ret None
     end)
    (fun e =>
       logger ERROR ("Failed to extract ID from URL: " ++ exn_str e) ;;
       ret None).

(** Lines 120-127: the identifier is stored and the subsystem's own
    identifiers are looked up in the new tab. *)
Definition enter_subsystem (button_name : string) (extracted_id : option string)
    (new_page : page) : M unit :=
  if PyStr.endswith button_name "WEB" then
    write_globals (set_WEBHOSTING_ID extracted_id) ;;
    get_web_internal_ids new_page
  else if PyStr.endswith button_name "MAIL" then
    write_globals (set_MAILHOSTING_ID extracted_id) ;;
    get_mail_internal_id new_page
  else ret tt.

Definition process_sso_button (p : page) (button_name : string) : M unit :=
  new_page <- open_sso_page p button_name ;;
  current_url <- await (PageUrl new_page) ;;
  logger INFO ("Captured URL: " ++ current_url) ;;
  extracted_id <- extract_host_id current_url ;;
  enter_subsystem button_name extracted_id new_page ;;
  logger INFO ("Closing tab: " ++ button_name) ;;
  await (ClosePage new_page).

Definition trigger_auto_login (p : page) : M unit :=
  logger INFO "Navigating to products page..." ;;
  await (Goto p (NC_CCP cfg ++ "/produkte.php")) ;;
  logger INFO ("Opening product details, ID: " ++ NC_PRODUCT_ID cfg) ;;
  await (WaitForSelector p "tr" "attached") ;;
  let xpath_selector := "//tr[contains(., '" ++ NC_PRODUCT_ID cfg
                        ++ "')]//a[contains(@onclick, 'showProductDetail')]" in
  element_count <- await (Count p (page_locator xpath_selector None)) ;;
  if Nat.eqb element_count 0 then
    logger ERROR ("Failed to find row via XPath: " ++ xpath_selector) ;;
    raise (Exception ("Product row for '" ++ NC_PRODUCT_ID cfg ++ "' not found"))
  else
    await (Click p (loc_first (page_locator xpath_selector None))) ;;
    await (WaitForLoadState p "networkidle" (Some 60000)) ;;
    process_sso_button p "Auto-Login WEB" ;;
    process_sso_button p "Auto-Login MAIL".

(** *** Deployment *)

Definition read_file_content (path : string) : M string :=
  logger INFO "Reading certificate file content" ;;
  try_except_as is_FileNotFoundError
    (await (ReadFile path))
    (fun e => logger ERROR ("Cert not found: " ++ path) ;; raise e).

Definition select_pul_dropdown (p : page) (label_text option_text : string) : M unit :=
  logger INFO ("Operating dropdown: '" ++ label_text ++ "', target option: '"
               ++ option_text ++ "'") ;;
  await (Click p (get_by_label label_text true)) ;;
  let option_locator := page_locator ".pul-menu__base-item-content" (Some option_text) in
  await (Click p (loc_first option_locator)).

(** Lines 262-282: the form is reached, filled in and submitted. *)
Definition submit_certificate_form (p : page) (target_url cert_name key_data cert_data : string)
    : M unit :=
  logger INFO ("Uploading certificate to: " ++ target_url) ;;
  await (Goto p target_url) ;;
  (if PyStr.contains "list" target_url then
     logger INFO "Currently on the list page, clicking the add certificate button..." ;;
     let add_btn := get_by_text "Add SSL/TLS Certificate" false in
     visible <- await (IsVisible p add_btn) ;;
     if visible : bool then
       await (Click p add_btn) ;;
       await (WaitForLoadState p "networkidle" None)
     else ret tt
   else ret tt) ;;
  logger INFO ("Filling in certificate name: " ++ cert_name) ;;
  await (Fill p (page_locator ("input[name=" ++ dquote ++ "name" ++ dquote ++ "]") None)
              cert_name) ;;
  logger INFO "Entering private key..." ;;
  await (Fill p (page_locator ("textarea[name=" ++ dquote ++ "uploadText[privateKeyText]"
                               ++ dquote ++ "]") None) key_data) ;;
  logger INFO "Entering certificate content..." ;;
  await (Fill p (page_locator ("textarea[name=" ++ dquote ++ "uploadText[certificateText]"
                               ++ dquote ++ "]") None) cert_data) ;;
  logger INFO "Submitting certificate..." ;;
  await (Click p (page_locator "#btn-uploadText-sendText" None)).

(** Lines 284-287: the confirmation is awaited inside [try: ... except:],
    a handler without a class, which catches every exception. *)
Definition await_confirmation (p : page) : M unit :=
  try_except
    (await (ExpectVisible p
              (get_by_text "Information: The SSL/TLS certificate was issued." false)
              30000))
    (fun _ => logger WARNING "Success message not detected, continuing execution").

Definition upload_certificate (p : page) (target_url cert_name key_data cert_data : string)
    : M unit :=
  submit_certificate_form p target_url cert_name key_data cert_data ;;
  await_confirmation p.

Definition secure_mail_action (p : page) (list_url cert_name : string) : M unit :=
  logger INFO ("Executing Secure Mail operation:: " ++ list_url) ;;
  await (Goto p list_url) ;;
  logger INFO ("Locating certificate row: " ++ cert_name) ;;
  let target_row := page_locator "tr" (Some cert_name) in
  await (CheckBox p (loc_locator target_row "input[type='checkbox']")) ;;
  logger INFO "Clicking Secure Mail button..." ;;
  await (Click p (page_locator "#buttonMailCertificate" None)) ;;
  await (WaitForLoadState p "networkidle" None).

Definition update_hosting_settings (p : page) (settings_url cert_name : string) : M unit :=
  logger INFO ("Updating Hosting Settings: " ++ settings_url) ;;
  await (Goto p settings_url) ;;
  logger INFO ("Selecting certificate: " ++ cert_name) ;;
  select_pul_dropdown p "Certificate" cert_name ;;
  logger INFO "Saving settings..." ;;
  await (Click p (get_by_role "button" "Save")) ;;
  await (WaitForLoadState p "networkidle" None).

Definition update_mail_settings (p : page) (settings_url cert_name : string) : M unit :=
  logger INFO ("Updating Mail Settings: " ++ settings_url) ;;
  await (Goto p settings_url) ;;
  logger INFO "Setting Webmail certificate..." ;;
  select_pul_dropdown p "SSL/TLS certificate for webmail" cert_name ;;
  logger INFO "Setting mail certificate..." ;;
  select_pul_dropdown p "SSL/TLS certificate for mail" cert_name ;;
  await (Click p (get_by_role "button" "Save")) ;;
  await (WaitForLoadState p "networkidle" None).

(** The address of a view of a hosting subsystem, as the f-strings of
    [main] build it from the globals. *)
Definition panel_url (host : option string) (path : string) : string :=
  "https://" ++ PyStr.of_option host ++ ".webhosting.systems/smb/" ++ path.

(** Lines 371-394 of [main]: the certificate is bound everywhere. *)
Definition bind_certificate (p : page) (cert_name : string) : M unit :=
  g <- read_globals ;;
  secure_mail_action p
    (panel_url (WEBHOSTING_ID g)
       ("ssl-certificate/list/id/" ++ PyStr.of_option (MAIN_WEB_ID g))) cert_name ;;
  g <- read_globals ;;
  for_in (ALL_WEB_IDS g)
    (fun sub_id (_ : unit) =>
       g <- read_globals ;;
       update_hosting_settings p
         (panel_url (WEBHOSTING_ID g) ("web/view/" ++ sub_id ++ "/hosting-settings"))
         cert_name) tt ;;
  g <- read_globals ;;
  secure_mail_action p
    (panel_url (MAILHOSTING_ID g)
       ("ssl-certificate/list/id/" ++ PyStr.of_option (MAIL_ID g))) cert_name ;;
  g <- read_globals ;;
  update_mail_settings p
    (panel_url (MAILHOSTING_ID g)
       ("mail-settings/edit/id/" ++ PyStr.of_option (MAIL_ID g)
        ++ "/domainId/" ++ PyStr.of_option (MAIL_ID g))) cert_name.

(** Lines 359-369 of [main]: the two uploads. *)
Definition upload_web (p : page) (cert_name key_content cert_content : string) : M unit :=
  g <- read_globals ;;
  upload_certificate p
    (panel_url (WEBHOSTING_ID g)
       ("ssl-certificate/add/id/" ++ PyStr.of_option (MAIN_WEB_ID g)))
    cert_name key_content cert_content.

Definition upload_mail (p : page) (cert_name key_content cert_content : string) : M unit :=
  g <- read_globals ;;
  upload_certificate p
    (panel_url (MAILHOSTING_ID g)
       ("ssl-certificate/add/id/" ++ PyStr.of_option (MAIL_ID g)))
    cert_name key_content cert_content.

(** Lines 355-396 of [main]: the body of its [try]. *)
Definition run_steps (p : page) (cert_name key_content cert_content : string) : M unit :=
  handle_login p ;;
  trigger_auto_login p ;;
  upload_web p cert_name key_content cert_content ;;
  upload_mail p cert_name key_content cert_content ;;
  bind_certificate p cert_name ;;
  logger INFO "All tasks completed successfully.".

(** Line 334: [f"acme-{NC_DOMAIN}{date_str}"] *)
Definition certificate_name (now : datetime) : string :=
  "acme-" ++ NC_DOMAIN cfg ++ strftime_Ymd now.

(** Lines 335-404 of [main]: everything after the name is chosen.
    Launching the browser, opening its context and its first page are the
    one command [LaunchBrowser]; stopping Playwright when the [async with]
    block is left is not modelled. *)
Definition deploy_as (cert_name : string) : M unit :=
  logger INFO ("Certificate name for this run: " ++ cert_name) ;;
  key_content <- read_file_content (SSL_PRIVATE_KEY cfg) ;;
  cert_content <- read_file_content (SSL_CERT_KEY cfg) ;;
  p <- await LaunchBrowser ;;
  try_finally
    (try_except_as is_Exception
       (run_steps p cert_name key_content cert_content)
       (fun e =>
          logger ERROR ("Task execution failed: " ++ exn_str e) ;;
          await (Screenshot p "error_screenshot.png") ;;
          raise e))
    (await CloseContext ;; await CloseBrowser).

(** [main]: [datetime.now()] is the current local date and time. *)
Definition main : M unit :=
  now <- await DatetimeNow ;;
  deploy_as (certificate_name now).

End Program.

(** ** Domain records

    What the loop of [get_web_internal_ids] reads from an entry of the
    domain list, as functions of the entry. *)

Section Records.

Context (pf : platform) (cfg : Config).

(** The display name of an entry that is a dict whose [displayName] is a
    str; the loop runs through without an AttributeError on such entries
    (and on entries whose [displayName] is missing it does not). *)
Definition display_name (item : json) : option string :=
  match item with
  | JObj m => match m !! "displayName" with Some (JStr s) => Some s | _ => None end
  | _ => None
  end.

Definition is_domain_record (item : json) : bool :=
  match display_name item with Some _ => true | None => false end.

(** [str(item.get("domainId"))] *)
Definition domain_id (item : json) : string :=
  match item with
  | JObj m => py_str pf (default JNull (m !! "domainId"))
  | _ => py_str pf JNull
  end.

(** The display name is the target domain. *)
Definition is_exact (item : json) : bool :=
  match display_name item with
  | Some s => String.eqb s (NC_DOMAIN cfg)
  | None => false
  end.

(** The display name ends with a dot and the target domain. *)
Definition is_subdomain (item : json) : bool :=
  match display_name item with
  | Some s => PyStr.endswith s ("." ++ NC_DOMAIN cfg)
  | None => false
  end.

Definition is_match (item : json) : bool := is_exact item || is_subdomain item.

(** The globals after the loop has gone through [items]. *)
Definition scan_step (g : globals) (item : json) : globals :=
  if is_exact item then
    append_ALL_WEB_IDS (domain_id item) (set_MAIN_WEB_ID (Some (domain_id item)) g)
  else if is_subdomain item then append_ALL_WEB_IDS (domain_id item) g
  else g.

Definition scan_globals (items : list json) (g : globals) : globals :=
  fold_left scan_step items g.

End Records.

(** ** The system clock *)

Record system_clock : Type := {
  epoch_seconds : Z;      (* time.time(), whole seconds since 1970-01-01 UTC *)
  utc_offset : Z          (* the offset of the local time zone, in seconds *)
}.

(** The civil date of a day counted from 1970-01-01. *)
Definition civil_from_days (days : Z) : Z * Z * Z :=
  let z := days + 719468 in
  let era := z / 146097 in
  let doe := z - era * 146097 in
  let yoe := (doe - doe / 1460 + doe / 36524 - doe / 146096) / 365 in
  let y := yoe + era * 400 in
  let doy := doe - (365 * yoe + yoe / 4 - yoe / 100) in
  let mp := (5 * doy + 2) / 153 in
  let d := doy - (153 * mp + 2) / 5 + 1 in
  let m := if mp <? 10 then mp + 3 else mp - 9 in
  (if m <=? 2 then y + 1 else y, m, d).

Definition datetime_of_seconds (s : Z) : datetime :=
  match civil_from_days (s / 86400) with
  | (y, m, d) => Datetime y m d (s mod 86400)
  end.

(** [datetime.now()]: local time. *)
Definition local_now (c : system_clock) : datetime :=
  datetime_of_seconds (epoch_seconds c + utc_offset c).

(** [datetime.now(timezone.utc)]: what the program does not call. *)
Definition utc_now (c : system_clock) : datetime :=
  datetime_of_seconds (epoch_seconds c).

(** The four-digit years, the months and the days of [strftime_Ymd]. *)
Definition plausible_date (now : datetime) : Prop :=
  1000 <= dt_year now <= 9999 /\ 1 <= dt_month now <= 12 /\ 1 <= dt_day now <= 31.

Definition same_date (a b : datetime) : Prop :=
  dt_year a = dt_year b /\ dt_month a = dt_month b /\ dt_day a = dt_day b.

(** ** The mail-account listing

    The page [get_mail_internal_id] looks at: its table rows, each with its
    text and the [value] attributes of the check boxes inside it. *)

Record mail_row : Type := MailRow {
  row_text : string;
  row_checkboxes : list (option string)
}.

(** A locator action on the elements a locator resolves to: Playwright
    raises on more than one (strict mode) and times out on none. *)
Definition strict_one {A} (l : list A) : result A :=
  match l with
  | [x] => inr x
  | [] => inl (Exn CTimeoutError "Timeout exceeded while waiting for locator")
  | _ => inl (Exn CPlaywrightError "strict mode violation")
  end.

Section MailListing.

(** [has_text needle text]: whether [filter(has_text=needle)] keeps an
    element with that text. *)
Context (has_text : string -> string -> bool).

(** The rows [page.locator("tr").filter(has_text=needle)] resolves to. *)
Definition rows_of (rows : list mail_row) (l : locator) : option (list mail_row) :=
  match l with
  | loc_filter (page_locator sel None) needle =>
      if String.eqb sel "tr"
      then Some (List.filter (fun r => has_text needle (row_text r)) rows)
      else None
  | _ => None
  end.

(** The check boxes [row.locator("input[type='checkbox']")] resolves to. *)
Definition checkboxes_of (rows : list mail_row) (l : locator)
    : option (list (option string)) :=
  match l with
  | loc_locator l' sel =>
      if String.eqb sel "input[type='checkbox']"
      then option_map (flat_map row_checkboxes) (rows_of rows l')
      else None
  | _ => None
  end.

Definition unsupported : exn := Exn CPlaywrightError "not on this page".

(** A browser showing the listing [rows] on every page. *)
Definition mail_list_env : forall X, cmd X -> list mail_row -> result X * list mail_row :=
  fun X c rows =>
    match c in cmd X return result X * list mail_row with
    | Goto _ _ => (inr tt, rows)
    | WaitForLoadState _ _ _ => (inr tt, rows)
    | Count _ l =>
        match rows_of rows l with
        | Some rs => (inr (length rs), rows)
        | None => (inl unsupported, rows)
        end
    | GetAttribute _ l name =>
        match checkboxes_of rows l with
        | Some cs =>
            if String.eqb name "value" then (strict_one cs, rows)
            else (inl unsupported, rows)
        | None => (inl unsupported, rows)
        end
    | _ => (inl unsupported, rows)
    end.

End MailListing.

(** Playwright's [has_text] with a string: a substring, whatever the case. *)
Definition ascii_lower (c : ascii) : ascii :=
  let n := nat_of_ascii c in
  if (65 <=? n)%nat && (n <=? 90)%nat then ascii_of_nat (n + 32) else c.

Fixpoint str_lower (s : string) : string :=
  match s with
  | EmptyString => EmptyString
  | String c s' => String (ascii_lower c) (str_lower s')
  end.

Definition pw_has_text (needle text : string) : bool :=
  PyStr.contains (str_lower needle) (str_lower text).

(** ** What the resolution logs and raises *)

(** Every record of a piece of log is at level INFO. *)
Definition all_info (lg : list log_record) : Prop :=
  Forall (fun r => fst r = INFO) lg.

(** The warning of the subdomain fallback (line 251). *)
Definition fallback_warning (cfg : Config) : log_record :=
  (WARNING, "Main domain " ++ NC_DOMAIN cfg
            ++ " not found, utilizing first subdomain as fallback.").

(** The exception of line 254, the spec's DomainNotFoundError. *)
Definition domain_not_found (cfg : Config) : exn :=
  Exception ("Target domain " ++ NC_DOMAIN cfg ++ " not found in Plesk data.").

(** The exception of line 163, the spec's MailIdNotFoundError. *)
Definition mail_id_not_found : exn := Exception "Mail ID not found".

(** ** Sample data *)

(** A dict from its items. *)
Definition py_dict (l : list (string * json)) : json := JObj (list_to_map l).

(** [{"displayName": name, "domainId": id}] *)
Definition domain_record (name : string) (id : Z) : json :=
  py_dict [("displayName", JStr name); ("domainId", JInt id)].

Module Sample.

(** The part of an address between [://] and the next slash; enough of
    [urlparse] for the addresses used below. *)
Fixpoint after_scheme (s : string) : option string :=
  match s with
  | EmptyString => None
  | String c s' =>
      if String.prefix "://" s then Some (String.substring 3 (String.length s - 3) s)
      else after_scheme s'
  end.

Fixpoint until_slash (s : string) : string :=
  match s with
  | EmptyString => EmptyString
  | String c s' => if Ascii.eqb c "/" then EmptyString else String c (until_slash s')
  end.

Definition hostname (url : string) : result (option string) :=
  match after_scheme url with
  | Some rest =>
      match until_slash rest with
      | EmptyString => inr None
      | h => inr (Some h)
      end
  | None => inr None
  end.

Definition pf : platform :=
  {| py_repr := fun _ => "[...]";
     dict_keys_str := fun _ => "dict_keys([...])";
     urlparse_hostname := hostname |}.

Definition cfg : Config :=
  {| NC_USER := "12345"; NC_PASS := "secret"; NC_2FA_SECRET := "JBSWY3DPEHPK3PXP";
     NC_PRODUCT_ID := "Webhosting 4000"; NC_DOMAIN := "example.com";
     NC_CCP := "https://www.customercontrolpanel.de";
     SSL_PRIVATE_KEY := "/data/key.pem"; SSL_CERT_KEY := "/data/cert.pem" |}.

(** The start of a run, with a browser that has no state of its own. *)
Definition w0 : world unit := World initial_globals [] [] tt.

(** Scenarios A, B and C of the specification. *)
Definition scenario_A : list json :=
  [domain_record "example.com" 101; domain_record "blog.example.com" 102;
   domain_record "other.com" 999].

Definition scenario_B : list json := [domain_record "blog.example.com" 102].

Definition scenario_C : list json := [domain_record "other.com" 999].

(** The target domain listed twice. *)
Definition two_exact_matches : list json :=
  [domain_record "example.com" 101; domain_record "example.com" 202].

(** A subdomain listed before the target domain. *)
Definition subdomain_first : list json :=
  [domain_record "blog.example.com" 102; domain_record "example.com" 101].


(** 2024-01-01 23:30:00 UTC, in a zone one hour east of Greenwich. *)
Definition late_evening : system_clock :=
  {| epoch_seconds := 1704151800; utc_offset := 3600 |}.

(** A browser in which every action succeeds: the login asks for no
    second factor, a new tab opens at [about:blank], the script evaluated
    in the page gives [data] and no confirmation ever shows. *)
Definition env_with (c : system_clock) (data : json)
    : forall X, cmd X -> unit -> result X * unit :=
  fun X command b =>
    match command in cmd X return result X * unit with
    | Goto _ _ => (inr tt, b)
    | PageUrl _ => (inr "about:blank", b)
    | PageContent _ => (inr "<html><body>Welcome</body></html>", b)
    | WaitForLoadState _ _ _ => (inr tt, b)
    | WaitForUrl _ _ => (inr tt, b)
    | WaitForSelector _ _ _ => (inr tt, b)
    | Fill _ _ _ => (inr tt, b)
    | Click _ _ => (inr tt, b)
    | CheckBox _ _ => (inr tt, b)
    | IsVisible _ _ => (inr true, b)
    | Count _ _ => (inr 1%nat, b)
    | GetAttribute _ _ _ => (inr None, b)
    | ExpectVisible _ _ _ =>
        (inl (Exn CAssertionError "Locator expected to be visible"), b)
    | ExpectPageClick _ _ => (inr 1%nat, b)
    | Evaluate _ _ => (inr data, b)
    | ClosePage _ => (inr tt, b)
    | Screenshot _ _ => (inr tt, b)
    | LaunchBrowser => (inr 0%nat, b)
    | CloseContext => (inr tt, b)
    | CloseBrowser => (inr tt, b)
    | TotpNow _ => (inr "492039", b)
    | DatetimeNow => (inr (local_now c), b)
    | ReadFile _ => (inr "-----BEGIN PEM-----", b)
    end.

(** The same browser on a page that embeds no data. *)
Definition env (c : system_clock) : forall X, cmd X -> unit -> result X * unit :=
  env_with c JNull.

(** A listing with one mailbox domain, a subdomain of the target. *)
Definition subdomain_listing : list mail_row :=
  [MailRow "Name" []; MailRow "mail.example.com" [Some "7"]].

(** A listing without the target domain. *)
Definition other_listing : list mail_row :=
  [MailRow "Name" []; MailRow "other.org" [Some "9"]].

(** A listing with the target domain only. *)
Definition exact_listing : list mail_row :=
  [MailRow "Name" []; MailRow "example.com" [Some "5"]].

Definition mail_world (rows : list mail_row) : world (list mail_row) :=
  World initial_globals [] [] rows.

End Sample.

Module Payload.

(** The domain list directly under [data]. *)
Definition direct (l : list json) : json := py_dict [("data", JArr l)].

(** The domain list under [data.data]. *)
Definition nested (l : list json) : json :=
  py_dict [("data", py_dict [("data", JArr l)])].

(** The domain list under [data.data.data]. *)
Definition deep (l : list json) : json :=
  py_dict [("data", py_dict [("data", py_dict [("data", JArr l)])])].

End Payload.

(** ** What a run does in the browser *)

(** The commands by which a time-based code is computed and submitted
    (lines 74-78). *)
Definition submits_code (ev : event) : bool :=
  match ev with
  | Ev c _ =>
      match c with
      | TotpNow _ => true
      | Fill _ (get_by_placeholder t) _ => String.eqb t "TAN"
      | Click _ (get_by_role _ name) => String.eqb name "Confirm token"
      | _ => false
      end
  end.

(** Every command a program issues satisfies [P]. *)
Definition emits {B A} (P : event -> Prop) (m : M B A) : Prop :=
  forall w r w', m w = (r, w') ->
    exists tr, w_trace w' = (w_trace w ++ tr)%list /\ Forall P tr.

(** The locator of the confirmation message of an upload (line 285). *)
Definition confirmation_message : locator :=
  get_by_text "Information: The SSL/TLS certificate was issued." false.

(** The world once [c] has been answered with [r], the browser now in [b]. *)
Definition answered {B X} (w : world B) (c : cmd X) (r : result X) (b : B) : world B :=
  World (w_globals w) (w_log w) (w_trace w ++ [Ev c r]) b.

(** The world with more log. *)
Definition logged {B} (w : world B) (lg : list log_record) : world B :=
  World (w_globals w) (w_log w ++ lg) (w_trace w) (w_browser w).

(** The rows of a listing that [filter(has_text=NC_DOMAIN)] keeps. *)
Definition matching_rows (has_text : string -> string -> bool) (cfg : Config)
    (rows : list mail_row) : list mail_row :=
  List.filter (fun r => has_text (NC_DOMAIN cfg) (row_text r)) rows.

(** [urlparse(url).hostname] gave nothing to take a host identifier from:
    it is [None] (or empty), or parsing raised an [Exception]. *)
Definition no_hostname (r : result (option string)) : Prop :=
  match r with
  | inr None => True
  | inr (Some s) => s = EmptyString
  | inl e => is_Exception e = true
  end.

(** The error logged by lines 115 and 118 in that case. *)
Definition no_hostname_message (r : result (option string)) : string :=
  match r with
  | inr _ => "Could not parse hostname from URL"
  | inl e => "Failed to extract ID from URL: " ++ exn_str e
  end.

(** ** The constants read when the module is loaded (lines 17-32) *)

(** [sys.exit(code)], with what was logged before it. *)
Record exited : Type := Exited { exit_code : Z; exit_log : list log_record }.

(** [not value] for what [os.getenv] gives *)
Definition env_value_missing (value : option string) : bool :=
  match value with
  | Some (String _ _) => false
  | _ => true
  end.

(** [get_env(key, required, default)] on the process environment *)
Definition get_env (environ : gmap string string) (key : string) (required : bool)
    (dflt : option string) : exited + option string :=
  let value := match environ !! key with Some v => Some v | None => dflt end in
  if required && env_value_missing value then
    inl (Exited 1 [(ERROR, "Missing required environment variable: " ++ key)])
  else inr value.

(** Lines 25-32, in their order; the first [sys.exit] ends the loading. *)
Definition load_config (environ : gmap string string) : exited + Config :=
  match get_env environ "NC_USER" true None with
  | inl x => inl x
  | inr user =>
  match get_env environ "NC_PASS" true None with
  | inl x => inl x
  | inr pass =>
  match get_env environ "NC_2FA_SECRET" true None with
  | inl x => inl x
  | inr secret =>
  match get_env environ "NC_PRODUCT_ID" true None with
  | inl x => inl x
  | inr product =>
  match get_env environ "NC_DOMAIN" true None with
  | inl x => inl x
  | inr domain =>
  match get_env environ "NC_CCP" false (Some "https://www.customercontrolpanel.de") with
  | inl x => inl x
  | inr ccp =>
  match get_env environ "SSL_PRIVATE_KEY" true (Some "/data/key.pem") with
  | inl x => inl x
  | inr key =>
  match get_env environ "SSL_CERT_KEY" true (Some "/data/cert.pem") with
  | inl x => inl x
  | inr cert =>
      inr {| NC_USER := PyStr.of_option user; NC_PASS := PyStr.of_option pass;
             NC_2FA_SECRET := PyStr.of_option secret;
             NC_PRODUCT_ID := PyStr.of_option product;
             NC_DOMAIN := PyStr.of_option domain; NC_CCP := PyStr.of_option ccp;
             SSL_PRIVATE_KEY := PyStr.of_option key;
             SSL_CERT_KEY := PyStr.of_option cert |}
  end end end end end end end end.

(** The variables [get_env] is called for with [required] left at [True],
    in the order of the calls, with their defaults. *)
Definition required_variables : list (string * option string) :=
  [("NC_USER", None); ("NC_PASS", None); ("NC_2FA_SECRET", None);
   ("NC_PRODUCT_ID", None); ("NC_DOMAIN", None);
   ("SSL_PRIVATE_KEY", Some "/data/key.pem"); ("SSL_CERT_KEY", Some "/data/cert.pem")].

(** A variable is unset without a default, or set to the empty string. *)
Definition variable_missing (environ : gmap string string) (kd : string * option string) : bool :=
  env_value_missing (match environ !! fst kd with Some v => Some v | None => snd kd end).

(** ** What a run does in the browser, continued *)

(** The addresses navigated to, in order. *)
Definition goto_urls (tr : list event) : list string :=
  flat_map (fun ev => match ev with
                      | Ev c _ => match c with Goto _ url => [url] | _ => [] end
                      end) tr.

(** The wait for the confirmation of an upload, the one command whose
    failure the program survives. *)
Definition is_confirmation_wait {X} (c : cmd X) : bool :=
  match c with ExpectVisible _ _ _ => true | _ => false end.

(** A browser in which every command of the program succeeds, the wait
    for the confirmation apart, which may do either. *)
Definition cooperative {B} (env : forall X, cmd X -> B -> result X * B) : Prop :=
  forall X (c : cmd X) (b : B),
    is_confirmation_wait c = true \/ exists x b', env X c b = (inr x, b').

(** Started with the globals [g], the program returns normally, leaves the
    globals as they are and navigates to [urls], in that order. *)
Definition visits {B A} (g : globals) (urls : list string) (m : M B A) : Prop :=
  forall w, w_globals w = g ->
    exists a w', m w = (inr a, w')
                 /\ w_globals w' = g
                 /\ goto_urls (w_trace w') = (goto_urls (w_trace w) ++ urls)%list.

(** Whatever it returns or raises, the program leaves [f] of the globals
    as it was. *)
Definition keeps {B A T} (f : globals -> T) (m : M B A) : Prop :=
  forall w r w', m w = (r, w') -> f (w_globals w') = f (w_globals w).

(** Every exception the program raises satisfies [P]. *)
Definition raises_only {B A} (P : exn -> Prop) (m : M B A) : Prop :=
  forall w e w', m w = (inl e, w') -> P e.

(** The addresses of the deployment (lines 359-394), in the order of the
    calls, for the identifiers in [g]. *)
Definition deployment_urls (g : globals) : list string :=
  [panel_url (WEBHOSTING_ID g) ("ssl-certificate/add/id/" ++ PyStr.of_option (MAIN_WEB_ID g));
   panel_url (MAILHOSTING_ID g) ("ssl-certificate/add/id/" ++ PyStr.of_option (MAIL_ID g));
   panel_url (WEBHOSTING_ID g) ("ssl-certificate/list/id/" ++ PyStr.of_option (MAIN_WEB_ID g))]
  ++ map (fun sub_id => panel_url (WEBHOSTING_ID g)
                          ("web/view/" ++ sub_id ++ "/hosting-settings"))
         (ALL_WEB_IDS g)
  ++ [panel_url (MAILHOSTING_ID g) ("ssl-certificate/list/id/" ++ PyStr.of_option (MAIL_ID g));
      panel_url (MAILHOSTING_ID g)
        ("mail-settings/edit/id/" ++ PyStr.of_option (MAIL_ID g)
         ++ "/domainId/" ++ PyStr.of_option (MAIL_ID g))].

(** Lines 354-401 of [main]: the steps inside [try], with the handler
    that logs, takes the screenshot and raises again. *)
Definition guarded_steps {B} (pf : platform) (cfg : Config)
    (env : forall X, cmd X -> B -> result X * B)
    (p : page) (cert_name key_content cert_content : string) : M B unit :=
  try_except_as is_Exception
    (run_steps pf cfg env p cert_name key_content cert_content)
    (fun e =>
       bind (logger ERROR ("Task execution failed: " ++ exn_str e))
            (fun _ => bind (call env (Screenshot p "error_screenshot.png"))
                           (fun _ => raise e))).

(** Lines 402-404 of [main]: the [finally] block. *)
Definition release {B} (env : forall X, cmd X -> B -> result X * B) : M B unit :=
  bind (call env CloseContext) (fun _ => call env CloseBrowser).

(** ** Sample browsers that fail somewhere *)

Module Faulty.

Inductive fault : Type :=
| ButtonHidden        (* the single-sign-on button is not visible *)
| ClickFails          (* clicking it opens no tab *)
| LoadTimesOut        (* the new tab never becomes idle *)
| NoProductRow        (* the product is not in the listing *)
| KeyFileMissing      (* the private key file does not exist *)
| ChallengeShown.     (* the login lands on the second-factor page *)

Definition is_fault (f g : fault) : bool :=
  match f, g with
  | ButtonHidden, ButtonHidden | ClickFails, ClickFails | LoadTimesOut, LoadTimesOut
  | NoProductRow, NoProductRow | KeyFileMissing, KeyFileMissing
  | ChallengeShown, ChallengeShown => true
  | _, _ => false
  end.

(** The sample browser with one thing going wrong. *)
Definition env (f : fault) : forall X, cmd X -> unit -> result X * unit :=
  fun X command b =>
    match command in cmd X return result X * unit with
    | IsVisible _ _ => (inr (negb (is_fault f ButtonHidden)), b)
    | ExpectPageClick _ _ =>
        if is_fault f ClickFails
        then (inl (Exn CTimeoutError "Timeout 30000ms exceeded while waiting for event"), b)
        else (inr 1%nat, b)
    | WaitForLoadState p state (Some t) =>
        if is_fault f LoadTimesOut && Nat.eqb p 1
        then (inl (Exn CTimeoutError "Timeout 60000ms exceeded."), b)
        else (inr tt, b)
    | Count _ _ => (inr (if is_fault f NoProductRow then 0 else 1)%nat, b)
    | ReadFile path =>
        if is_fault f KeyFileMissing
        then (inl (Exn CFileNotFoundError "No such file or directory"), b)
        else (inr "-----BEGIN PEM-----", b)
    | PageUrl p =>
        if is_fault f ChallengeShown
        then (inr "https://www.customercontrolpanel.de/start.php", b)
        else (inr "about:blank", b)
    | c => Sample.env Sample.late_evening _ c b
    end.

End Faulty.

(** The AttributeError the loop raises on an entry that is no domain
    record: on [item.get] when the entry is no dict, on [d_name.endswith]
    when its display name is no str. *)
Definition malformed_error (item : json) : exn :=
  match item with
  | JObj m => Py.AttributeError (default JNull (m !! "displayName")) "endswith"
  | _ => Py.AttributeError item "get"
  end.

(** [page.goto] *)
Definition is_goto {X} (c : cmd X) : bool :=
  match c with Goto _ _ => true | _ => false end.

Module MoreSamples.

(** A listing with the target domain and one of its subdomains. *)
Definition both_listing : list mail_row :=
  [MailRow "Name" []; MailRow "example.com" [Some "5"];
   MailRow "mail.example.com" [Some "7"]].

(** A listing whose row for the target domain has a check box without a
    [value] attribute. *)
Definition valueless_listing : list mail_row :=
  [MailRow "Name" []; MailRow "example.com" [None]].

(** The process environment of a run with the defaults left alone. *)
Definition environ : gmap string string :=
  list_to_map [("NC_USER", "12345"); ("NC_PASS", "secret");
               ("NC_2FA_SECRET", "JBSWY3DPEHPK3PXP");
               ("NC_PRODUCT_ID", "Webhosting 4000"); ("NC_DOMAIN", "example.com")].

(** The globals of scenario A once both subsystems are resolved. *)
Definition resolved : globals :=
  {| MAILHOSTING_ID := Some "mail01"; WEBHOSTING_ID := Some "web01";
     MAIN_WEB_ID := Some "101"; ALL_WEB_IDS := ["101"; "102"]; MAIL_ID := Some "5" |}.

(** A browser in which every command succeeds. *)
Definition w_resolved : world unit := World resolved [] [] tt.

(** An entry without a display name between two domain records. *)
Definition with_nameless_entry : list json :=
  [domain_record "example.com" 101; py_dict [("domainId", JInt 7)];
   domain_record "blog.example.com" 102].

(** An entry without a display name listed before the target domain. *)
Definition nameless_before_exact : list json :=
  [py_dict [("domainId", JInt 7)]; domain_record "example.com" 101].

(** An entry without a display name listed before a subdomain of the
    target domain. *)
Definition nameless_before_subdomain : list json :=
  [py_dict [("domainId", JInt 7)]; domain_record "blog.example.com" 102].

(** An entry without a display name listed before an unrelated domain. *)
Definition nameless_before_other : list json :=
  [py_dict [("domainId", JInt 7)]; domain_record "other.com" 9].

(** Two subdomains of the target domain after an unrelated domain. *)
Definition two_subdomains : list json :=
  [domain_record "other.com" 999; domain_record "blog.example.com" 102;
   domain_record "shop.example.com" 103].

(** The AttributeError of [d_name.endswith] on a display name that is
    [None] (line 245). *)
Definition none_has_no_endswith : exn :=
  Exn CAttributeError "'NoneType' object has no attribute 'endswith'".

End MoreSamples.

Module Resolved.

(** A browser in which every command succeeds: the page embeds scenario A
    three levels deep, both tabs open on the host [web01], and the check
    box of the mail listing has the value 5. *)
Definition env : forall X, cmd X -> unit -> result X * unit :=
  fun X command b =>
    match command in cmd X return result X * unit with
    | GetAttribute _ _ _ => (inr (Some "5"), b)
    | PageUrl _ => (inr "https://web01.webhosting.systems/smb/", b)
    | c => Sample.env_with Sample.late_evening (Payload.deep Sample.scenario_A) _ c b
    end.

(** The same browser, in which the hosting settings of identifier 102
    cannot be opened. *)
Definition env_102_down : forall X, cmd X -> unit -> result X * unit :=
  fun X command b =>
    match command in cmd X return result X * unit with
    | Goto p url =>
        if String.eqb url "https://web01.webhosting.systems/smb/web/view/102/hosting-settings"
        then (inl (Exn CPlaywrightError "net::ERR_CONNECTION_REFUSED"), b)
        else (inr tt, b)
    | c => env _ c b
    end.

End Resolved.

(** The body of the loop of lines 378-383, for the identifier [sub_id]. *)
Definition hosting_settings_url (g : globals) (sub_id : string) : string :=
  panel_url (WEBHOSTING_ID g) ("web/view/" ++ sub_id ++ "/hosting-settings").

(** The address of the mail listing (line 153). *)
Definition mail_list_url (g : globals) : string :=
  "https://" ++ PyStr.of_option (MAILHOSTING_ID g)
  ++ ".webhosting.systems/smb/mail-settings/list".
(** * Properties *)

Open Scope list_scope.

Section WebResolution.

Context (pf : platform) (cfg : Config) {B : Type}.
Implicit Types (w : world B) (item : json) (items : list json).

Lemma scan_item_record item found w :
  is_domain_record item = true ->
  exists lg,
    scan_item pf cfg item found w =
      (inr (found || is_exact cfg item),
       World (scan_step pf cfg (w_globals w) item) (w_log w ++ lg) (w_trace w) (w_browser w))
    /\ all_info lg.
Proof.
  unfold is_domain_record, display_name, is_exact, is_subdomain, scan_step.
  destruct item as [| | | | |l|m]; try discriminate.
  unfold scan_item, bind, lift_result, Py.get, is_exact, is_subdomain, display_name.
  destruct (m !! "displayName") as [[| | | |s| |]|] eqn:Hn; try discriminate.
  intros _. cbn [default Py.eq_str Py.endswith domain_id].
  destruct (String.eqb s (NC_DOMAIN cfg)) eqn:He.
  - eexists. split.
    + cbn. rewrite ?He. cbn. rewrite orb_true_r. reflexivity.
    + repeat constructor.
  - cbn. rewrite ?He. cbn. destruct (PyStr.endswith s _) eqn:Hs.
    + eexists. split; [cbn; rewrite orb_false_r; reflexivity | repeat constructor].
    + exists []. split; [|constructor]. rewrite orb_false_r, app_nil_r. destruct w; reflexivity.
Qed.

Lemma scan_item_malformed item found w :
  is_domain_record item = false ->
  exists e, scan_item pf cfg item found w = (inl e, w) /\ exn_cls e = CAttributeError.
Proof.
  unfold is_domain_record, display_name, scan_item, bind, lift_result.
  destruct item as [| | | | |l|m]; cbn; eauto.
  destruct (m !! "displayName") as [[| | | |s| |]|]; cbn; try discriminate; eauto.
Qed.

Lemma for_in_scan items : forall found w,
  forallb is_domain_record items = true ->
  exists lg,
    for_in items (scan_item pf cfg) found w =
      (inr (found || existsb (is_exact cfg) items),
       World (scan_globals pf cfg items (w_globals w)) (w_log w ++ lg)
             (w_trace w) (w_browser w))
    /\ all_info lg.
Proof.
  induction items as [|item items IH]; intros found w Hall.
  - exists []. split; [|constructor]. cbn. rewrite orb_false_r, app_nil_r.
    destruct w; reflexivity.
  - cbn in Hall. apply andb_true_iff in Hall as [Hitem Hall].
    destruct (scan_item_record item found w Hitem) as (lg1 & E1 & I1).
    cbn [for_in]. unfold bind at 1. rewrite E1.
    destruct (IH (found || is_exact cfg item)
                (World (scan_step pf cfg (w_globals w) item) (w_log w ++ lg1)
                       (w_trace w) (w_browser w)) Hall) as (lg2 & E2 & I2).
    exists (lg1 ++ lg2)%list. split.
    + cbv beta iota. rewrite E2. cbn. rewrite orb_assoc, app_assoc. reflexivity.
    + apply Forall_app; split; assumption.
Qed.

Lemma for_in_scan_malformed items : forall found w,
  forallb is_domain_record items = false ->
  exists e w', for_in items (scan_item pf cfg) found w = (inl e, w')
               /\ exn_cls e = CAttributeError.
Proof.
  induction items as [|item items IH]; intros found w Hall; [discriminate|].
  cbn in Hall. cbn [for_in]. unfold bind at 1.
  destruct (is_domain_record item) eqn:Hitem.
  - destruct (scan_item_record item found w Hitem) as (lg1 & E1 & _). rewrite E1.
    cbv beta iota. apply IH. exact Hall.
  - destruct (scan_item_malformed item found w Hitem) as (e & E1 & He). rewrite E1.
    eauto.
Qed.

(** The fields the loop leaves alone, and the two it writes. *)
Lemma scan_globals_hosts items : forall g,
  MAILHOSTING_ID (scan_globals pf cfg items g) = MAILHOSTING_ID g
  /\ WEBHOSTING_ID (scan_globals pf cfg items g) = WEBHOSTING_ID g
  /\ MAIL_ID (scan_globals pf cfg items g) = MAIL_ID g.
Proof.
  induction items as [|item items IH]; intros g; [auto|].
  change (scan_globals pf cfg (item :: items) g)
    with (scan_globals pf cfg items (scan_step pf cfg g item)).
  destruct (IH (scan_step pf cfg g item)) as (-> & -> & ->).
  unfold scan_step. destruct (is_exact cfg item), (is_subdomain cfg item); auto.
Qed.

Lemma scan_globals_all items : forall g,
  ALL_WEB_IDS (scan_globals pf cfg items g) =
    ALL_WEB_IDS g ++ map (domain_id pf) (List.filter (is_match cfg) items).
Proof.
  induction items as [|item items IH]; intros g; cbn.
  - rewrite app_nil_r. reflexivity.
  - unfold scan_globals in IH. rewrite IH. unfold scan_step, is_match.
    destruct (is_exact cfg item); cbn; [rewrite <- app_assoc; reflexivity|].
    destruct (is_subdomain cfg item); cbn; [rewrite <- app_assoc|]; reflexivity.
Qed.

Lemma scan_globals_main_snoc items item g :
  MAIN_WEB_ID (scan_globals pf cfg (items ++ [item]) g) =
    if is_exact cfg item then Some (domain_id pf item)
    else MAIN_WEB_ID (scan_globals pf cfg items g).
Proof.
  unfold scan_globals. rewrite fold_left_app. cbn. unfold scan_step.
  destruct (is_exact cfg item); [reflexivity|].
  destruct (is_subdomain cfg item); reflexivity.
Qed.

Lemma scan_globals_main items : forall g,
  MAIN_WEB_ID (scan_globals pf cfg items g) =
    match find (is_exact cfg) (rev items) with
    | Some e => Some (domain_id pf e)
    | None => MAIN_WEB_ID g
    end.
Proof.
  induction items as [|item items IH] using rev_ind; intros g; [reflexivity|].
  rewrite scan_globals_main_snoc, rev_app_distr. cbn.
  destruct (is_exact cfg item); [reflexivity | apply IH].
Qed.

(** *** The whole resolution on a list of domain records *)

Lemma resolve_domains_records items w :
  forallb is_domain_record items = true ->
  let g1 := scan_globals pf cfg items (set_ALL_WEB_IDS [] (w_globals w)) in
  exists lg,
    all_info lg /\
    resolve_domains pf cfg items w =
      if existsb (is_exact cfg) items then
        (inr tt, World g1 (w_log w ++ lg) (w_trace w) (w_browser w))
      else
        match ALL_WEB_IDS g1 with
        | first :: _ =>
            (inr tt, World (set_MAIN_WEB_ID (Some first) g1)
                           ((w_log w ++ lg) ++ [fallback_warning cfg])
                           (w_trace w) (w_browser w))
        | [] =>
            (inl (domain_not_found cfg),
             World g1 (w_log w ++ lg) (w_trace w) (w_browser w))
        end.
Proof.
  intros Hall g1.
  destruct (for_in_scan items false
              (World (set_ALL_WEB_IDS [] (w_globals w))
                 (w_log w ++ [(INFO, "Processing " +:+ pretty (length items)
                                      +:+ " domains from Browser JSON...")])
                 (w_trace w) (w_browser w)) Hall) as (lg & E & I).
  cbn [w_globals w_log w_trace w_browser orb] in E. fold g1 in E.
  exists ((INFO, "Processing " +:+ pretty (length items)
                 +:+ " domains from Browser JSON...") :: lg).
  split; [constructor; [reflexivity | exact I]|].
  unfold resolve_domains, bind at 1 2 3, write_globals, logger.
  cbn [w_globals w_log w_trace w_browser]. rewrite E.
  destruct (existsb (is_exact cfg) items); cbn [negb].
  { unfold ret. rewrite <- !app_assoc. reflexivity. }
  unfold bind, read_globals, logger, write_globals, raise.
  cbn [w_globals w_log w_trace w_browser].
  destruct (ALL_WEB_IDS g1) as [|first rest];
    unfold fallback_warning; cbn [w_globals w_log w_trace w_browser];
    rewrite <- !app_assoc; reflexivity.
Qed.

Lemma resolve_domains_malformed items w :
  forallb is_domain_record items = false ->
  exists e w', resolve_domains pf cfg items w = (inl e, w')
               /\ exn_cls e = CAttributeError.
Proof.
  intros Hall. unfold resolve_domains, bind at 1 2 3, write_globals, logger.
  cbn [w_globals w_log w_trace w_browser].
  match goal with
  | |- context [for_in items _ false ?w1] =>
      destruct (for_in_scan_malformed items false w1 Hall) as (e & w' & E & He)
  end.
  rewrite E. eauto.
Qed.

Lemma resolve_domains_ok_records items w w' :
  resolve_domains pf cfg items w = (inr tt, w') ->
  forallb is_domain_record items = true.
Proof.
  intros E. destruct (forallb is_domain_record items) eqn:Hall; [reflexivity|].
  destruct (resolve_domains_malformed items w Hall) as (e & w2 & E2 & _).
  rewrite E in E2. discriminate.
Qed.

(** *** Lists *)

Lemma find_head_filter {A} (f : A -> bool) (l : list A) (e : A) :
  find f l = Some e -> exists rest, List.filter f l = e :: rest.
Proof.
  induction l as [|x l IH]; cbn; [discriminate|].
  destruct (f x); [intros [= ->]; eauto | exact IH].
Qed.

Lemma existsb_false_find {A} (f : A -> bool) (l : list A) :
  existsb f l = false -> find f l = None.
Proof.
  induction l as [|x l IH]; cbn; [reflexivity|].
  destruct (f x); [discriminate | exact IH].
Qed.

Lemma existsb_false_filter {A} (f : A -> bool) (l : list A) :
  existsb f l = false -> List.filter f l = [].
Proof.
  induction l as [|x l IH]; cbn; [reflexivity|].
  destruct (f x); [discriminate | exact IH].
Qed.

Lemma existsb_rev {A} (f : A -> bool) (l : list A) :
  existsb f (rev l) = existsb f l.
Proof.
  induction l as [|x l IH]; cbn; [reflexivity|].
  rewrite existsb_app, IH. cbn. rewrite orb_false_r. apply orb_comm.
Qed.

Lemma find_existsb {A} (f : A -> bool) (l : list A) (e : A) :
  find f l = Some e -> existsb f l = true.
Proof.
  intros H. apply find_some in H as [Hin Hf].
  apply existsb_exists. eauto.
Qed.

Lemma filter_match_no_exact items :
  existsb (is_exact cfg) items = false ->
  List.filter (is_match cfg) items = List.filter (is_subdomain cfg) items.
Proof.
  induction items as [|x l IH]; cbn; [reflexivity|]. unfold is_match at 1.
  destruct (is_exact cfg x); cbn; [discriminate|].
  intros H. rewrite (IH H). reflexivity.
Qed.

Lemma last_exact_found items e :
  find (is_exact cfg) (rev items) = Some e ->
  existsb (is_exact cfg) items = true /\ In e items /\ is_exact cfg e = true.
Proof.
  intros H. split.
  - rewrite <- existsb_rev. eapply find_existsb, H.
  - apply find_some in H as [Hin He]. split; [apply in_rev, Hin | exact He].
Qed.

(** The display name of an exact match is not that of a subdomain. *)
Lemma exact_not_subdomain item :
  is_exact cfg item = true -> is_subdomain cfg item = false.
Proof.
  unfold is_exact, is_subdomain. destruct (display_name item) as [s|]; [|reflexivity].
  intros H. apply String.eqb_eq in H. subst s.
  unfold PyStr.endswith.
  change (String.length ("." +:+ NC_DOMAIN cfg)) with (S (String.length (NC_DOMAIN cfg))).
  destruct (Nat.leb_spec (S (String.length (NC_DOMAIN cfg)))
                         (String.length (NC_DOMAIN cfg))); [lia | reflexivity].
Qed.


(** *** The resolved identifiers *)

(** On a list of domain records the last exact match in discovery order
    decides: the resolution succeeds, [MAIN_WEB_ID] is its identifier, and
    the fallback is not taken: its warning is not logged, every record
    logged is at level INFO. *)
Lemma primary_is_last_exact_match items e w :
  forallb is_domain_record items = true ->
  find (is_exact cfg) (rev items) = Some e ->
  exists w' lg,
    resolve_domains pf cfg items w = (inr tt, w')
    /\ MAIN_WEB_ID (w_globals w') = Some (domain_id pf e)
    /\ w_log w' = w_log w ++ lg
    /\ all_info lg
    /\ ~ In (fallback_warning cfg) lg.
Proof.
  intros Hall Hfind.
  destruct (last_exact_found items e Hfind) as (Hex & _ & _).
  destruct (resolve_domains_records items w Hall) as (lg & I & E).
  rewrite Hex in E. eexists. exists lg.
  split; [exact E|]. cbn [w_globals w_log].
  split; [rewrite scan_globals_main, Hfind; reflexivity|].
  split; [reflexivity|]. split; [exact I|].
  intros Hin. unfold all_info in I. rewrite List.Forall_forall in I.
  apply I in Hin. discriminate.
Qed.

(** C2, corrected.  On a list of domain records (every entry an object
    with a string display name) without an exact match and with a
    subdomain, the resolution succeeds, [MAIN_WEB_ID] is the identifier of
    the first subdomain in discovery order, and the warning of the fallback
    is logged. *)
Theorem fallback_is_first_subdomain items e w :
  forallb is_domain_record items = true ->
  existsb (is_exact cfg) items = false ->
  find (is_subdomain cfg) items = Some e ->
  exists w',
    resolve_domains pf cfg items w = (inr tt, w')
    /\ MAIN_WEB_ID (w_globals w') = Some (domain_id pf e)
    /\ In (fallback_warning cfg) (w_log w').
Proof.
  intros Hall Hex Hfind.
  destruct (resolve_domains_records items w Hall) as (lg & I & E).
  rewrite Hex, scan_globals_all, (filter_match_no_exact items Hex) in E.
  destruct (find_head_filter _ _ _ Hfind) as (rest & Hrest). rewrite Hrest in E.
  cbn [set_ALL_WEB_IDS ALL_WEB_IDS app map] in E.
  eexists. split; [exact E|]. cbn [w_globals w_log MAIN_WEB_ID set_MAIN_WEB_ID].
  split; [reflexivity|]. apply in_or_app. right. left. reflexivity.
Qed.

(** C3, corrected.  On a list of domain records (every entry an object
    with a string display name) with neither an exact match nor a
    subdomain, the resolution raises the exception of line 254; the
    identifier set is left empty and the main identifier as it was. *)
Theorem no_match_fails items w :
  forallb is_domain_record items = true ->
  existsb (is_exact cfg) items = false ->
  existsb (is_subdomain cfg) items = false ->
  exists w',
    resolve_domains pf cfg items w = (inl (domain_not_found cfg), w')
    /\ MAIN_WEB_ID (w_globals w') = MAIN_WEB_ID (w_globals w)
    /\ ALL_WEB_IDS (w_globals w') = [].
Proof.
  intros Hall Hex Hsub.
  destruct (resolve_domains_records items w Hall) as (lg & I & E).
  pose proof (scan_globals_all items (set_ALL_WEB_IDS [] (w_globals w))) as Hids.
  rewrite (filter_match_no_exact items Hex), (existsb_false_filter _ _ Hsub) in Hids.
  cbn in Hids. rewrite Hex, Hids in E.
  eexists. split; [exact E|]. cbn [w_globals]. split; [|exact Hids].
  rewrite scan_globals_main.
  rewrite existsb_false_find; [reflexivity|]. rewrite existsb_rev. exact Hex.
Qed.

(** C5, corrected.  After a successful resolution [MAIN_WEB_ID] is an
    element of [ALL_WEB_IDS].  It is the first element when there is no
    exact match, and when the first entry that matches (exactly or as a
    subdomain) is the last exact match; the identifiers are kept in
    discovery order otherwise. *)
Theorem primary_in_web_ids items w w' :
  resolve_domains pf cfg items w = (inr tt, w') ->
  (exists id, MAIN_WEB_ID (w_globals w') = Some id
              /\ In id (ALL_WEB_IDS (w_globals w')))
  /\ ALL_WEB_IDS (w_globals w') = map (domain_id pf) (List.filter (is_match cfg) items)
  /\ (existsb (is_exact cfg) items = false ->
      head (ALL_WEB_IDS (w_globals w')) = MAIN_WEB_ID (w_globals w'))
  /\ (existsb (is_exact cfg) items = true ->
      find (is_match cfg) items = find (is_exact cfg) (rev items) ->
      head (ALL_WEB_IDS (w_globals w')) = MAIN_WEB_ID (w_globals w')).
Proof.
  intros E.
  pose proof (resolve_domains_ok_records items w w' E) as Hall.
  destruct (resolve_domains_records items w Hall) as (lg & I & E').
  rewrite E in E'.
  pose proof (scan_globals_all items (set_ALL_WEB_IDS [] (w_globals w))) as Hids.
  cbn [set_ALL_WEB_IDS ALL_WEB_IDS app] in Hids.
  pose proof (scan_globals_main items (set_ALL_WEB_IDS [] (w_globals w))) as Hmain.
  destruct (existsb (is_exact cfg) items) eqn:Hex.
  - injection E' as ->. cbn [w_globals]. rewrite Hids, Hmain.
    rewrite <- existsb_rev in Hex. apply existsb_exists in Hex as (x & Hx & Hxe).
    destruct (find (is_exact cfg) (rev items)) as [e|] eqn:Hfind;
      [|eapply find_none in Hfind; [|exact Hx]; congruence].
    destruct (last_exact_found items e Hfind) as (_ & Hin & He).
    split; [|split; [|split]].
    + exists (domain_id pf e). split; [reflexivity|].
      apply in_map, filter_In. split; [exact Hin|].
      unfold is_match. rewrite He. reflexivity.
    + reflexivity.
    + discriminate.
    + intros _ Hfirst. destruct (find_head_filter _ _ _ Hfirst) as (rest & ->).
      reflexivity.
  - destruct (ALL_WEB_IDS (scan_globals pf cfg items (set_ALL_WEB_IDS [] (w_globals w))))
      as [|first rest] eqn:Hall_ids; [discriminate|].
    injection E' as ->. cbn [w_globals set_MAIN_WEB_ID MAIN_WEB_ID ALL_WEB_IDS].
    rewrite Hall_ids. split; [|split; [|split]].
    + exists first. split; [reflexivity | left; reflexivity].
    + exact Hids.
    + reflexivity.
    + discriminate.
Qed.

Lemma primary_is_unique_exact_match items e w :
  forallb is_domain_record items = true ->
  List.filter (is_exact cfg) items = [e] ->
  exists w',
    resolve_domains pf cfg items w = (inr tt, w')
    /\ MAIN_WEB_ID (w_globals w') = Some (domain_id pf e).
Proof.
  intros Hall Huniq.
  assert (Hfind : find (is_exact cfg) (rev items) = Some e).
  { destruct (find (is_exact cfg) (rev items)) as [x|] eqn:Hfind.
    - apply find_some in Hfind as [Hin Hx]. apply in_rev in Hin.
      assert (Hx' : In x (List.filter (is_exact cfg) items))
        by (apply filter_In; auto).
      rewrite Huniq in Hx'. destruct Hx' as [->|[]]. reflexivity.
    - assert (He : In e (List.filter (is_exact cfg) items))
        by (rewrite Huniq; left; reflexivity).
      apply filter_In in He as [Hin He]. apply in_rev in Hin.
      eapply find_none in Hfind; [|exact Hin]. congruence. }
  destruct (last_exact_found items e Hfind) as (Hex & _ & _).
  destruct (resolve_domains_records items w Hall) as (lg & I & E).
  rewrite Hex in E. eexists. split; [exact E|]. cbn [w_globals].
  rewrite scan_globals_main, Hfind. reflexivity.
Qed.

Lemma exact_match_has_last items e0 :
  In e0 items -> is_exact cfg e0 = true ->
  exists e, find (is_exact cfg) (rev items) = Some e.
Proof.
  intros Hin He.
  destruct (find (is_exact cfg) (rev items)) as [e|] eqn:Hfind; [eauto|].
  apply in_rev in Hin. eapply find_none in Hfind; [|exact Hin]. congruence.
Qed.

(** C1, corrected.  On a list of domain records (every entry an object
    with a string display name) that contains an exact match [e0], the
    resolution succeeds and [MAIN_WEB_ID] is the identifier of an entry [e]
    of the list that is an exact match, the last one in discovery order;
    it is the identifier of [e0] itself as soon as the exact matches of the
    list agree on their identifier, as they do when [e0] is the only one.
    The fallback is not taken: its warning is not logged, every record
    logged is at level INFO. *)
Theorem exact_match_is_primary items e0 w :
  forallb is_domain_record items = true ->
  In e0 items ->
  is_exact cfg e0 = true ->
  exists e w' lg,
    In e items
    /\ is_exact cfg e = true
    /\ find (is_exact cfg) (rev items) = Some e
    /\ resolve_domains pf cfg items w = (inr tt, w')
    /\ MAIN_WEB_ID (w_globals w') = Some (domain_id pf e)
    /\ ((forall x, In x items -> is_exact cfg x = true ->
                   domain_id pf x = domain_id pf e0) ->
        MAIN_WEB_ID (w_globals w') = Some (domain_id pf e0))
    /\ w_log w' = w_log w ++ lg
    /\ all_info lg
    /\ ~ In (fallback_warning cfg) lg.
Proof.
  intros Hall Hin0 He0.
  destruct (exact_match_has_last items e0 Hin0 He0) as (e & Hfind).
  destruct (last_exact_found items e Hfind) as (Hex & Hin & He).
  destruct (resolve_domains_records items w Hall) as (lg & I & E).
  rewrite Hex in E. exists e. eexists. exists lg.
  assert (Hmain : MAIN_WEB_ID (scan_globals pf cfg items
                                 (set_ALL_WEB_IDS [] (w_globals w)))
                  = Some (domain_id pf e))
    by (rewrite scan_globals_main, Hfind; reflexivity).
  split; [exact Hin|]. split; [exact He|]. split; [exact Hfind|].
  split; [exact E|]. cbn [w_globals w_log].
  split; [exact Hmain|].
  split; [intros Hsame; rewrite Hmain, (Hsame e Hin He); reflexivity|].
  split; [reflexivity|]. split; [exact I|].
  intros Hw. unfold all_info in I. rewrite List.Forall_forall in I.
  apply I in Hw. discriminate.
Qed.

(** *** Where the domain list is looked for *)

Lemma truthy_dict_with_key (m : gmap string json) k v :
  m !! k = Some v -> Py.truthy (JObj m) = true.
Proof.
  intros H. cbn. destruct (Nat.eqb_spec (size m) 0) as [E|]; [|reflexivity].
  apply map_size_empty_iff in E. subst m. rewrite lookup_empty in H. discriminate.
Qed.

(** C4 on the code.  A list directly under [data], or under [data.data],
    is never returned: [level2.get] is called on the list itself and
    raises an AttributeError before the second look-up of lines 223-224
    is reached.  Only a list under [data.data.data] is returned. *)
Theorem domain_list_found_three_levels_deep_only
    (top body inner : gmap string json) (l : list json) w :
  (top !! "data" = Some (JArr l) ->
   locate_domains_list pf (JObj top) w = (inl (Py.AttributeError (JArr l) "get"), w))
  /\ (top !! "data" = Some (JObj body) -> body !! "data" = Some (JArr l) ->
      locate_domains_list pf (JObj top) w = (inl (Py.AttributeError (JArr l) "get"), w))
  /\ (top !! "data" = Some (JObj body) -> body !! "data" = Some (JObj inner) ->
      inner !! "data" = Some (JArr l) ->
      locate_domains_list pf (JObj top) w = (inr l, w)).
Proof.
  unfold locate_domains_list, bind, lift_result.
  split; [|split].
  - intros Htop. cbn [Py.get]. rewrite Htop. cbn [default from_option id].
    destruct l as [|x l]; cbn [Py.truthy Py.get]; [rewrite Htop|]; reflexivity.
  - intros Htop Hbody. cbn [Py.get]. rewrite Htop. cbn [default from_option id].
    rewrite (truthy_dict_with_key body "data" _ Hbody). cbn [Py.get].
    rewrite Hbody. reflexivity.
  - intros Htop Hbody Hinner. cbn [Py.get]. rewrite Htop. cbn [default from_option id].
    rewrite (truthy_dict_with_key body "data" _ Hbody). cbn [Py.get].
    rewrite Hbody. cbn [default from_option id Py.get].
    rewrite Hinner. reflexivity.
Qed.

(** The second look-up (lines 223-224) cannot give a list: when it is
    reached, [level1.get("data", [])] is the dict that [level2] was read
    from, or [level2] was the default and the first look-up gave []. *)
Lemma locate_domains_list_returns (data_obj : json) (l : list json) w w' :
  locate_domains_list pf data_obj w = (inr l, w') ->
  exists level1 level2 : gmap string json,
    (Py.get data_obj "data" (JObj ∅) = inr (JObj level1) \/ data_obj = JObj level1)
    /\ default (JObj ∅) (level1 !! "data") = JObj level2
    /\ default (JArr []) (level2 !! "data") = JArr l.
Proof.
  unfold locate_domains_list, bind, lift_result.
  destruct (Py.get data_obj "data" (JObj ∅)) as [e|v] eqn:Hget; [discriminate|].
  set (level1 := if Py.truthy v then v else data_obj).
  assert (Hl1 : level1 = v \/ level1 = data_obj)
    by (subst level1; destruct (Py.truthy v); auto).
  clearbody level1.
  destruct level1 as [| | | | | |m1]; try discriminate.
  cbn [Py.get].
  destruct (m1 !! "data") as [x|] eqn:H1; cbn [default from_option id].
  - destruct x as [| | | | | |m2]; try discriminate. cbn [Py.get].
    destruct (default (JArr []) (m2 !! "data")) as [| | | | |l2|m3] eqn:H3;
      cbn [Py.is_list ret]; try (destruct data_obj; discriminate).
    intros [= <- <-]. exists m1, m2. rewrite H1. cbn [default from_option id].
    split; [|split; [reflexivity | exact H3]].
    destruct Hl1 as [<-| <-]; [left; reflexivity | right; reflexivity].
  - cbn [Py.get]. rewrite lookup_empty. cbn [default from_option id Py.is_list ret].
    intros [= <- <-]. exists m1, ∅. rewrite H1, lookup_empty.
    cbn [default from_option id]. split; [|split; reflexivity].
    destruct Hl1 as [<-| <-]; [left; reflexivity | right; reflexivity].
Qed.

End WebResolution.

(** ** The structure of runs *)

Section Runs.

Context (pf : platform) (cfg : Config).
Context {B : Type} (env : forall X, cmd X -> B -> result X * B).
Implicit Types (w : world B) (p : page).

(** *** Commands issued by a program *)

Section Emits.

Context (P : event -> Prop).

Lemma emits_ret {A} (a : A) : emits P (ret (B:=B) a).
Proof.
  intros w r w' [= <- <-]. exists []. rewrite app_nil_r. auto.
Qed.

Lemma emits_raise {A} (e : exn) : emits P (raise (B:=B) (A:=A) e).
Proof.
  intros w r w' [= <- <-]. exists []. rewrite app_nil_r. auto.
Qed.

Lemma emits_logger l msg : emits P (logger (B:=B) l msg).
Proof.
  intros w r w' [= <- <-]. exists []. cbn. rewrite app_nil_r. auto.
Qed.

Lemma emits_call {X} (c : cmd X) :
  (forall r, P (Ev c r)) -> emits P (call env c).
Proof.
  intros HP w r w'. unfold call.
  destruct (env X c (w_browser w)) as [r0 b']. intros [= <- <-].
  exists [Ev c r0]. cbn. auto.
Qed.

Lemma emits_bind {A C} (m : M B A) (k : A -> M B C) :
  emits P m -> (forall a, emits P (k a)) -> emits P (bind m k).
Proof.
  intros Hm Hk w r w'. unfold bind.
  destruct (m w) as [[e|a] w1] eqn:E1.
  - intros [= <- <-]. eapply Hm, E1.
  - intros E2. destruct (Hm _ _ _ E1) as (tr1 & Htr1 & F1).
    destruct (Hk a _ _ _ E2) as (tr2 & Htr2 & F2).
    exists (tr1 ++ tr2). rewrite Htr2, Htr1, app_assoc. split; [reflexivity|].
    apply Forall_app; auto.
Qed.

End Emits.

Create HintDb emits.

#[local] Hint Resolve emits_ret emits_raise emits_logger emits_call emits_bind : emits.

Lemma submit_credentials_emits p :
  emits (fun ev => submits_code ev = false) (submit_credentials cfg env p).
Proof.
  unfold submit_credentials. auto 12 with emits.
Qed.

(** *** The login *)

(** C9.  When the credentials have been submitted and neither marker of
    the challenge is there (the address has no [start.php], the content no
    [verification]), [handle_login] returns normally and none of the
    commands it issued computes or submits a code; nothing more is
    logged. *)
Theorem no_challenge_no_code p w w1 url b2 content b3 :
  submit_credentials cfg env p w = (inr tt, w1) ->
  env _ (PageUrl p) (w_browser w1) = (inr url, b2) ->
  PyStr.contains "start.php" url = false ->
  env _ (PageContent p) b2 = (inr content, b3) ->
  PyStr.contains "verification" content = false ->
  exists w' tr,
    handle_login cfg env p w = (inr tt, w')
    /\ w_trace w' = w_trace w ++ tr
    /\ Forall (fun ev => submits_code ev = false) tr
    /\ w_log w' = w_log w1
    /\ w_globals w' = w_globals w1.
Proof.
  intros Hsub Hurl Hnourl Hcontent Hnocontent.
  destruct (submit_credentials_emits p _ _ _ Hsub) as (tr1 & Htr & F1).
  unfold handle_login, bind at 1 2. rewrite Hsub.
  unfold challenge_present, bind, call. rewrite Hurl, Hnourl.
  cbn [w_browser]. rewrite Hcontent, Hnocontent.
  eexists. exists (tr1 ++ [Ev (PageUrl p) (inr url); Ev (PageContent p) (inr content)]).
  split; [reflexivity|]. cbn [w_trace w_log w_globals].
  rewrite Htr, <- !app_assoc. repeat split.
  apply Forall_app. split; [exact F1|]. repeat constructor.
Qed.

(** *** The upload *)

Lemma await_confirmation_returns p w :
  exists w', await_confirmation env p w = (inr tt, w')
    /\ w_globals w' = w_globals w
    /\ forall e b', env _ (ExpectVisible p confirmation_message 30000) (w_browser w)
                      = (inl e, b') ->
         w' = logged (answered w (ExpectVisible p confirmation_message 30000) (inl e) b')
                     [(WARNING, "Success message not detected, continuing execution")].
Proof.
  unfold await_confirmation, try_except, call. fold confirmation_message.
  destruct (env _ (ExpectVisible p confirmation_message 30000) (w_browser w))
    as [[e|[]] b'].
  - eexists. split; [reflexivity|]. split; [reflexivity|].
    intros e' b'' [= <- <-]. reflexivity.
  - eexists. split; [reflexivity|]. split; [reflexivity|]. discriminate.
Qed.

(** C8.  Once the form of an upload is submitted, [upload_certificate]
    returns normally whatever the wait for the confirmation raises; when it
    raises, one warning is logged; and the step that follows the upload is
    run, for every address the upload goes to. *)
Theorem upload_survives_missing_confirmation p target_url cert_name key_data cert_data w w1 :
  submit_certificate_form env p target_url cert_name key_data cert_data w = (inr tt, w1) ->
  exists w2,
    upload_certificate env p target_url cert_name key_data cert_data w = (inr tt, w2)
    /\ w_globals w2 = w_globals w1
    /\ (forall e b',
          env _ (ExpectVisible p confirmation_message 30000) (w_browser w1) = (inl e, b') ->
          w_log w2 = w_log w1
                     ++ [(WARNING, "Success message not detected, continuing execution")])
    /\ (forall A (next : M B A),
          bind (upload_certificate env p target_url cert_name key_data cert_data)
               (fun _ => next) w = next w2).
Proof.
  intros Hform.
  destruct (await_confirmation_returns p w1) as (w2 & Hconf & Hg & Hlog).
  exists w2. unfold upload_certificate.
  assert (E : bind (submit_certificate_form env p target_url cert_name key_data cert_data)
                (fun _ => await_confirmation env p) w = (inr tt, w2))
    by (unfold bind; rewrite Hform; exact Hconf).
  split; [exact E|]. split; [exact Hg|]. split.
  - intros e b' He. rewrite (Hlog e b' He). reflexivity.
  - intros A next. unfold bind at 1. rewrite E. reflexivity.
Qed.

(** *** The single-sign-on *)

(** A failure while the identifiers of a subsystem are looked up leaves
    [process_sso_button] as it is raised, before the tab is closed. *)
Lemma enter_subsystem_failure_propagates p button_name w new_page w1 url b2 id w2 e w3 :
  open_sso_page env p button_name w = (inr new_page, w1) ->
  env _ (PageUrl new_page) (w_browser w1) = (inr url, b2) ->
  extract_host_id pf url
    (logged (answered w1 (PageUrl new_page) (inr url) b2)
            [(INFO, "Captured URL: " +:+ url)]) = (inr id, w2) ->
  enter_subsystem pf cfg env button_name id new_page w2 = (inl e, w3) ->
  process_sso_button pf cfg env p button_name w = (inl e, w3).
Proof.
  intros Hopen Hurl Hid Hfail.
  unfold process_sso_button, bind at 1 2 3 4 5. rewrite Hopen.
  unfold call at 1. rewrite Hurl. unfold logger at 1. cbv beta iota.
  unfold logged, answered in Hid. cbn [w_globals w_log w_trace w_browser] in Hid |- *.
  rewrite Hid, Hfail. reflexivity.
Qed.

(** A failure of the resolution ends the steps of the run there: nothing
    is uploaded or bound with identifiers that were not resolved. *)
Lemma run_steps_stop_at_failed_resolution p cert_name key_content cert_content w w1 e w2 :
  handle_login cfg env p w = (inr tt, w1) ->
  trigger_auto_login pf cfg env p w1 = (inl e, w2) ->
  run_steps pf cfg env p cert_name key_content cert_content w = (inl e, w2).
Proof.
  intros Hlogin Hfail. unfold run_steps, bind at 1 2. rewrite Hlogin, Hfail.
  reflexivity.
Qed.

Lemma extract_host_id_no_hostname url w :
  no_hostname (urlparse_hostname pf url) ->
  extract_host_id pf url w =
    (inr None, logged w [(ERROR, no_hostname_message (urlparse_hostname pf url))]).
Proof.
  unfold extract_host_id, try_except_as, try_except, bind, lift_result, no_hostname.
  destruct (urlparse_hostname pf url) as [e|[[|c h]|]]; cbn.
  - intros ->. reflexivity.
  - reflexivity.
  - discriminate.
  - reflexivity.
Qed.

(** The extraction of the host identifier returns, whatever [urlparse]
    gives or raises as an [Exception]. *)
Lemma extract_host_id_returns url w :
  match urlparse_hostname pf url with
  | inl e => is_Exception e = true
  | inr _ => True
  end ->
  exists id w', extract_host_id pf url w = (inr id, w').
Proof.
  unfold extract_host_id, try_except_as, try_except, bind, lift_result.
  destruct (urlparse_hostname pf url) as [e|[[|c h]|]]; cbn; eauto.
  intros ->. cbn. eauto.
Qed.

(** C10.  When the new tab is open and loaded and no hostname can be
    parsed from its address ([urlparse] gives [None], or raises),
    [process_sso_button] does not raise there: the one record it logs about
    it is an error, the host identifier it stores is [None], and it goes on
    with the identifiers of the subsystem in the new tab. *)
Theorem sso_without_hostname_proceeds p button_name w new_page w1 url b2 :
  open_sso_page env p button_name w = (inr new_page, w1) ->
  env _ (PageUrl new_page) (w_browser w1) = (inr url, b2) ->
  no_hostname (urlparse_hostname pf url) ->
  process_sso_button pf cfg env p button_name w =
    bind (enter_subsystem pf cfg env button_name None new_page)
         (fun _ => bind (logger INFO ("Closing tab: " +:+ button_name))
                        (fun _ => call env (ClosePage new_page)))
         (logged (answered w1 (PageUrl new_page) (inr url) b2)
                 [(INFO, "Captured URL: " +:+ url);
                  (ERROR, no_hostname_message (urlparse_hostname pf url))])
  /\ enter_subsystem pf cfg env "Auto-Login WEB" None new_page =
       bind (write_globals (set_WEBHOSTING_ID None))
            (fun _ => get_web_internal_ids pf cfg env new_page)
  /\ enter_subsystem pf cfg env "Auto-Login MAIL" None new_page =
       bind (write_globals (set_MAILHOSTING_ID None))
            (fun _ => get_mail_internal_id cfg env new_page).
Proof.
  intros Hopen Hurl Hhost. split; [|split; reflexivity].
  unfold process_sso_button, bind at 1 2 3 4. rewrite Hopen.
  unfold call at 1. rewrite Hurl. unfold logger at 1. cbv beta iota.
  rewrite extract_host_id_no_hostname by exact Hhost.
  unfold logged, answered. cbn [w_globals w_log w_trace w_browser].
  rewrite <- app_assoc. reflexivity.
Qed.

End Runs.

(** ** The mail identifier *)

Section MailResolution.

Context (has_text : string -> string -> bool) (cfg : Config).
Implicit Types (w : world (list mail_row)) (p : page).

Lemma strict_one_inr {A} (l : list A) (x : A) :
  strict_one l = inr x -> l = [x].
Proof.
  destruct l as [|y [|z l]]; cbn; intros [= <-]; reflexivity.
Qed.

(** What [get_mail_internal_id] does on a listing, by the rows kept and
    the check boxes in them. *)
Lemma get_mail_internal_id_listing p w :
  let rows := w_browser w in
  let kept := matching_rows has_text cfg rows in
  exists w1,
    w_globals w1 = w_globals w /\ w_browser w1 = rows /\
    get_mail_internal_id cfg (mail_list_env has_text) p w =
      match kept with
      | [] =>
          (inl mail_id_not_found,
           logged w1 [(ERROR, "Mail domain '" +:+ NC_DOMAIN cfg
                              +:+ "' not found in the list.")])
      | _ =>
          match strict_one (flat_map row_checkboxes kept) with
          | inl e =>
              (inl e, answered w1
                        (GetAttribute p
                           (loc_locator (loc_filter (page_locator "tr" None) (NC_DOMAIN cfg))
                                        "input[type='checkbox']") "value")
                        (inl e) rows)
          | inr v =>
              let w2 := World (set_MAIL_ID v (w_globals w1)) (w_log w1)
                              (w_trace w1 ++
                                 [Ev (GetAttribute p
                                        (loc_locator
                                           (loc_filter (page_locator "tr" None) (NC_DOMAIN cfg))
                                           "input[type='checkbox']") "value") (inr v)])
                              rows in
              match v with
              | Some (String c s) =>
                  (inr tt, logged w2 [(INFO, "Detected NC_MAIL_ID: " +:+ String c s)])
              | _ =>
                  (inl (Exception
                          "Found mail row but could not extract ID from checkbox value"),
                   w2)
              end
          end
      end.
Proof.
  intros rows kept.
  assert (Hk : kept = List.filter (fun r => has_text (NC_DOMAIN cfg) (row_text r)) rows)
    by reflexivity.
  clearbody kept.
  unfold get_mail_internal_id, bind, read_globals, logger, call, write_globals, raise.
  cbn [mail_list_env rows_of checkboxes_of String.eqb Ascii.eqb Bool.eqb option_map
       w_globals w_log w_trace w_browser].
  fold rows. rewrite <- Hk.
  destruct kept as [|r kept'].
  - eexists (World (w_globals w) _ _ rows).
    split; [reflexivity|]. split; reflexivity.
  - cbn [length Nat.eqb w_globals w_log w_trace w_browser]. rewrite <- Hk.
    eexists (World (w_globals w) _ _ rows).
    split; [reflexivity|]. split; [reflexivity|].
    destruct (strict_one (flat_map row_checkboxes (r :: kept'))) as [e|[[|c s]|]];
      reflexivity.
Qed.

(** C6, corrected.  The rows looked at are those that Playwright's
    [has_text] filter keeps for the target domain, a containment and not
    an equality.  When it keeps none, the exception of line 163 is raised
    and [MAIL_ID] is left as it was.  When it keeps one row with one check
    box of a non-empty value, [MAIL_ID] is that value.  Whenever the
    look-up succeeds, [MAIL_ID] is the non-empty value of a check box in a
    row that the filter keeps: no other row is fallen back to. *)
Theorem mail_id_from_matching_row p w :
  (matching_rows has_text cfg (w_browser w) = [] ->
   exists w', get_mail_internal_id cfg (mail_list_env has_text) p w
                = (inl mail_id_not_found, w')
              /\ MAIL_ID (w_globals w') = MAIL_ID (w_globals w))
  /\ (forall r c s,
        matching_rows has_text cfg (w_browser w) = [r] ->
        row_checkboxes r = [Some (String c s)] ->
        exists w', get_mail_internal_id cfg (mail_list_env has_text) p w = (inr tt, w')
                   /\ MAIL_ID (w_globals w') = Some (String c s))
  /\ (forall w',
        get_mail_internal_id cfg (mail_list_env has_text) p w = (inr tt, w') ->
        exists r v,
          In r (w_browser w)
          /\ has_text (NC_DOMAIN cfg) (row_text r) = true
          /\ In (Some v) (row_checkboxes r)
          /\ v <> EmptyString
          /\ MAIL_ID (w_globals w') = Some v).
Proof.
  destruct (get_mail_internal_id_listing p w) as (w1 & Hg & Hb & E).
  cbv zeta in E. split; [|split].
  - intros Hnone. rewrite Hnone in E. eexists. split; [exact E|].
    cbn [logged w_globals]. rewrite Hg. reflexivity.
  - intros r c s Hone Hboxes. rewrite Hone in E.
    cbn [flat_map] in E. rewrite Hboxes in E. cbn [app strict_one] in E.
    eexists. split; [exact E|]. reflexivity.
  - intros w' Hok. rewrite Hok in E.
    destruct (matching_rows has_text cfg (w_browser w)) as [|r0 kept'] eqn:Hkept;
      [discriminate|].
    destruct (strict_one (flat_map row_checkboxes (r0 :: kept'))) as [e|v] eqn:Hstrict;
      [discriminate|].
    destruct v as [[|c s]|]; try discriminate.
    apply strict_one_inr in Hstrict.
    assert (Hin : In (Some (String c s)) (flat_map row_checkboxes (r0 :: kept')))
      by (rewrite Hstrict; left; reflexivity).
    apply in_flat_map in Hin as (r & Hr & Hbox).
    rewrite <- Hkept in Hr. apply filter_In in Hr as [Hrows Htext].
    exists r, (String c s). injection E as ->.
    repeat split; try assumption. discriminate.
Qed.

(** When the filter keeps rows with more than one check box between
    them (the target domain and one of its subdomains, say), reading the
    attribute is a strict-mode violation and the look-up fails. *)
Lemma mail_id_ambiguous_rows p w c1 c2 cs :
  flat_map row_checkboxes (matching_rows has_text cfg (w_browser w)) = c1 :: c2 :: cs ->
  exists w', get_mail_internal_id cfg (mail_list_env has_text) p w
             = (inl (Exn CPlaywrightError "strict mode violation"), w').
Proof.
  intros Hboxes.
  destruct (get_mail_internal_id_listing p w) as (w1 & _ & _ & E).
  cbv zeta in E. rewrite Hboxes in E.
  destruct (matching_rows has_text cfg (w_browser w)) as [|r kept]; [discriminate|].
  cbn [strict_one] in E. eexists. exact E.
Qed.

End MailResolution.

(** ** The name of the certificate *)

Section CertificateName.

Context (pf : platform) (cfg : Config).

Lemma digit_inj a b : digit a = digit b -> a mod 10 = b mod 10.
Proof.
  unfold digit. intros H. apply (f_equal nat_of_ascii) in H.
  pose proof (Z.mod_pos_bound a 10 eq_refl).
  pose proof (Z.mod_pos_bound b 10 eq_refl).
  rewrite !nat_ascii_embedding in H by lia. lia.
Qed.

Lemma append_inj_r (s a b : string) : s +:+ a = s +:+ b -> a = b.
Proof.
  induction s as [|c s IH]; cbn; [auto|]. intros [= H]. auto.
Qed.

Lemma strftime_Ymd_inj a b :
  plausible_date a -> plausible_date b ->
  strftime_Ymd a = strftime_Ymd b -> same_date a b.
Proof.
  unfold plausible_date, same_date, strftime_Ymd, digits4, digits2.
  intros (Hy & Hm & Hd) (Hy' & Hm' & Hd'). cbn [String.append].
  intros [= H1 H2 H3 H4 H5 H6 H7 H8].
  apply digit_inj in H1, H2, H3, H4, H5, H6, H7, H8.
  repeat split; Z.div_mod_to_equations; lia.
Qed.

(** C7, corrected.  The run asks the clock once, with [datetime.now()],
    which gives local time, and goes on under the name
    [acme-<domain><YYYYMMDD>] of that local date; the name is a function
    of the domain and the date, and on two dates it is the same only if
    they are the same day. *)
Theorem certificate_name_of_local_date :
  (forall B (env : forall X, cmd X -> B -> result X * B) (w : world B) now b',
     env _ DatetimeNow (w_browser w) = (inr now, b') ->
     main pf cfg env w =
       deploy_as pf cfg env (certificate_name cfg now)
                 (answered w DatetimeNow (inr now) b'))
  /\ (forall now,
        certificate_name cfg now =
          "acme-" +:+ NC_DOMAIN cfg +:+ digits4 (dt_year now)
          +:+ digits2 (dt_month now) +:+ digits2 (dt_day now))
  /\ (forall a b,
        plausible_date a -> plausible_date b ->
        (certificate_name cfg a = certificate_name cfg b <-> same_date a b)).
Proof.
  split; [|split].
  - intros B env w now b' H. unfold main, bind, call. rewrite H. reflexivity.
  - reflexivity.
  - intros a b Ha Hb. unfold certificate_name. split.
    + intros H. apply append_inj_r, append_inj_r in H.
      apply strftime_Ymd_inj; assumption.
    + intros (Hy & Hm & Hd). unfold strftime_Ymd. rewrite Hy, Hm, Hd. reflexivity.
Qed.

End CertificateName.

(** ** The theorems at sample inputs *)

Section Samples.

Local Abbreviation env := (Sample.env Sample.late_evening).

(** Scenarios A, B and C of the specification, on the list and on the
    page that embeds it three levels deep. *)
Example scenario_A_resolved :
  let w' := snd (resolve_domains Sample.pf Sample.cfg Sample.scenario_A Sample.w0) in
  MAIN_WEB_ID (w_globals w') = Some "101"
  /\ ALL_WEB_IDS (w_globals w') = ["101"; "102"].
Proof. vm_compute. split; reflexivity. Qed.

Example scenario_B_resolved :
  let w' := snd (resolve_domains Sample.pf Sample.cfg Sample.scenario_B Sample.w0) in
  MAIN_WEB_ID (w_globals w') = Some "102"
  /\ ALL_WEB_IDS (w_globals w') = ["102"].
Proof. vm_compute. split; reflexivity. Qed.

Example scenario_C_fails :
  fst (resolve_domains Sample.pf Sample.cfg Sample.scenario_C Sample.w0)
  = inl (Exception "Target domain example.com not found in Plesk data.").
Proof. vm_compute. reflexivity. Qed.

Example scenario_A_from_page :
  let run := get_web_internal_ids Sample.pf Sample.cfg
               (Sample.env_with Sample.late_evening (Payload.deep Sample.scenario_A))
               1%nat Sample.w0 in
  fst run = inr tt
  /\ MAIN_WEB_ID (w_globals (snd run)) = Some "101"
  /\ ALL_WEB_IDS (w_globals (snd run)) = ["101"; "102"].
Proof. vm_compute. repeat split; reflexivity. Qed.

Example scenario_C_from_page :
  let run := get_web_internal_ids Sample.pf Sample.cfg
               (Sample.env_with Sample.late_evening (Payload.deep Sample.scenario_C))
               1%nat Sample.w0 in
  fst run = inl (domain_not_found Sample.cfg)
  /\ MAIN_WEB_ID (w_globals (snd run)) = None
  /\ ALL_WEB_IDS (w_globals (snd run)) = [].
Proof. vm_compute. repeat split; reflexivity. Qed.

(** C4 at the failing input: the list under [data.data] (and directly
    under [data]) makes the look-up raise, and the error is logged once
    and raised again. *)
Example nested_payload_raises :
  let run := get_web_internal_ids Sample.pf Sample.cfg
               (Sample.env_with Sample.late_evening (Payload.nested Sample.scenario_A))
               1%nat Sample.w0 in
  fst run = inl (Exn CAttributeError "'list' object has no attribute 'get'")
  /\ MAIN_WEB_ID (w_globals (snd run)) = None
  /\ fst (get_web_internal_ids Sample.pf Sample.cfg
            (Sample.env_with Sample.late_evening (Payload.direct Sample.scenario_A))
            1%nat Sample.w0)
     = inl (Exn CAttributeError "'list' object has no attribute 'get'").
Proof. vm_compute. repeat split; reflexivity. Qed.

Lemma primary_is_last_exact_match_witness :
  exists w' lg,
    resolve_domains Sample.pf Sample.cfg Sample.scenario_A Sample.w0 = (inr tt, w')
    /\ MAIN_WEB_ID (w_globals w')
       = Some (domain_id Sample.pf (domain_record "example.com" 101))
    /\ w_log w' = w_log Sample.w0 ++ lg
    /\ all_info lg
    /\ ~ In (fallback_warning Sample.cfg) lg.
Proof.
  apply (primary_is_last_exact_match Sample.pf Sample.cfg Sample.scenario_A
           (domain_record "example.com" 101) Sample.w0);
    vm_compute; reflexivity.
Defined.

(** With the target domain listed twice the identifier of the second
    entry overwrites that of the first. *)
Lemma first_exact_match_overwritten :
  forallb is_domain_record Sample.two_exact_matches = true
  /\ In (domain_record "example.com" 101) Sample.two_exact_matches
  /\ is_exact Sample.cfg (domain_record "example.com" 101) = true
  /\ domain_id Sample.pf (domain_record "example.com" 101) = "101"
  /\ fst (resolve_domains Sample.pf Sample.cfg Sample.two_exact_matches Sample.w0)
     = inr tt
  /\ MAIN_WEB_ID
       (w_globals (snd (resolve_domains Sample.pf Sample.cfg
                          Sample.two_exact_matches Sample.w0)))
     = Some "202".
Proof.
  split; [vm_compute; reflexivity|].
  split; [left; reflexivity|].
  repeat split; vm_compute; reflexivity.
Qed.

Lemma exact_match_is_primary_witness :
  exists e w' lg,
    In e Sample.scenario_A
    /\ is_exact Sample.cfg e = true
    /\ find (is_exact Sample.cfg) (rev Sample.scenario_A) = Some e
    /\ resolve_domains Sample.pf Sample.cfg Sample.scenario_A Sample.w0 = (inr tt, w')
    /\ MAIN_WEB_ID (w_globals w') = Some (domain_id Sample.pf e)
    /\ ((forall x, In x Sample.scenario_A -> is_exact Sample.cfg x = true ->
                   domain_id Sample.pf x
                   = domain_id Sample.pf (domain_record "example.com" 101)) ->
        MAIN_WEB_ID (w_globals w')
        = Some (domain_id Sample.pf (domain_record "example.com" 101)))
    /\ w_log w' = w_log Sample.w0 ++ lg
    /\ all_info lg
    /\ ~ In (fallback_warning Sample.cfg) lg.
Proof.
  apply (exact_match_is_primary Sample.pf Sample.cfg Sample.scenario_A
           (domain_record "example.com" 101) Sample.w0);
    [vm_compute; reflexivity | left; reflexivity | vm_compute; reflexivity].
Defined.

(** C1 as it is stated fails on a list with an entry that has no display
    name: the list contains the target domain, identifier 101, and the
    loop raises an AttributeError at the entry before it (line 245), so
    that [MAIN_WEB_ID] is never set; the look-up on a page that embeds this
    list fails the same way. *)
Lemma nameless_entry_hides_exact_match :
  let items := MoreSamples.nameless_before_exact in
  let run := resolve_domains Sample.pf Sample.cfg items Sample.w0 in
  let lookup := get_web_internal_ids Sample.pf Sample.cfg
                  (Sample.env_with Sample.late_evening (Payload.deep items))
                  1%nat Sample.w0 in
  In (domain_record "example.com" 101) items
  /\ is_exact Sample.cfg (domain_record "example.com" 101) = true
  /\ fst run = inl MoreSamples.none_has_no_endswith
  /\ MAIN_WEB_ID (w_globals (snd run)) = None
  /\ fst lookup = inl MoreSamples.none_has_no_endswith
  /\ MAIN_WEB_ID (w_globals (snd lookup)) = None.
Proof.
  split; [right; left; reflexivity|].
  repeat split; vm_compute; reflexivity.
Qed.

Lemma fallback_is_first_subdomain_witness :
  exists w',
    resolve_domains Sample.pf Sample.cfg MoreSamples.two_subdomains Sample.w0
    = (inr tt, w')
    /\ MAIN_WEB_ID (w_globals w')
       = Some (domain_id Sample.pf (domain_record "blog.example.com" 102))
    /\ In (fallback_warning Sample.cfg) (w_log w').
Proof.
  apply (fallback_is_first_subdomain Sample.pf Sample.cfg MoreSamples.two_subdomains
           (domain_record "blog.example.com" 102) Sample.w0);
    vm_compute; reflexivity.
Defined.

(** On that list the identifiers are 102 and 103, and the first is the
    main identifier. *)
Example two_subdomains_resolved :
  let w' := snd (resolve_domains Sample.pf Sample.cfg MoreSamples.two_subdomains
                   Sample.w0) in
  MAIN_WEB_ID (w_globals w') = Some "102"
  /\ ALL_WEB_IDS (w_globals w') = ["102"; "103"].
Proof. vm_compute. split; reflexivity. Qed.

(** C2 as it is stated fails on a list with an entry that has no display
    name: no entry is the target domain, [blog.example.com] is a subdomain
    of it, and the loop raises an AttributeError at the entry before it
    (line 245): [MAIN_WEB_ID] is not set, the fallback is not reached. *)
Lemma nameless_entry_blocks_fallback :
  let items := MoreSamples.nameless_before_subdomain in
  let run := resolve_domains Sample.pf Sample.cfg items Sample.w0 in
  let lookup := get_web_internal_ids Sample.pf Sample.cfg
                  (Sample.env_with Sample.late_evening (Payload.deep items))
                  1%nat Sample.w0 in
  existsb (is_exact Sample.cfg) items = false
  /\ In (domain_record "blog.example.com" 102) items
  /\ is_subdomain Sample.cfg (domain_record "blog.example.com" 102) = true
  /\ fst run = inl MoreSamples.none_has_no_endswith
  /\ MAIN_WEB_ID (w_globals (snd run)) = None
  /\ ~ In (fallback_warning Sample.cfg) (w_log (snd run))
  /\ fst lookup = inl MoreSamples.none_has_no_endswith
  /\ MAIN_WEB_ID (w_globals (snd lookup)) = None.
Proof.
  split; [vm_compute; reflexivity|].
  split; [right; left; reflexivity|].
  split; [vm_compute; reflexivity|].
  split; [vm_compute; reflexivity|].
  split; [vm_compute; reflexivity|].
  split; [vm_compute; intros [H|[]]; discriminate H|].
  split; vm_compute; reflexivity.
Qed.

(** C3 as it is stated fails on a list with an entry that has no display
    name: no entry is the target domain or a subdomain of it, and what is
    raised is the AttributeError of line 245, not the exception of line
    254. *)
Lemma nameless_entry_is_not_domain_not_found :
  let items := MoreSamples.nameless_before_other in
  let run := resolve_domains Sample.pf Sample.cfg items Sample.w0 in
  let lookup := get_web_internal_ids Sample.pf Sample.cfg
                  (Sample.env_with Sample.late_evening (Payload.deep items))
                  1%nat Sample.w0 in
  existsb (is_exact Sample.cfg) items = false
  /\ existsb (is_subdomain Sample.cfg) items = false
  /\ fst run = inl MoreSamples.none_has_no_endswith
  /\ fst run <> inl (domain_not_found Sample.cfg)
  /\ fst lookup = inl MoreSamples.none_has_no_endswith
  /\ fst lookup <> inl (domain_not_found Sample.cfg).
Proof.
  split; [vm_compute; reflexivity|].
  split; [vm_compute; reflexivity|].
  split; [vm_compute; reflexivity|].
  split; [vm_compute; discriminate|].
  split; [vm_compute; reflexivity|].
  vm_compute; discriminate.
Qed.

Lemma no_match_fails_witness :
  exists w',
    resolve_domains Sample.pf Sample.cfg Sample.scenario_C Sample.w0
    = (inl (domain_not_found Sample.cfg), w')
    /\ MAIN_WEB_ID (w_globals w') = MAIN_WEB_ID (w_globals Sample.w0)
    /\ ALL_WEB_IDS (w_globals w') = [].
Proof.
  apply (no_match_fails Sample.pf Sample.cfg Sample.scenario_C Sample.w0);
    vm_compute; reflexivity.
Defined.

Lemma domain_list_found_three_levels_deep_only_witness :
  locate_domains_list Sample.pf (Payload.direct Sample.scenario_A) Sample.w0
  = (inl (Py.AttributeError (JArr Sample.scenario_A) "get"), Sample.w0)
  /\ locate_domains_list Sample.pf (Payload.nested Sample.scenario_A) Sample.w0
     = (inl (Py.AttributeError (JArr Sample.scenario_A) "get"), Sample.w0)
  /\ locate_domains_list Sample.pf (Payload.deep Sample.scenario_A) Sample.w0
     = (inr Sample.scenario_A, Sample.w0).
Proof.
  split; [|split].
  - apply (proj1 (domain_list_found_three_levels_deep_only Sample.pf
             (list_to_map [("data", JArr Sample.scenario_A)]) ∅ ∅
             Sample.scenario_A Sample.w0)).
    vm_compute; reflexivity.
  - apply (proj1 (proj2 (domain_list_found_three_levels_deep_only Sample.pf
             (list_to_map [("data", py_dict [("data", JArr Sample.scenario_A)])])
             (list_to_map [("data", JArr Sample.scenario_A)]) ∅
             Sample.scenario_A Sample.w0)));
      vm_compute; reflexivity.
  - apply (proj2 (proj2 (domain_list_found_three_levels_deep_only Sample.pf
             (list_to_map
                [("data", py_dict [("data", py_dict [("data", JArr Sample.scenario_A)])])])
             (list_to_map [("data", py_dict [("data", JArr Sample.scenario_A)])])
             (list_to_map [("data", JArr Sample.scenario_A)])
             Sample.scenario_A Sample.w0)));
      vm_compute; reflexivity.
Defined.

Lemma primary_in_web_ids_witness :
  let w' := snd (resolve_domains Sample.pf Sample.cfg Sample.scenario_A Sample.w0) in
  (exists id, MAIN_WEB_ID (w_globals w') = Some id
              /\ In id (ALL_WEB_IDS (w_globals w')))
  /\ ALL_WEB_IDS (w_globals w')
     = map (domain_id Sample.pf) (List.filter (is_match Sample.cfg) Sample.scenario_A)
  /\ (existsb (is_exact Sample.cfg) Sample.scenario_A = false ->
      head (ALL_WEB_IDS (w_globals w')) = MAIN_WEB_ID (w_globals w'))
  /\ (existsb (is_exact Sample.cfg) Sample.scenario_A = true ->
      find (is_match Sample.cfg) Sample.scenario_A
      = find (is_exact Sample.cfg) (rev Sample.scenario_A) ->
      head (ALL_WEB_IDS (w_globals w')) = MAIN_WEB_ID (w_globals w')).
Proof.
  apply (primary_in_web_ids Sample.pf Sample.cfg Sample.scenario_A Sample.w0).
  vm_compute. reflexivity.
Defined.

(** C5 as it is stated fails when a subdomain is listed before the
    target domain: the resolution succeeds, there is an exact match, and
    the first element of [ALL_WEB_IDS] is the subdomain's identifier. *)
Lemma primary_not_first_after_subdomain :
  let run := resolve_domains Sample.pf Sample.cfg Sample.subdomain_first Sample.w0 in
  fst run = inr tt
  /\ existsb (is_exact Sample.cfg) Sample.subdomain_first = true
  /\ MAIN_WEB_ID (w_globals (snd run)) = Some "101"
  /\ ALL_WEB_IDS (w_globals (snd run)) = ["102"; "101"]
  /\ head (ALL_WEB_IDS (w_globals (snd run))) <> MAIN_WEB_ID (w_globals (snd run)).
Proof.
  vm_compute. repeat split; try reflexivity. discriminate.
Qed.

Lemma mail_id_from_matching_row_witness :
  let w := Sample.mail_world Sample.exact_listing in
  let w_none := Sample.mail_world Sample.other_listing in
  (exists w', get_mail_internal_id Sample.cfg (mail_list_env pw_has_text) 1%nat w_none
              = (inl mail_id_not_found, w')
              /\ MAIL_ID (w_globals w') = MAIL_ID (w_globals w_none))
  /\ (exists w', get_mail_internal_id Sample.cfg (mail_list_env pw_has_text) 1%nat w
                 = (inr tt, w')
                 /\ MAIL_ID (w_globals w') = Some "5")
  /\ (exists r v,
        In r (w_browser w)
        /\ pw_has_text (NC_DOMAIN Sample.cfg) (row_text r) = true
        /\ In (Some v) (row_checkboxes r)
        /\ v <> EmptyString
        /\ MAIL_ID (w_globals (snd (get_mail_internal_id Sample.cfg
                                      (mail_list_env pw_has_text) 1%nat w)))
           = Some v).
Proof.
  intros w w_none. split; [|split].
  - apply (proj1 (mail_id_from_matching_row pw_has_text Sample.cfg 1%nat w_none)).
    vm_compute. reflexivity.
  - apply (proj1 (proj2 (mail_id_from_matching_row pw_has_text Sample.cfg 1%nat w))
             (MailRow "example.com" [Some "5"]) "5"%char EmptyString);
      vm_compute; reflexivity.
  - apply (proj2 (proj2 (mail_id_from_matching_row pw_has_text Sample.cfg 1%nat w))).
    vm_compute. reflexivity.
Defined.

(** C6 as it is stated fails on a listing whose only mailbox domain is a
    subdomain of the target: no row has the target domain as its content,
    and the look-up succeeds with the identifier of the subdomain's row. *)
Lemma mail_row_matched_by_containment :
  let run := get_mail_internal_id Sample.cfg (mail_list_env pw_has_text) 1%nat
               (Sample.mail_world Sample.subdomain_listing) in
  Forall (fun r => row_text r <> NC_DOMAIN Sample.cfg) Sample.subdomain_listing
  /\ fst run = inr tt
  /\ MAIL_ID (w_globals (snd run)) = Some "7".
Proof.
  split; [repeat constructor; discriminate|].
  vm_compute. split; reflexivity.
Qed.

Lemma certificate_name_of_local_date_witness :
  main Sample.pf Sample.cfg env Sample.w0
  = deploy_as Sample.pf Sample.cfg env
      (certificate_name Sample.cfg (local_now Sample.late_evening))
      (answered Sample.w0 DatetimeNow (inr (local_now Sample.late_evening)) tt)
  /\ (certificate_name Sample.cfg (Datetime 2024 1 2 1800)
      = certificate_name Sample.cfg (Datetime 2024 1 2 0)
      <-> same_date (Datetime 2024 1 2 1800) (Datetime 2024 1 2 0)).
Proof.
  split.
  - apply (proj1 (certificate_name_of_local_date Sample.pf Sample.cfg)).
    reflexivity.
  - apply (proj2 (proj2 (certificate_name_of_local_date Sample.pf Sample.cfg)));
      unfold plausible_date; cbn; lia.
Defined.

(** C7 as it is stated fails late in the evening east of Greenwich: at
    23:30 UTC on 2024-01-01 the local date is 2024-01-02, and the name of
    the run carries the local date, not the UTC date. *)
Lemma certificate_name_not_of_utc_date :
  utc_now Sample.late_evening = Datetime 2024 1 1 84600
  /\ local_now Sample.late_evening = Datetime 2024 1 2 1800
  /\ head (w_log (snd (main Sample.pf Sample.cfg env Sample.w0)))
     = Some (INFO, "Certificate name for this run: acme-example.com20240102")
  /\ "acme-" +:+ NC_DOMAIN Sample.cfg +:+ strftime_Ymd (utc_now Sample.late_evening)
     = "acme-example.com20240101".
Proof.
  vm_compute. repeat split; reflexivity.
Qed.

Lemma upload_survives_missing_confirmation_witness :
  exists w2,
    upload_certificate env 0%nat "https://h1.webhosting.systems/smb/ssl-certificate/add/id/101"
      "acme-example.com20240102" "KEY" "CERT" Sample.w0 = (inr tt, w2)
    /\ w_log w2
       = w_log (snd (submit_certificate_form env 0%nat
                       "https://h1.webhosting.systems/smb/ssl-certificate/add/id/101"
                       "acme-example.com20240102" "KEY" "CERT" Sample.w0))
         ++ [(WARNING, "Success message not detected, continuing execution")].
Proof.
  destruct (upload_survives_missing_confirmation env 0%nat
              "https://h1.webhosting.systems/smb/ssl-certificate/add/id/101"
              "acme-example.com20240102" "KEY" "CERT" Sample.w0
              (snd (submit_certificate_form env 0%nat
                      "https://h1.webhosting.systems/smb/ssl-certificate/add/id/101"
                      "acme-example.com20240102" "KEY" "CERT" Sample.w0)))
    as (w2 & Hup & _ & Hlog & _).
  - vm_compute. reflexivity.
  - exists w2. split; [exact Hup|].
    apply (Hlog (Exn CAssertionError "Locator expected to be visible") tt).
    vm_compute. reflexivity.
Defined.

Lemma no_challenge_no_code_witness :
  exists w' tr,
    handle_login Sample.cfg env 0%nat Sample.w0 = (inr tt, w')
    /\ w_trace w' = w_trace Sample.w0 ++ tr
    /\ Forall (fun ev => submits_code ev = false) tr
    /\ w_log w' = w_log (snd (submit_credentials Sample.cfg env 0%nat Sample.w0))
    /\ w_globals w' = w_globals (snd (submit_credentials Sample.cfg env 0%nat Sample.w0)).
Proof.
  apply (no_challenge_no_code Sample.cfg env 0%nat Sample.w0
           (snd (submit_credentials Sample.cfg env 0%nat Sample.w0))
           "about:blank" tt "<html><body>Welcome</body></html>" tt);
    vm_compute; reflexivity.
Defined.

Lemma sso_without_hostname_proceeds_witness :
  process_sso_button Sample.pf Sample.cfg env 0%nat "Auto-Login WEB" Sample.w0
  = bind (enter_subsystem Sample.pf Sample.cfg env "Auto-Login WEB" None 1%nat)
      (fun _ => bind (logger INFO "Closing tab: Auto-Login WEB")
                     (fun _ => call env (ClosePage 1%nat)))
      (logged (answered (snd (open_sso_page env 0%nat "Auto-Login WEB" Sample.w0))
                        (PageUrl 1%nat) (inr "about:blank") tt)
              [(INFO, "Captured URL: about:blank");
               (ERROR, "Could not parse hostname from URL")]).
Proof.
  apply (sso_without_hostname_proceeds Sample.pf Sample.cfg env 0%nat "Auto-Login WEB"
           Sample.w0 1%nat (snd (open_sso_page env 0%nat "Auto-Login WEB" Sample.w0))
           "about:blank" tt);
    [vm_compute; reflexivity | vm_compute; reflexivity | vm_compute; lia].
Defined.

(** The run of the sample browser: the host identifier of the web
    subsystem stays [None] and the look-up of the web identifiers is
    entered (and fails there, the page having no data). *)
Example run_without_hostname :
  let run := main Sample.pf Sample.cfg env Sample.w0 in
  fst run = inl (Exception "Failed to retrieve Plesk data via JS")
  /\ WEBHOSTING_ID (w_globals (snd run)) = None
  /\ In (ERROR, "Could not parse hostname from URL") (w_log (snd run))
  /\ In (INFO, "Navigating to Web View to find IDs for example.com") (w_log (snd run)).
Proof.
  vm_compute. repeat split; auto 20.
Qed.

End Samples.

(** * Further properties of the program *)

(** ** Loading the configuration *)

Section Startup.

Implicit Types (environ : gmap string string).

(** X1.  The loading exits with status 1 exactly when a required variable is
    unset without a default or set to the empty string (a default does not
    help against an empty value), and the one error it logs names the first
    such variable in the order of the calls; [NC_CCP] is never the cause. *)
Theorem load_config_reports_first_missing environ :
  match find (variable_missing environ) required_variables with
  | Some (key, _) =>
      load_config environ
      = inl (Exited 1 [(ERROR, "Missing required environment variable: " +:+ key)])
  | None => exists cfg, load_config environ = inr cfg
  end.
Proof.
  unfold load_config, get_env, variable_missing, required_variables.
  cbn [find fst snd andb].
  repeat (match goal with
          | |- context [environ !! ?k] =>
              destruct (environ !! k) as [[|? ?]|]; cbn [env_value_missing andb]
          end; try reflexivity).
  all: eauto.
Qed.

(** X2.  A configuration that was loaded has every required constant non-empty
    and as the environment gives it; the three constants with a default
    fall back to it only when the variable is unset. *)
Theorem load_config_values environ cfg :
  load_config environ = inr cfg ->
  (environ !! "NC_USER" = Some (NC_USER cfg) /\ NC_USER cfg <> EmptyString)
  /\ (environ !! "NC_PASS" = Some (NC_PASS cfg) /\ NC_PASS cfg <> EmptyString)
  /\ (environ !! "NC_2FA_SECRET" = Some (NC_2FA_SECRET cfg)
      /\ NC_2FA_SECRET cfg <> EmptyString)
  /\ (environ !! "NC_PRODUCT_ID" = Some (NC_PRODUCT_ID cfg)
      /\ NC_PRODUCT_ID cfg <> EmptyString)
  /\ (environ !! "NC_DOMAIN" = Some (NC_DOMAIN cfg) /\ NC_DOMAIN cfg <> EmptyString)
  /\ NC_CCP cfg = default "https://www.customercontrolpanel.de" (environ !! "NC_CCP")
  /\ (SSL_PRIVATE_KEY cfg = default "/data/key.pem" (environ !! "SSL_PRIVATE_KEY")
      /\ SSL_PRIVATE_KEY cfg <> EmptyString)
  /\ (SSL_CERT_KEY cfg = default "/data/cert.pem" (environ !! "SSL_CERT_KEY")
      /\ SSL_CERT_KEY cfg <> EmptyString).
Proof.
  unfold load_config, get_env. cbn [andb].
  repeat (match goal with
          | |- context [environ !! ?k] =>
              destruct (environ !! k) as [[|? ?]|]; cbn [env_value_missing andb]
          end; try discriminate).
  all: intros [= <-]; cbn; repeat split; discriminate.
Qed.

End Startup.

(** ** Failures on the way to the identifiers *)

Section Handoff.

Context (pf : platform) (cfg : Config).
Context {B : Type} (env : forall X, cmd X -> B -> result X * B).
Implicit Types (w : world B) (p : page).

(** X3.  When the single-sign-on button is not visible, [process_sso_button]
    raises [Failed to <name>: Button <name> not found.]; nothing is clicked,
    no tab is awaited and the globals stay as they are. *)
Theorem sso_button_not_visible p button_name w b1 :
  env _ (IsVisible p (get_by_text button_name true)) (w_browser w) = (inr false, b1) ->
  process_sso_button pf cfg env p button_name w =
    (inl (Exception ("Failed to " +:+ button_name +:+ ": Button " +:+ button_name
                     +:+ " not found.")),
     answered (logged w [(INFO, "Clicking " +:+ button_name +:+ "...")])
              (IsVisible p (get_by_text button_name true)) (inr false) b1).
Proof.
  intros Hvis.
  unfold process_sso_button, open_sso_page, bind, try_except_as, try_except, logger, call.
  cbn [w_browser w_globals w_log w_trace]. rewrite Hvis. reflexivity.
Qed.

(** X4.  When the click that should open the new tab raises, an [Exception] is
    raised again as [Failed to <name>: <its text>]; an exception outside
    [Exception] (a cancellation) passes unchanged. *)
Theorem sso_click_failure_wrapped p button_name w b1 e b2 :
  env _ (IsVisible p (get_by_text button_name true)) (w_browser w) = (inr true, b1) ->
  env _ (ExpectPageClick p (get_by_text button_name true)) b1 = (inl e, b2) ->
  process_sso_button pf cfg env p button_name w =
    (inl (if is_Exception e
          then Exception ("Failed to " +:+ button_name +:+ ": " +:+ exn_str e)
          else e),
     answered
       (answered (logged w [(INFO, "Clicking " +:+ button_name +:+ "...")])
                 (IsVisible p (get_by_text button_name true)) (inr true) b1)
       (ExpectPageClick p (get_by_text button_name true)) (inl e) b2).
Proof.
  intros Hvis Hclick.
  unfold process_sso_button, open_sso_page, bind, try_except_as, try_except, logger, call.
  cbn [w_browser w_globals w_log w_trace]. rewrite Hvis.
  cbn [negb w_browser w_globals w_log w_trace]. rewrite Hclick.
  destruct (is_Exception e); reflexivity.
Qed.

(** X5.  When the new tab does not become idle in time, the [Exception] is
    raised again as [Page load timed out: <its text>]; the tab is left open
    (no [ClosePage] follows) and no identifier is looked up. *)
Theorem sso_load_timeout_wrapped p button_name w b1 new_page b2 url b3 e b4 :
  env _ (IsVisible p (get_by_text button_name true)) (w_browser w) = (inr true, b1) ->
  env _ (ExpectPageClick p (get_by_text button_name true)) b1 = (inr new_page, b2) ->
  env _ (PageUrl new_page) b2 = (inr url, b3) ->
  env _ (WaitForLoadState new_page "networkidle" (Some 60000)) b3 = (inl e, b4) ->
  is_Exception e = true ->
  exists w',
    process_sso_button pf cfg env p button_name w =
      (inl (Exception ("Page load timed out: " +:+ exn_str e)), w')
    /\ w_globals w' = w_globals w
    /\ w_trace w' = w_trace w ++
         [Ev (IsVisible p (get_by_text button_name true)) (inr true);
          Ev (ExpectPageClick p (get_by_text button_name true)) (inr new_page);
          Ev (PageUrl new_page) (inr url);
          Ev (WaitForLoadState new_page "networkidle" (Some 60000)) (inl e)].
Proof.
  intros Hvis Hclick Hurl Hwait He.
  unfold process_sso_button, open_sso_page, bind, try_except_as, try_except, logger, call.
  cbn [w_browser w_globals w_log w_trace]. rewrite Hvis.
  cbn [negb w_browser w_globals w_log w_trace]. rewrite Hclick.
  cbn [w_browser w_globals w_log w_trace]. rewrite Hurl.
  cbn [w_browser w_globals w_log w_trace]. rewrite Hwait, He.
  eexists. split; [reflexivity|]. cbn [w_globals w_trace].
  split; [reflexivity|]. rewrite <- !app_assoc. reflexivity.
Qed.

(** X6.  When no row of the product listing matches [NC_PRODUCT_ID],
    [trigger_auto_login] logs the selector it tried and raises
    [Product row for '<id>' not found]; nothing is clicked and no
    single-sign-on is started. *)
Theorem product_row_missing p w b1 b2 b3 :
  let xpath := "//tr[contains(., '" +:+ NC_PRODUCT_ID cfg
               +:+ "')]//a[contains(@onclick, 'showProductDetail')]" in
  env _ (Goto p (NC_CCP cfg +:+ "/produkte.php")) (w_browser w) = (inr tt, b1) ->
  env _ (WaitForSelector p "tr" "attached") b1 = (inr tt, b2) ->
  env _ (Count p (page_locator xpath None)) b2 = (inr 0%nat, b3) ->
  trigger_auto_login pf cfg env p w =
    (inl (Exception ("Product row for '" +:+ NC_PRODUCT_ID cfg +:+ "' not found")),
     World (w_globals w)
           (w_log w ++ [(INFO, "Navigating to products page...");
                        (INFO, "Opening product details, ID: " +:+ NC_PRODUCT_ID cfg);
                        (ERROR, "Failed to find row via XPath: " +:+ xpath)])
           (w_trace w ++ [Ev (Goto p (NC_CCP cfg +:+ "/produkte.php")) (inr tt);
                          Ev (WaitForSelector p "tr" "attached") (inr tt);
                          Ev (Count p (page_locator xpath None)) (inr 0%nat)])
           b3).
Proof.
  intros xpath Hgoto Hsel Hcount.
  unfold trigger_auto_login, bind, logger, call, raise.
  cbn [w_browser w_globals w_log w_trace]. rewrite Hgoto.
  cbn [w_browser w_globals w_log w_trace]. rewrite Hsel.
  cbn [w_browser w_globals w_log w_trace]. fold xpath. rewrite Hcount.
  cbn [Nat.eqb w_browser w_globals w_log w_trace].
  rewrite <- !app_assoc. reflexivity.
Qed.

Lemma first_label_no_dot h : PyStr.contains "." (PyStr.first_label h) = false.
Proof.
  induction h as [|c h IH]; [reflexivity|]. cbn [PyStr.first_label].
  destruct (Ascii.eqb_spec c "."%char) as [->|Hc]; [reflexivity|].
  cbn [PyStr.contains String.prefix]. rewrite IH.
  destruct (ascii_dec "."%char c) as [E|_]; [congruence | reflexivity].
Qed.

Lemma first_label_prefix h :
  exists rest, h = PyStr.first_label h +:+ rest
               /\ (rest = EmptyString \/ exists r, rest = "." +:+ r).
Proof.
  induction h as [|c h (rest & E & Hrest)].
  - exists EmptyString. split; [reflexivity | left; reflexivity].
  - cbn [PyStr.first_label]. destruct (Ascii.eqb_spec c "."%char) as [->|Hc].
    + exists (String "."%char h). split; [reflexivity|]. right. exists h. reflexivity.
    + exists rest. split; [|exact Hrest].
      change (String c h = String c (PyStr.first_label h +:+ rest)). f_equal. exact E.
Qed.

(** X7.  The host identifier taken from a hostname is its first label: it has
    no dot, and the hostname is the identifier alone or the identifier, a
    dot and the rest; the identifier is logged at level INFO. *)
Theorem host_id_is_first_label url hostname w :
  urlparse_hostname pf url = inr (Some hostname) ->
  hostname <> EmptyString ->
  exists id rest,
    extract_host_id pf url w
      = (inr (Some id), logged w [(INFO, "Extracted Host ID from URL: " +:+ id)])
    /\ hostname = id +:+ rest
    /\ (rest = EmptyString \/ exists r, rest = "." +:+ r)
    /\ PyStr.contains "." id = false.
Proof.
  intros Hparse Hne.
  destruct (first_label_prefix hostname) as (rest & E & Hrest).
  exists (PyStr.first_label hostname), rest.
  split; [|split; [exact E | split; [exact Hrest | apply first_label_no_dot]]].
  unfold extract_host_id, try_except_as, try_except, bind, lift_result.
  rewrite Hparse. destruct hostname as [|c h]; [congruence|]. reflexivity.
Qed.

End Handoff.

(** ** The page data, the login and the outcome of the run *)

Section Outcome.

Context (pf : platform) (cfg : Config).
Context {B : Type} (env : forall X, cmd X -> B -> result X * B).
Implicit Types (w : world B) (p : page).

(** X8.  When the script finds no data in the page ([None], or anything
    falsy), [get_web_internal_ids] raises [Failed to retrieve Plesk data via
    JS]; when the data is a dict with a top-level [error] key (the script's
    own catch), it logs that error and raises [JS execution failed inside
    browser].  In both cases no global is written, [ALL_WEB_IDS] included. *)
Theorem page_without_data_rejected p w data b1 :
  env _ (Evaluate p PLESK_SCRIPT) (w_browser w) = (inr data, b1) ->
  (Py.truthy data = false ->
   exists w', get_web_internal_ids pf cfg env p w
              = (inl (Exception "Failed to retrieve Plesk data via JS"), w')
              /\ w_globals w' = w_globals w)
  /\ (forall m v, data = JObj m -> m !! "error" = Some v ->
      exists w', get_web_internal_ids pf cfg env p w
                 = (inl (Exception "JS execution failed inside browser"), w')
                 /\ w_globals w' = w_globals w
                 /\ last (w_log w') = Some (ERROR, "JS execution error: " +:+ py_str pf v)).
Proof.
  intros Heval. split.
  - intros Hfalsy.
    unfold get_web_internal_ids, bind, logger, call, raise.
    cbn [w_browser w_globals w_log w_trace]. rewrite Heval, Hfalsy.
    eexists. split; reflexivity.
  - intros m v -> Herr.
    unfold get_web_internal_ids, bind, logger, call, raise, lift_result.
    cbn [w_browser w_globals w_log w_trace]. rewrite Heval.
    rewrite (truthy_dict_with_key m "error" v Herr).
    cbn [negb Py.contains error_item]. rewrite Herr.
    eexists. split; [reflexivity|]. cbn [w_globals w_log]. split; [reflexivity|].
    apply last_snoc.
Qed.

(** X9.  When the second-factor marker is in the address, the content of the
    page is not read, the code is asked for the configured secret, and the
    code typed into the TAN field is the one that was computed. *)
Theorem challenge_answered_with_computed_code p w w1 url b2 token b3 :
  submit_credentials cfg env p w = (inr tt, w1) ->
  env _ (PageUrl p) (w_browser w1) = (inr url, b2) ->
  PyStr.contains "start.php" url = true ->
  env _ (TotpNow (NC_2FA_SECRET cfg)) b2 = (inr token, b3) ->
  exists r w' rest,
    handle_login cfg env p w = (r, w')
    /\ w_trace w' = w_trace w1 ++
         Ev (PageUrl p) (inr url)
         :: Ev (TotpNow (NC_2FA_SECRET cfg)) (inr token)
         :: rest
    /\ (exists fill_answer more,
          rest = Ev (Fill p (get_by_placeholder "TAN") token) fill_answer :: more
          /\ Forall (fun ev => match ev with
                               | Ev (PageContent _) _ | Ev (TotpNow _) _ => False
                               | _ => True
                               end) rest).
Proof.
  intros Hsub Hurl Hmark Htotp.
  unfold handle_login, bind at 1 2. rewrite Hsub.
  unfold challenge_present, bind at 1, call at 1. rewrite Hurl, Hmark.
  unfold ret, answer_challenge, bind, logger, call.
  cbn [w_browser w_globals w_log w_trace]. rewrite Htotp.
  cbn [w_browser w_globals w_log w_trace].
  destruct (env _ (Fill p (get_by_placeholder "TAN") token) b3) as [[e1|[]] b4].
  { do 3 eexists. split; [reflexivity|]. cbn [w_trace].
    split; [rewrite <- !app_assoc; reflexivity|].
    do 2 eexists. split; [reflexivity|]. repeat constructor. }
  cbn [w_browser w_globals w_log w_trace].
  destruct (env _ (Click p (get_by_role "button" "Confirm token")) b4) as [[e2|[]] b5].
  { do 3 eexists. split; [reflexivity|]. cbn [w_trace].
    split; [rewrite <- !app_assoc; reflexivity|].
    do 2 eexists. split; [reflexivity|]. repeat constructor. }
  cbn [w_browser w_globals w_log w_trace].
  destruct (env _ (WaitForUrl p "**/start.php") b5) as [[e3|[]] b6].
  { do 3 eexists. split; [reflexivity|]. cbn [w_trace].
    split; [rewrite <- !app_assoc; reflexivity|].
    do 2 eexists. split; [reflexivity|]. repeat constructor. }
  do 3 eexists. split; [reflexivity|]. cbn [w_trace].
  split; [rewrite <- !app_assoc; reflexivity|].
  do 2 eexists. split; [reflexivity|]. repeat constructor.
Qed.

(** X10.  A certificate file that cannot be read ends [main] before any browser
    is launched: the clock and the file are the only things asked, the
    exception is the one of the read, and [Cert not found] is logged exactly
    when it is a FileNotFoundError. *)
Theorem unreadable_key_stops_before_launch w now b1 e b2 :
  env _ DatetimeNow (w_browser w) = (inr now, b1) ->
  env _ (ReadFile (SSL_PRIVATE_KEY cfg)) b1 = (inl e, b2) ->
  main pf cfg env w =
    (inl e,
     World (w_globals w)
           (w_log w ++
              [(INFO, "Certificate name for this run: " +:+ certificate_name cfg now);
               (INFO, "Reading certificate file content")] ++
              (if is_FileNotFoundError e
               then [(ERROR, "Cert not found: " +:+ SSL_PRIVATE_KEY cfg)] else []))
           (w_trace w ++ [Ev DatetimeNow (inr now);
                          Ev (ReadFile (SSL_PRIVATE_KEY cfg)) (inl e)])
           b2).
Proof.
  intros Hnow Hread.
  unfold main, deploy_as, read_file_content, bind, try_except_as, try_except,
    logger, call, raise.
  cbn [w_browser w_globals w_log w_trace]. rewrite Hnow.
  cbn [w_browser w_globals w_log w_trace]. rewrite Hread.
  destruct (is_FileNotFoundError e); cbn [w_browser w_globals w_log w_trace];
    rewrite <- !app_assoc; cbn [app]; rewrite ?app_nil_r; reflexivity.
Qed.

(** X11.  The [finally] block runs after the steps, failed or not: the context
    is always closed; the browser is closed unless closing the context
    raised; and an exception raised while closing takes the place of the
    outcome of the steps. *)
Theorem release_always_runs p cert_name key_content cert_content w r w' :
  try_finally (guarded_steps pf cfg env p cert_name key_content cert_content)
              (release env) w = (r, w') ->
  exists r1 w1,
    guarded_steps pf cfg env p cert_name key_content cert_content w = (r1, w1)
    /\ ((exists e b, w' = answered w1 CloseContext (inl e) b /\ r = inl e)
        \/ (exists b answer b',
              w' = answered (answered w1 CloseContext (inr tt) b) CloseBrowser answer b'
              /\ r = match answer with inl e => inl e | inr _ => r1 end)).
Proof.
  unfold try_finally, release, bind, call.
  destruct (guarded_steps pf cfg env p cert_name key_content cert_content w) as [r1 w1].
  exists r1, w1. split; [reflexivity|].
  destruct (env _ CloseContext (w_browser w1)) as [[e|[]] b] eqn:Hctx.
  - left. injection H as <- <-. eauto.
  - right. cbn [w_browser] in H.
    destruct (env _ CloseBrowser b) as [[e|[]] b'] eqn:Hbr; injection H as <- <-.
    + exists b, (inl e), b'. split; reflexivity.
    + exists b, (inr tt), b'. split; reflexivity.
Qed.

(** [main] is that block once the files are read and the browser is
    launched. *)
Lemma deploy_as_launched cert_name w key_content b1 cert_content b2 p b3 :
  env _ (ReadFile (SSL_PRIVATE_KEY cfg)) (w_browser w) = (inr key_content, b1) ->
  env _ (ReadFile (SSL_CERT_KEY cfg)) b1 = (inr cert_content, b2) ->
  env _ LaunchBrowser b2 = (inr p, b3) ->
  deploy_as pf cfg env cert_name w =
    try_finally (guarded_steps pf cfg env p cert_name key_content cert_content)
                (release env)
      (World (w_globals w)
             (w_log w ++ [(INFO, "Certificate name for this run: " +:+ cert_name);
                          (INFO, "Reading certificate file content");
                          (INFO, "Reading certificate file content")])
             (w_trace w ++ [Ev (ReadFile (SSL_PRIVATE_KEY cfg)) (inr key_content);
                            Ev (ReadFile (SSL_CERT_KEY cfg)) (inr cert_content);
                            Ev LaunchBrowser (inr p)])
             b3).
Proof.
  intros Hkey Hcert Hlaunch.
  unfold deploy_as, read_file_content. unfold bind, try_except_as, try_except, logger, call.
  cbn [w_browser w_globals w_log w_trace]. rewrite Hkey.
  cbn [w_browser w_globals w_log w_trace]. rewrite Hcert.
  cbn [w_browser w_globals w_log w_trace]. rewrite Hlaunch.
  cbn [w_browser w_globals w_log w_trace]. rewrite <- !app_assoc. reflexivity.
Qed.

(** X12.  When a step raises an [Exception], the handler logs [Task execution
    failed], takes the screenshot at [error_screenshot.png] and raises the
    same exception again, or the exception of the screenshot when that
    fails; an exception outside [Exception] passes without log or
    screenshot. *)
Theorem failure_diagnostics p cert_name key_content cert_content w e w1 :
  run_steps pf cfg env p cert_name key_content cert_content w = (inl e, w1) ->
  (is_Exception e = true ->
   forall answer b,
     env _ (Screenshot p "error_screenshot.png") (w_browser w1) = (answer, b) ->
     guarded_steps pf cfg env p cert_name key_content cert_content w =
       (inl (match answer with inl e' => e' | inr _ => e end),
        answered (logged w1 [(ERROR, "Task execution failed: " +:+ exn_str e)])
                 (Screenshot p "error_screenshot.png") answer b))
  /\ (is_Exception e = false ->
      guarded_steps pf cfg env p cert_name key_content cert_content w = (inl e, w1)).
Proof.
  intros Hsteps. unfold guarded_steps, try_except_as, try_except. rewrite Hsteps.
  split; intros He; rewrite He; [|reflexivity].
  intros answer b Hshot. unfold bind, logger, call, raise.
  cbn [w_browser w_globals w_log w_trace]. rewrite Hshot.
  destruct answer as [e'|[]]; reflexivity.
Qed.

End Outcome.

(** ** More on the web identifiers *)

Section WebResolutionMore.

Context (pf : platform) (cfg : Config) {B : Type}.
Implicit Types (w : world B) (item : json) (items : list json).

Lemma for_in_app {A S} (l1 l2 : list A) (body : A -> S -> M B S) (s : S) w :
  for_in (l1 ++ l2) body s w = bind (for_in l1 body s) (for_in l2 body) w.
Proof.
  revert s w. induction l1 as [|x l1 IH]; intros s w; [reflexivity|].
  cbn [app for_in]. unfold bind.
  destruct (body x s w) as [[e|s'] w1]; [reflexivity|].
  rewrite IH. reflexivity.
Qed.

Lemma scan_step_unrelated g item :
  is_match cfg item = false -> scan_step pf cfg g item = g.
Proof.
  unfold is_match, scan_step.
  destruct (is_exact cfg item), (is_subdomain cfg item); try discriminate. reflexivity.
Qed.

Lemma scan_globals_filter items : forall g,
  scan_globals pf cfg (List.filter (is_match cfg) items) g = scan_globals pf cfg items g.
Proof.
  induction items as [|item items IH]; intros g; [reflexivity|].
  cbn [List.filter]. destruct (is_match cfg item) eqn:Hm.
  - apply (IH (scan_step pf cfg g item)).
  - change (scan_globals pf cfg (item :: items) g)
      with (scan_globals pf cfg items (scan_step pf cfg g item)).
    rewrite scan_step_unrelated by exact Hm. apply IH.
Qed.

Lemma forallb_filter {A} (f g : A -> bool) (l : list A) :
  forallb f l = true -> forallb f (List.filter g l) = true.
Proof.
  induction l as [|x l IH]; cbn; [reflexivity|].
  intros H. apply andb_true_iff in H as [Hx Hl].
  destruct (g x); cbn; [rewrite Hx|]; auto.
Qed.

Lemma existsb_exact_filter items :
  existsb (is_exact cfg) (List.filter (is_match cfg) items) = existsb (is_exact cfg) items.
Proof.
  induction items as [|x l IH]; cbn; [reflexivity|]. unfold is_match at 1.
  destruct (is_exact cfg x) eqn:Hx; cbn; [rewrite Hx; reflexivity|].
  destruct (is_subdomain cfg x); cbn; [rewrite Hx|]; exact IH.
Qed.

(** X13.  Entries that are neither the target domain nor a subdomain of it do
    not count: on a list of domain records, the resolution gives the same
    outcome and the same globals as on the list without them. *)
Theorem unrelated_entries_ignored items w :
  forallb is_domain_record items = true ->
  fst (resolve_domains pf cfg items w)
  = fst (resolve_domains pf cfg (List.filter (is_match cfg) items) w)
  /\ w_globals (snd (resolve_domains pf cfg items w))
     = w_globals (snd (resolve_domains pf cfg (List.filter (is_match cfg) items) w)).
Proof.
  intros Hall.
  destruct (resolve_domains_records pf cfg items w Hall) as (lg & _ & E).
  destruct (resolve_domains_records pf cfg _ w
              (forallb_filter _ (is_match cfg) _ Hall)) as (lg' & _ & E').
  cbv zeta in E, E'. rewrite existsb_exact_filter, scan_globals_filter in E'.
  rewrite E, E'.
  destruct (existsb (is_exact cfg) items); [split; reflexivity|].
  destruct (ALL_WEB_IDS _); split; reflexivity.
Qed.

Lemma scan_item_malformed_error item found w :
  is_domain_record item = false ->
  scan_item pf cfg item found w = (inl (malformed_error item), w).
Proof.
  unfold is_domain_record, display_name, scan_item, bind, lift_result, malformed_error.
  destruct item as [| | | | |l|m]; cbn; try reflexivity.
  destruct (m !! "displayName") as [[| | | |s| |]|]; cbn; try discriminate; reflexivity.
Qed.

(** X14.  An entry that is no domain record (no dict, or a display name that is
    missing or no str) makes the resolution raise an AttributeError at that
    entry, and what the entries before it wrote stays written: [MAIN_WEB_ID]
    and [ALL_WEB_IDS] are those of the scan of these entries. *)
Theorem malformed_entry_leaves_partial_state before item after w :
  forallb is_domain_record before = true ->
  is_domain_record item = false ->
  exists w',
    resolve_domains pf cfg (before ++ item :: after) w = (inl (malformed_error item), w')
    /\ w_globals w' = scan_globals pf cfg before (set_ALL_WEB_IDS [] (w_globals w)).
Proof.
  intros Hbefore Hitem.
  unfold resolve_domains, bind at 1 2 3, write_globals, logger.
  cbn [w_globals w_log w_trace w_browser].
  rewrite for_in_app. unfold bind at 1.
  match goal with
  | |- context [for_in before _ false ?w1] =>
      destruct (for_in_scan pf cfg before false w1 Hbefore) as (lg & E & _)
  end.
  rewrite E. cbn [for_in]. unfold bind at 1.
  rewrite scan_item_malformed_error by exact Hitem.
  eexists. split; reflexivity.
Qed.

(** *** The shape of the data object *)

(** X15.  A data object without a [data] key is not a structure mismatch: the
    defaults of the three [get] calls give an empty list, and the parse
    fails as a target domain that was not found. *)
Theorem payload_without_data_key (top : gmap string json) w :
  top !! "data" = None ->
  locate_domains_list pf (JObj top) w = (inr [], w)
  /\ fst (parse_data_obj pf cfg (JObj top) w) = inl (domain_not_found cfg).
Proof.
  intros Htop.
  assert (E : locate_domains_list pf (JObj top) w = (inr [], w)).
  { unfold locate_domains_list, bind, lift_result. cbn [Py.get]. rewrite Htop.
    cbn [default from_option id Py.truthy size]. rewrite map_size_empty.
    cbn [Nat.eqb negb Py.get]. rewrite Htop. cbn [default from_option id Py.get].
    rewrite lookup_empty. reflexivity. }
  split; [exact E|].
  unfold parse_data_obj, try_except_as, try_except, bind at 1. rewrite E.
  reflexivity.
Qed.

(** X16.  [JSON structure mismatch] is raised, with the keys of the data object
    logged, when the value under [data.data.data] is there and is no list. *)
Theorem structure_mismatch (top body inner : gmap string json) (v : json) w :
  top !! "data" = Some (JObj body) ->
  body !! "data" = Some (JObj inner) ->
  inner !! "data" = Some v ->
  Py.is_list v = false ->
  locate_domains_list pf (JObj top) w =
    (inl (Exception "JSON structure mismatch"),
     logged w [(ERROR, "Could not locate domain list in JSON object. Keys: "
                       +:+ dict_keys_str pf top)]).
Proof.
  intros Htop Hbody Hinner Hv.
  unfold locate_domains_list, bind, lift_result. cbn [Py.get]. rewrite Htop.
  cbn [default from_option id].
  rewrite (truthy_dict_with_key body "data" _ Hbody). cbn [Py.get].
  rewrite Hbody. cbn [default from_option id Py.get]. rewrite Hinner.
  cbn [default from_option id]. rewrite Hv. reflexivity.
Qed.

(** *** The handler of the parse *)

Lemma get_raises_exception v key dflt e :
  Py.get v key dflt = inl e -> is_Exception e = true.
Proof.
  destruct v; cbn; intros [= <-]; reflexivity.
Qed.

Lemma locate_raises_exception data_obj w e w' :
  locate_domains_list pf data_obj w = (inl e, w') -> is_Exception e = true.
Proof.
  unfold locate_domains_list, bind, lift_result, ret, raise, logger.
  destruct (Py.get data_obj "data" (JObj ∅)) as [e1|level1] eqn:H1.
  { intros [= <- _]. eapply get_raises_exception, H1. }
  destruct (Py.get (if Py.truthy level1 then level1 else data_obj) "data" (JObj ∅))
    as [e2|level2] eqn:H2.
  { intros [= <- _]. eapply get_raises_exception, H2. }
  destruct (Py.get level2 "data" (JArr [])) as [e3|found] eqn:H3.
  { intros [= <- _]. eapply get_raises_exception, H3. }
  destruct (Py.is_list found) eqn:Hl.
  { destruct found; discriminate. }
  destruct (Py.get (if Py.truthy level1 then level1 else data_obj) "data" (JArr []))
    as [e4|again] eqn:H4.
  { intros [= <- _]. eapply get_raises_exception, H4. }
  destruct again; try (destruct data_obj; intros [= <- _]; reflexivity).
Qed.

Lemma for_in_scan_raises_exception items : forall found w e w',
  for_in items (scan_item pf cfg) found w = (inl e, w') -> is_Exception e = true.
Proof.
  induction items as [|item items IH]; intros found w e w'; [intros [=]|].
  cbn [for_in]. unfold bind at 1.
  destruct (is_domain_record item) eqn:Hitem.
  - destruct (scan_item_record pf cfg item found w Hitem) as (lg & E & _).
    rewrite E. apply IH.
  - rewrite scan_item_malformed_error by exact Hitem. intros [= <- _].
    unfold malformed_error. destruct item; reflexivity.
Qed.

Lemma resolve_raises_exception items w e w' :
  resolve_domains pf cfg items w = (inl e, w') -> is_Exception e = true.
Proof.
  unfold resolve_domains, bind at 1 2 3, write_globals, logger.
  cbn [w_globals w_log w_trace w_browser].
  match goal with
  | |- context [for_in items _ false ?w1] =>
      destruct (for_in items (scan_item pf cfg) false w1) as [[e1|found] w2] eqn:E
  end.
  - intros [= <- _]. eapply for_in_scan_raises_exception, E.
  - destruct found; cbn [negb]; [intros [=]|].
    unfold bind, read_globals, logger, write_globals, raise.
    destruct (ALL_WEB_IDS (w_globals w2)); intros [= <- _]. reflexivity.
Qed.

(** X17.  Whatever goes wrong while the data object is parsed is an
    [Exception], is logged once as [Error parsing returned JSON data:
    <its text>], the last record of the log, and is raised again as it
    is: the parse fails with [e] exactly when the block of lines 218-254
    fails with [e], and it then ends in the world the block ended in with
    that one record added to the log, the globals, the trace and the
    browser being those the block left. *)
Theorem parse_failure_logged data_obj w e w' :
  parse_data_obj pf cfg data_obj w = (inl e, w') <->
  exists w1,
    bind (locate_domains_list pf data_obj) (resolve_domains pf cfg) w = (inl e, w1)
    /\ is_Exception e = true
    /\ w' = logged w1 [(ERROR, "Error parsing returned JSON data: " +:+ exn_str e)]
    /\ last (w_log w')
       = Some (ERROR, "Error parsing returned JSON data: " +:+ exn_str e).
Proof.
  unfold parse_data_obj, try_except_as, try_except.
  destruct (bind (locate_domains_list pf data_obj) (resolve_domains pf cfg) w)
    as [[e1|[]] w1] eqn:E.
  - assert (He : is_Exception e1 = true).
    { unfold bind in E.
      destruct (locate_domains_list pf data_obj w) as [[e0|l] w0] eqn:E0.
      - injection E as <- _. eapply locate_raises_exception, E0.
      - eapply resolve_raises_exception, E. }
    rewrite He. unfold bind, logger, raise, logged. split.
    + intros [= <- <-]. exists w1. split; [reflexivity|]. split; [exact He|].
      split; [reflexivity|]. cbn [w_log]. apply last_snoc.
    + intros (w2 & [= -> ->] & _ & -> & _). reflexivity.
  - split; [intros [=] | intros (w2 & [=] & _)].
Qed.

End WebResolutionMore.

(** ** More on the mail identifier *)

Section MailResolutionMore.

Context (has_text : string -> string -> bool) (cfg : Config).
Implicit Types (w : world (list mail_row)) (p : page).

(** X18.  When the one row kept has one check box and its [value] attribute is
    missing or empty, the look-up raises [Found mail row but could not
    extract ID from checkbox value], and [MAIL_ID] has already been
    overwritten with that missing or empty value. *)
Theorem mail_checkbox_without_value p w r v :
  matching_rows has_text cfg (w_browser w) = [r] ->
  row_checkboxes r = [v] ->
  v = None \/ v = Some EmptyString ->
  exists w',
    get_mail_internal_id cfg (mail_list_env has_text) p w
    = (inl (Exception "Found mail row but could not extract ID from checkbox value"), w')
    /\ MAIL_ID (w_globals w') = v.
Proof.
  intros Hone Hboxes Hv.
  destruct (get_mail_internal_id_listing has_text cfg p w) as (w1 & _ & _ & E).
  cbv zeta in E. rewrite Hone in E. cbn [flat_map] in E. rewrite Hboxes in E.
  cbn [app strict_one] in E.
  destruct Hv as [-> | ->]; eexists; (split; [exact E | reflexivity]).
Qed.

End MailResolutionMore.

(** ** What the stages write *)

Section Keeps.

Context (pf : platform) (cfg : Config).
Context {B : Type} (env : forall X, cmd X -> B -> result X * B).
Context {T : Type} (f : globals -> T).
Implicit Types (w : world B) (p : page).

Lemma keeps_ret {A} (a : A) : keeps f (ret (B:=B) a).
Proof. intros w r w' [= <- <-]. reflexivity. Qed.

Lemma keeps_raise {A} (e : exn) : keeps f (raise (B:=B) (A:=A) e).
Proof. intros w r w' [= <- <-]. reflexivity. Qed.

Lemma keeps_lift_result {A} (x : result A) : keeps f (lift_result (B:=B) x).
Proof. intros w r w' [= <- <-]. reflexivity. Qed.

Lemma keeps_read_globals : keeps f (read_globals (B:=B)).
Proof. intros w r w' [= <- <-]. reflexivity. Qed.

Lemma keeps_logger l msg : keeps f (logger (B:=B) l msg).
Proof. intros w r w' [= <- <-]. reflexivity. Qed.

Lemma keeps_call {X} (c : cmd X) : keeps f (call env c).
Proof.
  intros w r w'. unfold call. destruct (env X c (w_browser w)) as [r0 b'].
  intros [= <- <-]. reflexivity.
Qed.

Lemma keeps_write_globals (u : globals -> globals) :
  (forall g, f (u g) = f g) -> keeps f (write_globals (B:=B) u).
Proof. intros Hu w r w' [= <- <-]. apply Hu. Qed.

Lemma keeps_bind {A C} (m : M B A) (k : A -> M B C) :
  keeps f m -> (forall a, keeps f (k a)) -> keeps f (bind m k).
Proof.
  intros Hm Hk w r w'. unfold bind. destruct (m w) as [[e|a] w1] eqn:E1.
  - intros [= <- <-]. eapply Hm, E1.
  - intros E2. rewrite (Hk a _ _ _ E2). eapply Hm, E1.
Qed.

Lemma keeps_try_except {A} (m : M B A) (h : exn -> M B A) :
  keeps f m -> (forall e, keeps f (h e)) -> keeps f (try_except m h).
Proof.
  intros Hm Hh w r w'. unfold try_except. destruct (m w) as [[e|a] w1] eqn:E1.
  - intros E2. rewrite (Hh e _ _ _ E2). eapply Hm, E1.
  - intros [= <- <-]. eapply Hm, E1.
Qed.

Lemma keeps_try_except_as {A} (is_C : exn -> bool) (m : M B A) (h : exn -> M B A) :
  keeps f m -> (forall e, keeps f (h e)) -> keeps f (try_except_as is_C m h).
Proof.
  intros Hm Hh. apply keeps_try_except; [exact Hm|].
  intros e. destruct (is_C e); [apply Hh | apply keeps_raise].
Qed.

Lemma keeps_try_finally {A} (m : M B A) (g : M B unit) :
  keeps f m -> keeps f g -> keeps f (try_finally m g).
Proof.
  intros Hm Hg w r w'. unfold try_finally. destruct (m w) as [r1 w1] eqn:E1.
  destruct (g w1) as [[e|u] w2] eqn:E2; intros [= <- <-];
    rewrite (Hg _ _ _ E2); eapply Hm, E1.
Qed.

Lemma keeps_for_in {A S} (l : list A) (body : A -> S -> M B S) :
  (forall x s, keeps f (body x s)) -> forall s, keeps f (for_in l body s).
Proof.
  intros Hbody. induction l as [|x l IH]; intros s; cbn [for_in].
  - apply keeps_ret.
  - apply keeps_bind; [apply Hbody | exact IH].
Qed.

End Keeps.

(** One step of a proof that a program keeps part of the globals: the
    combinators by their lemmas, the tests of the program by cases. *)
Ltac keeps_step :=
  first
    [ apply keeps_bind; [|intros ?]
    | apply keeps_for_in; intros ? ?
    | apply keeps_try_except_as; [|intros ?]
    | apply keeps_try_except; [|intros ?]
    | apply keeps_try_finally
    | apply keeps_logger | apply keeps_call | apply keeps_ret | apply keeps_raise
    | apply keeps_read_globals | apply keeps_lift_result
    | apply keeps_write_globals; intros ?; reflexivity
    | match goal with
      | |- keeps _ (if ?b then _ else _) => destruct b
      | |- keeps _ (match ?x with _ => _ end) => destruct x
      end ].

Section Stages.

Context (pf : platform) (cfg : Config).
Context {B : Type} (env : forall X, cmd X -> B -> result X * B).
Implicit Types (w : world B) (p : page).

(** X20.  The login and every step of the deployment leave all five globals as
    they are, whatever the browser answers and whether they return or
    raise: the identifiers are written by the two look-ups only. *)
Theorem login_and_deployment_keep_globals p cert_name key_content cert_content :
  keeps (fun g => g) (handle_login cfg env p)
  /\ keeps (fun g => g) (upload_web env p cert_name key_content cert_content)
  /\ keeps (fun g => g) (upload_mail env p cert_name key_content cert_content)
  /\ keeps (fun g => g) (bind_certificate env p cert_name).
Proof.
  repeat split.
  - unfold handle_login, submit_credentials, challenge_present, answer_challenge.
    repeat keeps_step.
  - unfold upload_web, upload_certificate, submit_certificate_form, await_confirmation.
    repeat keeps_step.
  - unfold upload_mail, upload_certificate, submit_certificate_form, await_confirmation.
    repeat keeps_step.
  - unfold bind_certificate, secure_mail_action, update_hosting_settings,
      update_mail_settings, select_pul_dropdown.
    repeat keeps_step.
Qed.

(** X21.  The look-up of the web identifiers writes [MAIN_WEB_ID] and
    [ALL_WEB_IDS] only, and the look-up of the mail identifier [MAIL_ID]
    only, whatever the page holds and whether they return or raise: the
    identifiers of the two subsystems are never mixed up. *)
Theorem lookups_write_their_own_identifiers p :
  keeps (fun g => (MAILHOSTING_ID g, WEBHOSTING_ID g, MAIL_ID g))
        (get_web_internal_ids pf cfg env p)
  /\ keeps (fun g => (MAILHOSTING_ID g, WEBHOSTING_ID g, MAIN_WEB_ID g, ALL_WEB_IDS g))
           (get_mail_internal_id cfg env p).
Proof.
  split.
  - unfold get_web_internal_ids, parse_data_obj, locate_domains_list, resolve_domains,
      scan_item.
    repeat keeps_step.
  - unfold get_mail_internal_id. repeat keeps_step.
Qed.

End Stages.

(** ** The order of the deployment *)

Section Visits.

Context {B : Type} (env : forall X, cmd X -> B -> result X * B).
Context (Hcoop : cooperative env).
Context (g : globals).
Implicit Types (w : world B) (p : page).

Lemma goto_urls_snoc (tr : list event) (ev : event) :
  goto_urls (tr ++ [ev]) = goto_urls tr ++ goto_urls [ev].
Proof. unfold goto_urls. apply flat_map_app. Qed.

Lemma visits_ret {A} (a : A) : visits g [] (ret (B:=B) a).
Proof.
  intros w Hg. exists a, w. rewrite app_nil_r. auto.
Qed.

Lemma visits_logger l msg : visits g [] (logger (B:=B) l msg).
Proof.
  intros w Hg. eexists tt, _. split; [reflexivity|]. cbn. rewrite app_nil_r. auto.
Qed.

Lemma visits_goto p url : visits g [url] (call env (Goto p url)).
Proof.
  intros w Hg. unfold call.
  destruct (Hcoop _ (Goto p url) (w_browser w)) as [H|(x & b' & ->)]; [discriminate|].
  exists x. eexists. split; [reflexivity|]. cbn [w_globals w_trace].
  split; [exact Hg|]. rewrite goto_urls_snoc. reflexivity.
Qed.

Lemma visits_call {X} (c : cmd X) :
  is_goto c = false -> is_confirmation_wait c = false -> visits g [] (call env c).
Proof.
  intros Hc Hw w Hg. unfold call.
  destruct (Hcoop _ c (w_browser w)) as [H|(x & b' & ->)]; [congruence|].
  exists x. eexists. split; [reflexivity|]. cbn [w_globals w_trace].
  split; [exact Hg|]. rewrite goto_urls_snoc.
  destruct c; try discriminate; reflexivity.
Qed.

Lemma visits_bind {A C} (m : M B A) (k : A -> M B C) urls1 urls2 :
  visits g urls1 m -> (forall a, visits g urls2 (k a)) ->
  visits g (urls1 ++ urls2) (bind m k).
Proof.
  intros Hm Hk w Hg. destruct (Hm w Hg) as (a & w1 & E1 & Hg1 & T1).
  destruct (Hk a w1 Hg1) as (c & w2 & E2 & Hg2 & T2).
  exists c, w2. unfold bind. rewrite E1. split; [exact E2|]. split; [exact Hg2|].
  rewrite T2, T1, app_assoc. reflexivity.
Qed.

Lemma visits_read_globals {C} (k : globals -> M B C) urls :
  visits g urls (k g) -> visits g urls (bind read_globals k).
Proof.
  intros Hk w Hg. unfold bind, read_globals. rewrite Hg. apply Hk, Hg.
Qed.

Lemma visits_for_in {A} (l : list A) (body : A -> unit -> M B unit) (url_of : A -> string) :
  (forall x s, visits g [url_of x] (body x s)) ->
  visits g (map url_of l) (for_in l body tt).
Proof.
  intros Hbody. induction l as [|x l IH]; cbn [for_in map].
  - apply visits_ret.
  - change (url_of x :: map url_of l) with ([url_of x] ++ map url_of l).
    apply visits_bind; [apply Hbody|]. intros []. exact IH.
Qed.

Lemma visits_await_confirmation p : visits g [] (await_confirmation env p).
Proof.
  intros w Hg. unfold await_confirmation, try_except, call, logger.
  destruct (env _ _ (w_browser w)) as [[e|[]] b'];
    eexists tt, _; (split; [reflexivity|]); cbn [w_globals w_trace];
    (split; [exact Hg|]); rewrite goto_urls_snoc; reflexivity.
Qed.

Lemma visits_eq {A} (m : M B A) urls urls' :
  visits g urls m -> urls = urls' -> visits g urls' m.
Proof. intros H <-. exact H. Qed.

End Visits.

(** One step of a proof of the addresses a program navigates to. *)
Ltac visits_step Hcoop :=
  first
    [ apply visits_read_globals
    | eapply visits_bind; [|intros ?]
    | apply visits_goto; exact Hcoop
    | apply visits_call; [exact Hcoop | reflexivity | reflexivity]
    | apply visits_logger
    | apply visits_await_confirmation
    | apply visits_ret
    | match goal with
      | |- visits _ _ (if ?b then _ else _) => destruct b
      end ].

Section Deployment.

Context (pf : platform) (cfg : Config).
Context {B : Type} (env : forall X, cmd X -> B -> result X * B).
Implicit Types (w : world B) (p : page).

Lemma visits_upload_certificate (Hcoop : cooperative env) g p url cert_name key_data cert_data :
  visits g [url] (upload_certificate env p url cert_name key_data cert_data).
Proof.
  unfold upload_certificate, submit_certificate_form.
  eapply visits_eq.
  - repeat visits_step Hcoop.
  - reflexivity.
Qed.

Lemma visits_secure_mail_action (Hcoop : cooperative env) g p url cert_name :
  visits g [url] (secure_mail_action env p url cert_name).
Proof.
  unfold secure_mail_action.
  eapply visits_eq; [repeat visits_step Hcoop | reflexivity].
Qed.

Lemma visits_update_hosting_settings (Hcoop : cooperative env) g p url cert_name :
  visits g [url] (update_hosting_settings env p url cert_name).
Proof.
  unfold update_hosting_settings, select_pul_dropdown.
  eapply visits_eq; [repeat visits_step Hcoop | reflexivity].
Qed.

Lemma visits_update_mail_settings (Hcoop : cooperative env) g p url cert_name :
  visits g [url] (update_mail_settings env p url cert_name).
Proof.
  unfold update_mail_settings, select_pul_dropdown.
  eapply visits_eq; [repeat visits_step Hcoop | reflexivity].
Qed.

Lemma visits_bind_certificate (Hcoop : cooperative env) g p cert_name :
  visits g
    ([panel_url (WEBHOSTING_ID g)
        ("ssl-certificate/list/id/" +:+ PyStr.of_option (MAIN_WEB_ID g))]
     ++ map (fun sub_id => panel_url (WEBHOSTING_ID g)
                             ("web/view/" +:+ sub_id +:+ "/hosting-settings"))
            (ALL_WEB_IDS g)
     ++ [panel_url (MAILHOSTING_ID g)
           ("ssl-certificate/list/id/" +:+ PyStr.of_option (MAIL_ID g));
         panel_url (MAILHOSTING_ID g)
           ("mail-settings/edit/id/" +:+ PyStr.of_option (MAIL_ID g)
            +:+ "/domainId/" +:+ PyStr.of_option (MAIL_ID g))])
    (bind_certificate env p cert_name).
Proof.
  unfold bind_certificate.
  apply visits_read_globals.
  apply visits_bind; [apply visits_secure_mail_action, Hcoop | intros _].
  apply visits_read_globals.
  apply visits_bind.
  { apply (visits_for_in g (ALL_WEB_IDS g) _
             (fun sub_id => panel_url (WEBHOSTING_ID g)
                              ("web/view/" +:+ sub_id +:+ "/hosting-settings"))).
    intros sub_id []. apply visits_read_globals.
    apply visits_update_hosting_settings, Hcoop. }
  intros _. apply visits_read_globals.
  change [?a; ?b] with ([a] ++ [b]).
  apply visits_bind; [apply visits_secure_mail_action, Hcoop | intros _].
  apply visits_read_globals. apply visits_update_mail_settings, Hcoop.
Qed.

(** X22.  In a browser where every command succeeds (the confirmation of an
    upload may or may not show), the steps after the two look-ups return
    normally, write no global and navigate, in this order, to: the upload
    form of the web subsystem, the upload form of the mail subsystem, the
    certificate list of the main web identifier, the hosting settings of
    every identifier of [ALL_WEB_IDS] in its order, the certificate list of
    the mail identifier and its mail settings. *)
Theorem deployment_order (Hcoop : cooperative env) p cert_name key_content cert_content
    w0 w1 w :
  handle_login cfg env p w0 = (inr tt, w1) ->
  trigger_auto_login pf cfg env p w1 = (inr tt, w) ->
  exists w',
    run_steps pf cfg env p cert_name key_content cert_content w0 = (inr tt, w')
    /\ w_globals w' = w_globals w
    /\ goto_urls (w_trace w') = goto_urls (w_trace w) ++ deployment_urls (w_globals w)
    /\ last (w_log w') = Some (INFO, "All tasks completed successfully.").
Proof.
  intros Hlogin Hsso.
  assert (Hup : visits (w_globals w) (deployment_urls (w_globals w))
                  (bind (upload_web env p cert_name key_content cert_content)
                     (fun _ => bind (upload_mail env p cert_name key_content cert_content)
                                 (fun _ => bind_certificate env p cert_name)))).
  { unfold deployment_urls, upload_web, upload_mail.
    change [?a; ?b; ?c] with ([a] ++ [b] ++ [c]).
    rewrite <- !app_assoc.
    apply visits_bind; [apply visits_read_globals, visits_upload_certificate, Hcoop|].
    intros _.
    apply visits_bind; [apply visits_read_globals, visits_upload_certificate, Hcoop|].
    intros _. apply visits_bind_certificate, Hcoop. }
  destruct (Hup w eq_refl) as ([] & w2 & E & Hg & Htr).
  unfold run_steps, bind at 1 2. rewrite Hlogin, Hsso.
  unfold bind in E |- *.
  destruct (upload_web env p cert_name key_content cert_content w) as [[e1|[]] wa];
    [discriminate|].
  destruct (upload_mail env p cert_name key_content cert_content wa) as [[e2|[]] wb];
    [discriminate|].
  rewrite E. unfold logger. eexists. split; [reflexivity|].
  cbn [w_globals w_trace w_log]. split; [exact Hg|]. split; [exact Htr|].
  apply last_snoc.
Qed.

(** X23.  The deployment stops at the first failure: when the hosting settings
    of one identifier of [ALL_WEB_IDS] raise, after those before it went
    through, [bind_certificate] raises that exception there; the identifiers
    after it and the mail subsystem are not visited. *)
Theorem hosting_failure_stops_deployment p cert_name w before sub_id after w1 w2 e w3 :
  ALL_WEB_IDS (w_globals w) = before ++ sub_id :: after ->
  secure_mail_action env p
    (panel_url (WEBHOSTING_ID (w_globals w))
       ("ssl-certificate/list/id/" +:+ PyStr.of_option (MAIN_WEB_ID (w_globals w))))
    cert_name w = (inr tt, w1) ->
  for_in before
    (fun sub_id (_ : unit) =>
       bind read_globals
            (fun g => update_hosting_settings env p (hosting_settings_url g sub_id) cert_name))
    tt w1 = (inr tt, w2) ->
  update_hosting_settings env p (hosting_settings_url (w_globals w) sub_id) cert_name w2
    = (inl e, w3) ->
  bind_certificate env p cert_name w = (inl e, w3).
Proof.
  intros Hids Hlist Hbefore Hfail.
  assert (Hg1 : w_globals w1 = w_globals w).
  { assert (K : keeps (fun g => g)
                  (secure_mail_action env p
                     (panel_url (WEBHOSTING_ID (w_globals w))
                        ("ssl-certificate/list/id/"
                         +:+ PyStr.of_option (MAIN_WEB_ID (w_globals w)))) cert_name))
      by (unfold secure_mail_action; repeat keeps_step).
    exact (K _ _ _ Hlist). }
  assert (Hg2 : w_globals w2 = w_globals w1).
  { assert (K : keeps (fun g => g)
                  (for_in before
                     (fun sub_id (_ : unit) =>
                        bind read_globals
                             (fun g => update_hosting_settings env p
                                         (hosting_settings_url g sub_id) cert_name)) tt))
      by (apply keeps_for_in; intros ? ?;
          unfold update_hosting_settings, select_pul_dropdown; repeat keeps_step).
    exact (K _ _ _ Hbefore). }
  unfold bind_certificate, bind at 1 2, read_globals at 1. rewrite Hlist.
  unfold bind at 1 2, read_globals at 1. rewrite Hg1, Hids.
  unfold hosting_settings_url in Hbefore, Hfail.
  rewrite for_in_app. unfold bind at 1. rewrite Hbefore.
  cbn [for_in]. unfold bind at 1 2, read_globals at 1.
  rewrite Hg2, Hg1, Hfail. reflexivity.
Qed.

End Deployment.

(** ** The look-ups and the page *)

Section Lookups.

Context (pf : platform) (cfg : Config).
Context {B : Type} (env : forall X, cmd X -> B -> result X * B).
Implicit Types (w : world B) (p : page).

(** X24.  On a page whose data object has no [error] key and holds the list
    [l] under [data.data.data], [get_web_internal_ids] is the resolution of
    [l] under the handler that logs and raises again: what holds of
    [resolve_domains] on a list holds of the look-up on such a page. *)
Theorem web_lookup_runs_resolution p w (top body inner : gmap string json) l b1 :
  env _ (Evaluate p PLESK_SCRIPT) (w_browser w) = (inr (JObj top), b1) ->
  top !! "error" = None ->
  top !! "data" = Some (JObj body) ->
  body !! "data" = Some (JObj inner) ->
  inner !! "data" = Some (JArr l) ->
  get_web_internal_ids pf cfg env p w =
    try_except_as is_Exception (resolve_domains pf cfg l)
      (fun e => bind (logger ERROR ("Error parsing returned JSON data: " +:+ exn_str e))
                     (fun _ => raise e))
      (answered (logged w [(INFO, "Navigating to Web View to find IDs for "
                                  +:+ NC_DOMAIN cfg)])
                (Evaluate p PLESK_SCRIPT) (inr (JObj top)) b1).
Proof.
  intros Heval Herr Htop Hbody Hinner.
  unfold get_web_internal_ids, bind at 1 2, logger at 1, call at 1.
  cbn [w_browser w_globals w_log w_trace]. rewrite Heval.
  rewrite (truthy_dict_with_key top "data" _ Htop). cbn [negb].
  unfold bind at 1, lift_result at 1. cbn [Py.contains]. rewrite Herr.
  unfold parse_data_obj, try_except_as, try_except, bind at 1.
  unfold locate_domains_list, bind, lift_result. cbn [Py.get]. rewrite Htop.
  cbn [default from_option id].
  rewrite (truthy_dict_with_key body "data" _ Hbody). cbn [Py.get].
  rewrite Hbody. cbn [default from_option id Py.get]. rewrite Hinner.
  reflexivity.
Qed.

(** X25.  The first thing [get_mail_internal_id] asks of the browser is the
    mail listing of [MAILHOSTING_ID], at [https://None.webhosting.systems/...]
    when that identifier was never set; when this navigation raises,
    nothing else is asked and the exception is the outcome. *)
Theorem mail_lookup_starts_at_listing p w r w' :
  get_mail_internal_id cfg env p w = (r, w') ->
  exists answer rest,
    w_trace w' = w_trace w ++ Ev (Goto p (mail_list_url (w_globals w))) answer :: rest
    /\ (forall e, answer = inl e -> rest = [] /\ r = inl e).
Proof.
  unfold get_mail_internal_id, mail_list_url, bind, read_globals, logger, call,
    write_globals, raise.
  cbn [w_browser w_globals w_log w_trace].
  destruct (env _ (Goto p _) (w_browser w)) as [[e0|[]] b1].
  { intros [= <- <-]. exists (inl e0), []. split; [reflexivity|].
    intros e [= <-]. split; reflexivity. }
  cbn [w_browser w_globals w_log w_trace].
  destruct (env _ (WaitForLoadState p "networkidle" None) b1) as [[e1|[]] b2].
  { intros [= <- <-]. eexists (inr tt), _. cbn [w_trace].
    split; [rewrite <- !app_assoc; reflexivity | discriminate]. }
  cbn [w_browser w_globals w_log w_trace].
  destruct (env _ (Count p _) b2) as [[e2|n] b3].
  { intros [= <- <-]. eexists (inr tt), _. cbn [w_trace].
    split; [rewrite <- !app_assoc; reflexivity | discriminate]. }
  cbn [w_browser w_globals w_log w_trace].
  destruct (Nat.eqb n 0).
  { intros [= <- <-]. eexists (inr tt), _. cbn [w_trace].
    split; [rewrite <- !app_assoc; reflexivity | discriminate]. }
  cbn [w_browser w_globals w_log w_trace].
  destruct (env _ (GetAttribute p _ "value") b3) as [[e3|v] b4].
  { intros [= <- <-]. eexists (inr tt), _. cbn [w_trace].
    split; [rewrite <- !app_assoc; reflexivity | discriminate]. }
  cbn [w_browser w_globals w_log w_trace].
  destruct v as [[|c s]|]; intros [= <- <-]; eexists (inr tt), _; cbn [w_trace];
    (split; [rewrite <- !app_assoc; reflexivity | discriminate]).
Qed.

End Lookups.

(** ** The further properties at sample inputs *)

Section MoreWitnesses.

Lemma load_config_values_witness :
  load_config MoreSamples.environ = inr Sample.cfg
  /\ NC_DOMAIN Sample.cfg <> EmptyString
  /\ SSL_PRIVATE_KEY Sample.cfg
     = default "/data/key.pem" (MoreSamples.environ !! "SSL_PRIVATE_KEY").
Proof.
  assert (H : load_config MoreSamples.environ = inr Sample.cfg)
    by (vm_compute; reflexivity).
  split; [exact H|].
  destruct (load_config_values MoreSamples.environ Sample.cfg H)
    as (_ & _ & _ & _ & (_ & Hdomain) & _ & (Hkey & _) & _).
  split; [exact Hdomain | exact Hkey].
Defined.

Lemma sso_button_not_visible_witness :
  fst (process_sso_button Sample.pf Sample.cfg (Faulty.env Faulty.ButtonHidden)
         0%nat "Auto-Login WEB" Sample.w0)
  = inl (Exception "Failed to Auto-Login WEB: Button Auto-Login WEB not found.").
Proof.
  rewrite (sso_button_not_visible Sample.pf Sample.cfg (Faulty.env Faulty.ButtonHidden)
             0%nat "Auto-Login WEB" Sample.w0 tt); [reflexivity|].
  vm_compute. reflexivity.
Defined.

Lemma sso_click_failure_wrapped_witness :
  fst (process_sso_button Sample.pf Sample.cfg (Faulty.env Faulty.ClickFails)
         0%nat "Auto-Login WEB" Sample.w0)
  = inl (Exception
           "Failed to Auto-Login WEB: Timeout 30000ms exceeded while waiting for event").
Proof.
  rewrite (sso_click_failure_wrapped Sample.pf Sample.cfg (Faulty.env Faulty.ClickFails)
             0%nat "Auto-Login WEB" Sample.w0 tt
             (Exn CTimeoutError "Timeout 30000ms exceeded while waiting for event") tt);
    [reflexivity | vm_compute; reflexivity | vm_compute; reflexivity].
Defined.

Lemma sso_load_timeout_wrapped_witness :
  exists w',
    process_sso_button Sample.pf Sample.cfg (Faulty.env Faulty.LoadTimesOut)
      0%nat "Auto-Login WEB" Sample.w0
    = (inl (Exception "Page load timed out: Timeout 60000ms exceeded."), w')
    /\ w_globals w' = w_globals Sample.w0
    /\ w_trace w' = w_trace Sample.w0 ++
         [Ev (IsVisible 0%nat (get_by_text "Auto-Login WEB" true)) (inr true);
          Ev (ExpectPageClick 0%nat (get_by_text "Auto-Login WEB" true)) (inr 1%nat);
          Ev (PageUrl 1%nat) (inr "about:blank");
          Ev (WaitForLoadState 1%nat "networkidle" (Some 60000))
             (inl (Exn CTimeoutError "Timeout 60000ms exceeded."))].
Proof.
  apply (sso_load_timeout_wrapped Sample.pf Sample.cfg (Faulty.env Faulty.LoadTimesOut)
           0%nat "Auto-Login WEB" Sample.w0 tt 1%nat tt "about:blank" tt
           (Exn CTimeoutError "Timeout 60000ms exceeded.") tt);
    vm_compute; reflexivity.
Defined.

Lemma product_row_missing_witness :
  fst (trigger_auto_login Sample.pf Sample.cfg (Faulty.env Faulty.NoProductRow)
         0%nat Sample.w0)
  = inl (Exception "Product row for 'Webhosting 4000' not found").
Proof.
  rewrite (product_row_missing Sample.pf Sample.cfg (Faulty.env Faulty.NoProductRow)
             0%nat Sample.w0 tt tt tt); [reflexivity | | |]; vm_compute; reflexivity.
Defined.

Lemma host_id_is_first_label_witness :
  exists id rest,
    extract_host_id Sample.pf "https://web01.webhosting.systems/smb/" Sample.w0
      = (inr (Some id),
         logged Sample.w0 [(INFO, "Extracted Host ID from URL: " +:+ id)])
    /\ "web01.webhosting.systems" = id +:+ rest
    /\ (rest = EmptyString \/ exists r, rest = "." +:+ r)
    /\ PyStr.contains "." id = false.
Proof.
  apply (host_id_is_first_label Sample.pf "https://web01.webhosting.systems/smb/"
           "web01.webhosting.systems" Sample.w0);
    [vm_compute; reflexivity | discriminate].
Defined.

Lemma page_without_data_rejected_witness :
  (exists w', get_web_internal_ids Sample.pf Sample.cfg (Sample.env Sample.late_evening)
                1%nat Sample.w0
              = (inl (Exception "Failed to retrieve Plesk data via JS"), w')
              /\ w_globals w' = w_globals Sample.w0)
  /\ (exists w', get_web_internal_ids Sample.pf Sample.cfg
                   (Sample.env_with Sample.late_evening
                      (py_dict [("error", JStr "SyntaxError: Unexpected token")]))
                   1%nat Sample.w0
                 = (inl (Exception "JS execution failed inside browser"), w')
                 /\ w_globals w' = w_globals Sample.w0
                 /\ last (w_log w')
                    = Some (ERROR, "JS execution error: SyntaxError: Unexpected token")).
Proof.
  split.
  - apply (proj1 (page_without_data_rejected Sample.pf Sample.cfg
                    (Sample.env Sample.late_evening) 1%nat Sample.w0 JNull tt
                    ltac:(vm_compute; reflexivity))).
    reflexivity.
  - apply (proj2 (page_without_data_rejected Sample.pf Sample.cfg
                    (Sample.env_with Sample.late_evening
                       (py_dict [("error", JStr "SyntaxError: Unexpected token")]))
                    1%nat Sample.w0
                    (py_dict [("error", JStr "SyntaxError: Unexpected token")]) tt
                    ltac:(vm_compute; reflexivity))
             (list_to_map [("error", JStr "SyntaxError: Unexpected token")])
             (JStr "SyntaxError: Unexpected token"));
      vm_compute; reflexivity.
Defined.

Lemma challenge_answered_with_computed_code_witness :
  exists r w' rest,
    handle_login Sample.cfg (Faulty.env Faulty.ChallengeShown) 0%nat Sample.w0 = (r, w')
    /\ w_trace w'
       = w_trace (snd (submit_credentials Sample.cfg (Faulty.env Faulty.ChallengeShown)
                         0%nat Sample.w0)) ++
         Ev (PageUrl 0%nat) (inr "https://www.customercontrolpanel.de/start.php")
         :: Ev (TotpNow "JBSWY3DPEHPK3PXP") (inr "492039")
         :: rest
    /\ (exists fill_answer more,
          rest = Ev (Fill 0%nat (get_by_placeholder "TAN") "492039") fill_answer :: more
          /\ Forall (fun ev => match ev with
                               | Ev (PageContent _) _ | Ev (TotpNow _) _ => False
                               | _ => True
                               end) rest).
Proof.
  apply (challenge_answered_with_computed_code Sample.cfg
           (Faulty.env Faulty.ChallengeShown) 0%nat Sample.w0
           (snd (submit_credentials Sample.cfg (Faulty.env Faulty.ChallengeShown)
                   0%nat Sample.w0))
           "https://www.customercontrolpanel.de/start.php" tt "492039" tt);
    vm_compute; reflexivity.
Defined.

Lemma unreadable_key_stops_before_launch_witness :
  fst (main Sample.pf Sample.cfg (Faulty.env Faulty.KeyFileMissing) Sample.w0)
  = inl (Exn CFileNotFoundError "No such file or directory")
  /\ w_trace (snd (main Sample.pf Sample.cfg (Faulty.env Faulty.KeyFileMissing) Sample.w0))
     = [Ev DatetimeNow (inr (local_now Sample.late_evening));
        Ev (ReadFile "/data/key.pem")
           (inl (Exn CFileNotFoundError "No such file or directory"))].
Proof.
  rewrite (unreadable_key_stops_before_launch Sample.pf Sample.cfg
             (Faulty.env Faulty.KeyFileMissing) Sample.w0
             (local_now Sample.late_evening) tt
             (Exn CFileNotFoundError "No such file or directory") tt);
    [split; reflexivity | vm_compute; reflexivity | vm_compute; reflexivity].
Defined.

Lemma release_always_runs_witness :
  let env := Sample.env Sample.late_evening in
  let run := try_finally (guarded_steps Sample.pf Sample.cfg env 0%nat "acme" "KEY" "CERT")
                         (release env) Sample.w0 in
  exists r1 w1,
    guarded_steps Sample.pf Sample.cfg env 0%nat "acme" "KEY" "CERT" Sample.w0 = (r1, w1)
    /\ ((exists e b, snd run = answered w1 CloseContext (inl e) b /\ fst run = inl e)
        \/ (exists b answer b',
              snd run = answered (answered w1 CloseContext (inr tt) b) CloseBrowser answer b'
              /\ fst run = match answer with inl e => inl e | inr _ => r1 end)).
Proof.
  intros env run.
  apply (release_always_runs Sample.pf Sample.cfg env 0%nat "acme" "KEY" "CERT"
           Sample.w0 (fst run) (snd run)).
  vm_compute. reflexivity.
Defined.

Lemma failure_diagnostics_witness :
  let env := Sample.env Sample.late_evening in
  let e := Exception "Failed to retrieve Plesk data via JS" in
  let w1 := snd (run_steps Sample.pf Sample.cfg env 0%nat "acme" "KEY" "CERT" Sample.w0) in
  guarded_steps Sample.pf Sample.cfg env 0%nat "acme" "KEY" "CERT" Sample.w0
  = (inl e,
     answered (logged w1 [(ERROR, "Task execution failed: Failed to retrieve Plesk data via JS")])
              (Screenshot 0%nat "error_screenshot.png") (inr tt) tt).
Proof.
  intros env e w1.
  apply (proj1 (failure_diagnostics Sample.pf Sample.cfg env 0%nat "acme" "KEY" "CERT"
                  Sample.w0 e w1 ltac:(vm_compute; reflexivity))
           ltac:(reflexivity) (inr tt) tt).
  vm_compute. reflexivity.
Defined.

Lemma unrelated_entries_ignored_witness :
  fst (resolve_domains Sample.pf Sample.cfg Sample.scenario_A Sample.w0)
  = fst (resolve_domains Sample.pf Sample.cfg
           (List.filter (is_match Sample.cfg) Sample.scenario_A) Sample.w0)
  /\ w_globals (snd (resolve_domains Sample.pf Sample.cfg Sample.scenario_A Sample.w0))
     = w_globals (snd (resolve_domains Sample.pf Sample.cfg
                         (List.filter (is_match Sample.cfg) Sample.scenario_A) Sample.w0)).
Proof.
  apply (unrelated_entries_ignored Sample.pf Sample.cfg Sample.scenario_A Sample.w0).
  vm_compute. reflexivity.
Defined.

Lemma malformed_entry_leaves_partial_state_witness :
  exists w',
    resolve_domains Sample.pf Sample.cfg MoreSamples.with_nameless_entry Sample.w0
    = (inl (Exn CAttributeError "'NoneType' object has no attribute 'endswith'"), w')
    /\ w_globals w'
       = scan_globals Sample.pf Sample.cfg [domain_record "example.com" 101]
           (set_ALL_WEB_IDS [] (w_globals Sample.w0)).
Proof.
  apply (malformed_entry_leaves_partial_state Sample.pf Sample.cfg
           [domain_record "example.com" 101] (py_dict [("domainId", JInt 7)])
           [domain_record "blog.example.com" 102] Sample.w0);
    vm_compute; reflexivity.
Defined.

Lemma payload_without_data_key_witness :
  locate_domains_list Sample.pf (py_dict [("props", JInt 1)]) Sample.w0
  = (inr [], Sample.w0)
  /\ fst (parse_data_obj Sample.pf Sample.cfg (py_dict [("props", JInt 1)]) Sample.w0)
     = inl (domain_not_found Sample.cfg).
Proof.
  apply (payload_without_data_key Sample.pf Sample.cfg
           (list_to_map [("props", JInt 1)]) Sample.w0).
  vm_compute. reflexivity.
Defined.

Lemma structure_mismatch_witness :
  fst (locate_domains_list Sample.pf
         (py_dict [("data", py_dict [("data", py_dict [("data", JInt 5)])])]) Sample.w0)
  = inl (Exception "JSON structure mismatch").
Proof.
  unfold py_dict.
  rewrite (structure_mismatch Sample.pf
             (list_to_map [("data", py_dict [("data", py_dict [("data", JInt 5)])])])
             (list_to_map [("data", py_dict [("data", JInt 5)])])
             (list_to_map [("data", JInt 5)]) (JInt 5) Sample.w0);
    [reflexivity | | | |]; vm_compute; reflexivity.
Defined.

Lemma parse_failure_logged_witness :
  let data_obj := Payload.nested Sample.scenario_A in
  let run := parse_data_obj Sample.pf Sample.cfg data_obj Sample.w0 in
  let e := Exn CAttributeError "'list' object has no attribute 'get'" in
  exists w1,
    bind (locate_domains_list Sample.pf data_obj)
         (resolve_domains Sample.pf Sample.cfg) Sample.w0 = (inl e, w1)
    /\ is_Exception e = true
    /\ snd run
       = logged w1 [(ERROR, "Error parsing returned JSON data: " +:+ exn_str e)]
    /\ last (w_log (snd run))
       = Some (ERROR, "Error parsing returned JSON data: " +:+ exn_str e).
Proof.
  intros data_obj run e.
  apply (proj1 (parse_failure_logged Sample.pf Sample.cfg data_obj Sample.w0 e (snd run))).
  vm_compute. reflexivity.
Defined.

Lemma mail_checkbox_without_value_witness :
  exists w',
    get_mail_internal_id Sample.cfg (mail_list_env pw_has_text) 1%nat
      (Sample.mail_world MoreSamples.valueless_listing)
    = (inl (Exception "Found mail row but could not extract ID from checkbox value"), w')
    /\ MAIL_ID (w_globals w') = None.
Proof.
  apply (mail_checkbox_without_value pw_has_text Sample.cfg 1%nat
           (Sample.mail_world MoreSamples.valueless_listing)
           (MailRow "example.com" [None]) None);
    [vm_compute; reflexivity | reflexivity | left; reflexivity].
Defined.

Lemma mail_id_ambiguous_rows_witness :
  exists w',
    get_mail_internal_id Sample.cfg (mail_list_env pw_has_text) 1%nat
      (Sample.mail_world MoreSamples.both_listing)
    = (inl (Exn CPlaywrightError "strict mode violation"), w').
Proof.
  apply (mail_id_ambiguous_rows pw_has_text Sample.cfg 1%nat
           (Sample.mail_world MoreSamples.both_listing) (Some "5") (Some "7") []).
  vm_compute. reflexivity.
Defined.

Lemma resolved_env_cooperative : cooperative Resolved.env.
Proof.
  intros X c b. destruct c; try (right; eexists _, _; reflexivity).
  left. reflexivity.
Qed.

Lemma deployment_order_witness :
  let w := snd (trigger_auto_login Sample.pf Sample.cfg Resolved.env 0%nat
                  (snd (handle_login Sample.cfg Resolved.env 0%nat Sample.w0))) in
  exists w',
    run_steps Sample.pf Sample.cfg Resolved.env 0%nat "acme" "KEY" "CERT" Sample.w0
    = (inr tt, w')
    /\ w_globals w' = w_globals w
    /\ goto_urls (w_trace w') = goto_urls (w_trace w) ++ deployment_urls (w_globals w)
    /\ last (w_log w') = Some (INFO, "All tasks completed successfully.").
Proof.
  intros w.
  apply (deployment_order Sample.pf Sample.cfg Resolved.env resolved_env_cooperative
           0%nat "acme" "KEY" "CERT" Sample.w0
           (snd (handle_login Sample.cfg Resolved.env 0%nat Sample.w0)) w);
    vm_compute; reflexivity.
Defined.

(** The addresses of that run of the deployment. *)
Example deployment_urls_of_scenario_A :
  deployment_urls
    (w_globals (snd (trigger_auto_login Sample.pf Sample.cfg Resolved.env 0%nat
                       (snd (handle_login Sample.cfg Resolved.env 0%nat Sample.w0)))))
  = ["https://web01.webhosting.systems/smb/ssl-certificate/add/id/101";
     "https://web01.webhosting.systems/smb/ssl-certificate/add/id/5";
     "https://web01.webhosting.systems/smb/ssl-certificate/list/id/101";
     "https://web01.webhosting.systems/smb/web/view/101/hosting-settings";
     "https://web01.webhosting.systems/smb/web/view/102/hosting-settings";
     "https://web01.webhosting.systems/smb/ssl-certificate/list/id/5";
     "https://web01.webhosting.systems/smb/mail-settings/edit/id/5/domainId/5"].
Proof. vm_compute. reflexivity. Qed.

Lemma hosting_failure_stops_deployment_witness :
  fst (bind_certificate Resolved.env_102_down 0%nat "acme" MoreSamples.w_resolved)
  = inl (Exn CPlaywrightError "net::ERR_CONNECTION_REFUSED")
  /\ goto_urls (w_trace (snd (bind_certificate Resolved.env_102_down 0%nat "acme"
                                MoreSamples.w_resolved)))
     = ["https://web01.webhosting.systems/smb/ssl-certificate/list/id/101";
        "https://web01.webhosting.systems/smb/web/view/101/hosting-settings";
        "https://web01.webhosting.systems/smb/web/view/102/hosting-settings"].
Proof.
  set (w1 := snd (secure_mail_action Resolved.env_102_down 0%nat
                    "https://web01.webhosting.systems/smb/ssl-certificate/list/id/101"
                    "acme" MoreSamples.w_resolved)).
  set (w2 := snd (update_hosting_settings Resolved.env_102_down 0%nat
                    "https://web01.webhosting.systems/smb/web/view/101/hosting-settings"
                    "acme" w1)).
  set (w3 := snd (update_hosting_settings Resolved.env_102_down 0%nat
                    "https://web01.webhosting.systems/smb/web/view/102/hosting-settings"
                    "acme" w2)).
  rewrite (hosting_failure_stops_deployment Resolved.env_102_down 0%nat "acme"
             MoreSamples.w_resolved ["101"] "102" [] w1 w2
             (Exn CPlaywrightError "net::ERR_CONNECTION_REFUSED") w3);
    [split; vm_compute; reflexivity | | | |]; vm_compute; reflexivity.
Defined.

Lemma web_lookup_runs_resolution_witness :
  get_web_internal_ids Sample.pf Sample.cfg Resolved.env 1%nat Sample.w0
  = try_except_as is_Exception (resolve_domains Sample.pf Sample.cfg Sample.scenario_A)
      (fun e => bind (logger ERROR ("Error parsing returned JSON data: " +:+ exn_str e))
                     (fun _ => raise e))
      (answered (logged Sample.w0
                   [(INFO, "Navigating to Web View to find IDs for example.com")])
                (Evaluate 1%nat PLESK_SCRIPT) (inr (Payload.deep Sample.scenario_A)) tt).
Proof.
  apply (web_lookup_runs_resolution Sample.pf Sample.cfg Resolved.env 1%nat Sample.w0
           (list_to_map
              [("data", py_dict [("data", py_dict [("data", JArr Sample.scenario_A)])])])
           (list_to_map [("data", py_dict [("data", JArr Sample.scenario_A)])])
           (list_to_map [("data", JArr Sample.scenario_A)])
           Sample.scenario_A tt);
    vm_compute; reflexivity.
Defined.

Lemma mail_lookup_starts_at_listing_witness :
  let env := Sample.env Sample.late_evening in
  let run := get_mail_internal_id Sample.cfg env 1%nat Sample.w0 in
  exists answer rest,
    w_trace (snd run)
    = w_trace Sample.w0
      ++ Ev (Goto 1%nat "https://None.webhosting.systems/smb/mail-settings/list") answer
         :: rest
    /\ (forall e, answer = inl e -> rest = [] /\ fst run = inl e).
Proof.
  intros env run.
  apply (mail_lookup_starts_at_listing Sample.cfg env 1%nat Sample.w0 (fst run) (snd run)).
  vm_compute. reflexivity.
Defined.

End MoreWitnesses.
